(** * pygwcoh, [_datatypes/series.py]: uniformly sampled series and the
    sorted multi-series containers built from them.

    The Python classes [Series], [TimeSeries], [MultiSeries] and
    [TimeFreqSpectrum] are embedded as records and functions.  Numbers are
    exact rationals ([Q]); Python's [==], [!=], [>] and [>=] on numbers are
    [Qeq_bool] and [Qle_bool].  A numpy array is a shape and its row-major
    data.  A Python exception is a value of [exn]; a method that builds a
    fresh object returns a [result], a method that mutates [self] runs in
    the state-and-exception monad [M], whose state survives a raise exactly
    as the attributes of a Python object do.

    What the numbers leave out.  A number of the model is the real that a
    Python [int] or [float] stands for: rounding is not modelled, and an
    array is the numbers it holds, without its dtype.  Reading, comparing,
    slicing and moving entries do not depend on either.  Storing a number
    in an existing array does: numpy casts it to the array's dtype, and an
    [int] too large for a float raises OverflowError when it is converted.
    [Series.__setitem__] therefore takes the dtype of the buffer as an
    argument; for the arrays of keys and epochs, which [append] extends with
    [np.insert], the statements name the calls for which the cast changes
    nothing ([float_exact], [plain_call], [float_keyed] below); and the
    statements that say which slices raise bound the step
    ([step_in_float_range]). *)

From Stdlib Require Import String ZArith QArith Qabs List Bool Lia Sorted.
Import ListNotations.

Local Open Scope nat_scope.

(** ** Python exceptions and results *)

Inductive exn : Type :=
| Exception (msg : string)   (* a bare [raise Exception(...)] *)
| ValueError
| TypeError
| AttributeError
| IndexError
| ZeroDivisionError
| OverflowError.

(** The messages of the bare exceptions of the module, without the
    interpolated values.  The specification calls the first four
    ShapeError. *)
Definition ShapeError : exn := Exception "Shape error"%string.
Definition IncompatibleSize : exn := Exception "Incompatible size"%string.
Definition IncompatibleDeltax : exn := Exception "Incompatible deltax"%string.
Definition IncompatibleEpoch : exn := Exception "Incompatible shape for epoch"%string.
Definition ShapeErrorY : exn := Exception "Shape error for y"%string.
Definition IncompatibleSizeY : exn := Exception "Incompatible size for y"%string.
Definition InvalidVariable : exn := Exception "Invalid variable"%string.

Inductive result (A : Type) : Type :=
| Ok (a : A)
| Raise (e : exn).
Arguments Ok {A} a.
Arguments Raise {A} e.

Definition rbind {A B} (r : result A) (k : A -> result B) : result B :=
  match r with
  | Ok a => k a
  | Raise e => Raise e
  end.

Declare Scope py_scope.
Delimit Scope py_scope with py.
Notation "x <- r ;; k" := (rbind r (fun x => k))
  (at level 61, r at next level, right associativity) : py_scope.

(** State and exception: the state that a raising call leaves behind is
    kept, since an assignment to an attribute is not undone by a later
    [raise]. *)
Definition M (S A : Type) : Type := S -> result A * S.

Definition ret {S A} (a : A) : M S A := fun s => (Ok a, s).
Definition raise {S A} (e : exn) : M S A := fun s => (Raise e, s).
Definition bind {S A B} (m : M S A) (k : A -> M S B) : M S B :=
  fun s => match m s with
           | (Ok a, s') => k a s'
           | (Raise e, s') => (Raise e, s')
           end.
Definition get {S} : M S S := fun s => (Ok s, s).
Definition put {S} (s : S) : M S unit := fun _ => (Ok tt, s).
Definition lift {S A} (r : result A) : M S A := fun s => (r, s).

Declare Scope pym_scope.
Delimit Scope pym_scope with pym.
Notation "x <~ m ;; k" := (bind m (fun x => k))
  (at level 61, m at next level, right associativity) : pym_scope.
Notation "m ;;; k" := (bind m (fun _ => k))
  (at level 61, right associativity) : pym_scope.

(** ** Numbers *)

(** [a != b] *)
Definition Qneb (a b : Q) : bool := negb (Qeq_bool a b).
(** [a > b] *)
Definition Qgtb (a b : Q) : bool := negb (Qle_bool a b).

(** [a / b] on Python numbers. *)
Definition py_truediv (a b : Q) : result Q :=
  if Qeq_bool b 0 then Raise ZeroDivisionError else Ok (a / b)%Q.

(** [int(q)]: truncation towards zero. *)
Definition py_int (q : Q) : Z := Z.quot (Qnum q) (Zpos (Qden q)).

(** A value that is a number or [None] (an optional attribute or keyword
    argument). *)
Definition optQ_neb (a b : option Q) : bool :=
  match a, b with
  | Some x, Some y => Qneb x y
  | None, None => false
  | _, _ => true
  end.

(** ** numpy arrays *)

Record ndarray : Type := mk_ndarray { shape : list nat; data : list Q }.

Definition wf_ndarray (a : ndarray) : Prop :=
  length (data a) = fold_right Nat.mul 1 (shape a).

Definition ndim (a : ndarray) : nat := length (shape a).

(** [a.size] *)
Definition np_size (a : ndarray) : nat := fold_right Nat.mul 1 (shape a).

(** The dtypes of real data: what [np.array] gives a list of [int]s and a
    list of [float]s. *)
Inductive dtype : Type := int64 | float64.

(** The least magnitude of an [int] that [float()] refuses: halfway between
    the largest double and [2^1024], which rounds up to the latter. *)
Definition float_overflow : Z := (2 ^ 1024 - 2 ^ 970)%Z.

(** [float(z)] for an [int]: the nearest number with 53 significant bits,
    ties to the even one; OverflowError when that is [2^1024] or more. *)
Definition float_of_int (z : Z) : result Z :=
  let a := Z.abs z in
  let sh := (Z.log2 a - 52)%Z in
  if (sh <=? 0)%Z then Ok z
  else
    let q := Z.shiftr a sh in
    let r := (a - Z.shiftl q sh)%Z in
    let half := Z.shiftl 1 (sh - 1) in
    let q' := if (half <? r)%Z || ((r =? half)%Z && Z.odd q)
              then (q + 1)%Z else q in
    let m := Z.shiftl q' sh in
    if (2 ^ 1024 <=? m)%Z then Raise OverflowError
    else Ok (Z.sgn z * m)%Z.

(** The number an entry of dtype [dt] holds after the Python number [val]
    has been assigned to it.  A float64 entry takes [float(val)]: a number
    with a fractional part is a [float] already and is kept, a whole number
    is rounded as [float_of_int] says (which leaves a [float] as it is).  An
    int64 entry takes [int(val)], truncated towards zero, which must fit 64
    bits. *)
Definition np_cast (dt : dtype) (val : Q) : result Q :=
  match dt with
  | float64 =>
      if (Qnum val mod Zpos (Qden val) =? 0)%Z
      then (z <- float_of_int (Qnum val / Zpos (Qden val)) ;; Ok (inject_Z z))%py
      else Ok val
  | int64 =>
      let z := py_int val in
      if (z <? - 2 ^ 63)%Z || (2 ^ 63 <=? z)%Z then Raise OverflowError
      else Ok (inject_Z z)
  end.

(** [a.shape[i]] *)
Definition shape_at (a : ndarray) (i : nat) : result nat :=
  match nth_error (shape a) i with
  | Some n => Ok n
  | None => Raise IndexError
  end.

(** [len(a)] *)
Definition np_len (a : ndarray) : result nat :=
  match shape a with
  | [] => Raise TypeError
  | n :: _ => Ok n
  end.

(** [np.array(l)] of a flat list, and [a.reshape(1, n)]. *)
Definition np_array1 (l : list Q) : ndarray := mk_ndarray [length l] l.
Definition reshape_1_n (a : ndarray) (n : nat) : ndarray :=
  mk_ndarray [1; n] (data a).

(** Number of scalars in one item along the first axis. *)
Definition item_size (a : ndarray) : nat := fold_right Nat.mul 1 (tl (shape a)).

(** The [i]-th item along the first axis, flattened. *)
Definition item (a : ndarray) (i : nat) : list Q :=
  firstn (item_size a) (skipn (i * item_size a) (data a)).

(** Items [idxs] along the first axis, in that order: the result of basic
    slicing and of indexing with an integer array. *)
Definition take_items (a : ndarray) (idxs : list nat) : ndarray :=
  mk_ndarray (length idxs :: tl (shape a)) (flat_map (item a) idxs).

(** *** Python slices *)

Record pyslice : Type :=
  mk_slice { start : option Z; stop : option Z; step : option Z }.

Local Open Scope Z_scope.

(** [slice.indices]: clamp a bound against the length. *)
Definition adjust_start (b : option Z) (stp len : Z) : Z :=
  match b with
  | None => if stp <? 0 then len - 1 else 0
  | Some v =>
      if v <? 0 then
        (if v + len <? 0 then (if stp <? 0 then -1 else 0) else v + len)
      else if len <=? v then (if stp <? 0 then len - 1 else len)
      else v
  end.

Definition adjust_stop (b : option Z) (stp len : Z) : Z :=
  match b with
  | None => if stp <? 0 then -1 else len
  | Some v =>
      if v <? 0 then
        (if v + len <? 0 then (if stp <? 0 then -1 else 0) else v + len)
      else if len <=? v then (if stp <? 0 then len - 1 else len)
      else v
  end.

Definition slice_length (lo hi stp : Z) : Z :=
  if stp <? 0 then (if hi <? lo then (lo - hi - 1) / (- stp) + 1 else 0)
  else (if lo <? hi then (hi - lo - 1) / stp + 1 else 0).

(** Positions selected by [sl] in a sequence of [len] items; a zero step
    is numpy's "slice step cannot be zero". *)
Definition slice_positions (sl : pyslice) (len : nat) : result (list nat) :=
  let stp := match step sl with Some s => s | None => 1 end in
  if stp =? 0 then Raise ValueError
  else
    let n := Z.of_nat len in
    let lo := adjust_start (start sl) stp n in
    let hi := adjust_stop (stop sl) stp n in
    Ok (map (fun i => Z.to_nat (lo + Z.of_nat i * stp))
            (seq 0 (Z.to_nat (slice_length lo hi stp)))).

(** [a[sl]] *)
Definition np_getslice (a : ndarray) (sl : pyslice) : result ndarray :=
  match shape a with
  | [] => Raise IndexError
  | n :: _ =>
      match slice_positions sl n with
      | Ok idxs => Ok (take_items a idxs)
      | Raise e => Raise e
      end
  end.

(** One entry of an integer index array against an axis of length [len]:
    negative entries count from the end, anything outside raises. *)
Definition normalize_index (len : nat) (i : Z) : result nat :=
  let n := Z.of_nat len in
  if (i <? - n) || (n <=? i) then Raise IndexError
  else Ok (Z.to_nat (if i <? 0 then i + n else i)).

Fixpoint normalize_indices (len : nat) (idx : list Z) : result (list nat) :=
  match idx with
  | [] => Ok []
  | i :: rest =>
      match normalize_index len i with
      | Raise e => Raise e
      | Ok k =>
          match normalize_indices len rest with
          | Raise e => Raise e
          | Ok ks => Ok (k :: ks)
          end
      end
  end.

(** [a[idx]] for a one-dimensional integer array [idx]. *)
Definition np_take (a : ndarray) (idx : list Z) : result ndarray :=
  match shape a with
  | [] => Raise IndexError
  | n :: _ =>
      match normalize_indices n idx with
      | Ok ks => Ok (take_items a ks)
      | Raise e => Raise e
      end
  end.

Local Close Scope Z_scope.

(** [np.gradient(idx)] of a one-dimensional array with at least two
    entries: one-sided differences at the ends, central differences
    inside. *)
Fixpoint gradient_inner (prev cur : Z) (rest : list Z) : list Q :=
  match rest with
  | [] => [inject_Z (cur - prev)]
  | nxt :: rest' => ((inject_Z (nxt - prev)) / 2)%Q :: gradient_inner cur nxt rest'
  end.

Definition np_gradient (idx : list Z) : result (list Q) :=
  match idx with
  | x0 :: x1 :: rest => Ok (inject_Z (x1 - x0) :: gradient_inner x0 x1 rest)
  | _ => Raise ValueError
  end.

Definition Qmaxb (a b : Q) : Q := if Qle_bool a b then b else a.
Definition Qminb (a b : Q) : Q := if Qle_bool a b then a else b.
Definition list_max (l : list Q) : Q := fold_left Qmaxb (tl l) (hd 0%Q l).
Definition list_min (l : list Q) : Q := fold_left Qminb (tl l) (hd 0%Q l).

(** ** class Series *)

Module Series.

Record t : Type := mk { _value : ndarray; _deltax : option Q; _info : string }.

(** [Series.__init__(self, value, deltax, info = 'Series')].  [deltax] is
    whatever the caller passes, [None] included. *)
Definition __init__ (value : ndarray) (deltax : option Q) (info : string)
  : result t :=
  (c <- (if negb (ndim value =? 1)
         then (n0 <- shape_at value 0 ;; Ok (negb (n0 =? 1)))
         else Ok false) ;;
   if c then Raise ShapeError
   else Ok (mk value deltax info))%py.

Definition default_info : string := "Series"%string.

Definition value (self : t) : ndarray := _value self.
Definition deltax (self : t) : option Q := _deltax self.

(** [__len__] *)
Definition __len__ (self : t) : result nat := np_len (_value self).

(** [size] *)
Definition size (self : t) : nat := np_size (_value self).

(** [length]: [self._deltax * len(self)] *)
Definition length (self : t) : result Q :=
  match _deltax self with
  | None =>
      (* the operands are evaluated first; None * int is a TypeError *)
      (_ <- __len__ self ;; Raise TypeError)%py
  | Some d => (n <- __len__ self ;; Ok (d * inject_Z (Z.of_nat n))%Q)%py
  end.

(** The argument of [_getslice] and what it returns: a wrapped [Series]
    or the bare numpy result. *)
Inductive index : Type :=
| Slice (sl : pyslice)
| IndexArray (idx : list Z).

Inductive sliced : Type :=
| Wrapped (s : t)      (* a new [Series] *)
| Bare (a : ndarray)   (* a numpy array, as numpy returned it *)
| Scalar (x : Q).      (* a single number *)

(** [self.deltax * k], in exact arithmetic.  (With a [float] spacing
    Python converts [k] to a float first, which raises OverflowError for
    [k] of magnitude [2^1024 - 2^970] or more; the statements that say
    which slices raise are about steps below that.) *)
Definition scale_deltax (self : t) (k : Z) : result Q :=
  match deltax self with
  | Some d => Ok (d * inject_Z k)%Q
  | None => Raise TypeError
  end.

Definition _getslice (self : t) (i : index) : result sliced :=
  match i with
  | Slice sl =>
      if match start sl with Some s => (s <? 0)%Z | None => false end
      then Raise ValueError
      else
        (new_deltax <- match step sl with
                       | Some k => (d <- scale_deltax self k ;; Ok (Some d))
                       | None => Ok (deltax self)
                       end ;;
         v <- np_getslice (_value self) sl ;;
         s <- __init__ v new_deltax default_info ;;
         Ok (Wrapped s))%py
  | IndexArray idx =>
      if List.length idx =? 1 then
        (v <- np_take (_value self) idx ;; Ok (Bare v))%py
      else
        (grad <- np_gradient idx ;;
         if Qneb (list_max grad) (list_min grad) then Raise ValueError
         else
           let stp := (nth 1 idx 0 - nth 0 idx 0)%Z in
           new_deltax <- scale_deltax self stp ;;
           v <- np_take (_value self) idx ;;
           s <- __init__ v (Some new_deltax) default_info ;;
           Ok (Wrapped s))%py
  end.

(** [self._value[key]] for an integer [key]: a number when the buffer is
    one-dimensional, the [key]-th item as an array otherwise. *)
Definition np_getitem_int (a : ndarray) (key : Z) : result sliced :=
  match shape a with
  | [] => Raise IndexError
  | n :: rest =>
      (k <- normalize_index n key ;;
       match rest with
       | [] => Ok (Scalar (nth k (data a) 0%Q))
       | _ => Ok (Bare (mk_ndarray rest (item a k)))
       end)%py
  end.

Inductive key : Type :=
| Int (k : Z)
| Other (i : index).

Definition __getitem__ (self : t) (k : key) : result sliced :=
  match k with
  | Int z => np_getitem_int (_value self) z
  | Other i => _getslice self i
  end.

(** [a[p] = val] for every position [p] of [ps], in order, with a number
    [val]: each item named is filled with [val]. *)
Definition fill_item (a : ndarray) (p : nat) (val : Q) : ndarray :=
  let c := item_size a in
  mk_ndarray (shape a)
    (firstn (p * c) (data a) ++ repeat val c ++ skipn (S p * c) (data a)).

Definition fill_items (a : ndarray) (ps : list nat) (val : Q) : ndarray :=
  fold_left (fun b p => fill_item b p val) ps a.

(** The positions along the first axis that a key names. *)
Definition key_positions (a : ndarray) (k : key) : result (list nat) :=
  match shape a with
  | [] => Raise IndexError
  | n :: _ =>
      match k with
      | Int z => (p <- normalize_index n z ;; Ok [p])%py
      | Other (Slice sl) => slice_positions sl n
      | Other (IndexArray idx) => normalize_indices n idx
      end
  end.

(** [__setitem__(self, key, val)]: [self._value[key] = val], for a number
    [val].  [dt] is the dtype of the buffer [self._value], which the record
    does not carry.  numpy finds the entry or the view that an integer or a
    slice names and then casts [val] to [dt]; with an index array it casts
    [val] first and checks the indices after.  Then every entry named is
    overwritten.  The buffer is changed in place; nothing else is, and
    nothing is when the key or the value is refused. *)
Definition __setitem__ (dt : dtype) (k : key) (val : Q) : M t unit :=
  fun self =>
    match (match k with
           | Other (IndexArray _) =>
               x <- np_cast dt val ;;
               ps <- key_positions (_value self) k ;;
               Ok (ps, x)
           | _ =>
               ps <- key_positions (_value self) k ;;
               x <- np_cast dt val ;;
               Ok (ps, x)
           end)%py with
    | Ok (ps, x) =>
        (Ok tt, mk (fill_items (_value self) ps x) (_deltax self)
                   (_info self))
    | Raise e => (Raise e, self)
    end.

(** What a method that may answer [return self] hands back: the receiver
    itself, or an object it has just constructed. *)
Inductive returned (A : Type) : Type :=
| Self
| New (a : A).
Arguments Self {A}.
Arguments New {A} a.

Section Resample.
(** [from .._core import resample]: the resampling kernel, outside this
    module. *)
Variable core_resample : ndarray -> Q -> Q -> ndarray.

Definition resample (self : t) (new_deltax : Q) : result (returned t) :=
  if optQ_neb (Some new_deltax) (deltax self) then
    (cur <- match deltax self with
            | Some d => py_truediv 1 d
            | None => Raise TypeError
            end ;;
     tgt <- py_truediv 1 new_deltax ;;
     let new := core_resample (value self) cur tgt in
     s <- __init__ new (Some new_deltax) (_info self) ;;
     Ok (New s))%py
  else Ok Self.
End Resample.

End Series.

(** ** class TimeSeries(Series) *)

Module TimeSeries.

(** The inherited attributes are those of the [Series] part. *)
Record t : Type := mk { as_Series : Series.t; _epoch : Q }.

Definition default_info : string := "TimeSeries"%string.

(** [TimeSeries.__init__(self, value, epoch, fs, info = 'TimeSeries')] *)
Definition __init__ (value : ndarray) (epoch : Q) (fs : Q) (info : string)
  : result t :=
  (dx <- py_truediv 1 fs ;;
   s <- Series.__init__ value (Some dx) info ;;
   Ok (mk s epoch))%py.

Definition value (self : t) : ndarray := Series.value (as_Series self).
Definition deltax (self : t) : option Q := Series.deltax (as_Series self).
Definition size (self : t) : nat := Series.size (as_Series self).
Definition epoch (self : t) : Q := _epoch self.

(** [fs]: [int(1./self._deltax)], in exact arithmetic.  (In floating
    point the quotient of two roundings can fall just below the rate the
    series was built with, and [int] then truncates it: a series built
    with [fs = 93] reads 92.) *)
Definition fs (self : t) : result Z :=
  match Series._deltax (as_Series self) with
  | Some d => (r <- py_truediv 1 d ;; Ok (py_int r))%py
  | None => Raise TypeError
  end.

(** [self.info]: the classes define the attribute [_info] and no
    attribute, property or method named [info], so the lookup raises. *)
Definition info (self : t) : result string := Raise AttributeError.

Section Resample.
Variable core_resample : ndarray -> Q -> Q -> ndarray.

(** [resample(self, fs_new)].  The arguments of the constructor call
    are evaluated in order: [new], [self.epoch], [self.fs],
    [self.info]. *)
Definition resample (self : t) (fs_new : Z) : result (Series.returned t) :=
  (cur <- fs self ;;
   if negb (fs_new =? cur)%Z then
     let new := core_resample (value self) (inject_Z cur) (inject_Z fs_new) in
     let e := epoch self in
     f <- fs self ;;
     i <- info self ;;
     r <- __init__ new e (inject_Z f) i ;;
     Ok (Series.New r)
   else Ok Series.Self)%py.
End Resample.

End TimeSeries.

(** ** Values of dynamically typed arguments *)

(** A key or epoch argument before any check: [None], an [int], a [float],
    a string, or a flat sequence of numbers (a list or 1-D array). *)
Inductive pyval : Type :=
| PyNone
| PyInt (z : Z)
| PyFloat (q : Q)
| PyStr (s : string)
| PySeq (l : list Q).

(** [isinstance(v, np.int)] and [isinstance(v, np.float)]; [np.int] and
    [np.float] are the builtin [int] and [float]. *)
Definition isinstance_int (v : pyval) : bool :=
  match v with PyInt _ => true | _ => false end.
Definition isinstance_float (v : pyval) : bool :=
  match v with PyFloat _ => true | _ => false end.

(** The number of an [int] or a [float], for a value that has passed an
    [isinstance] test for one of them. *)
Definition as_number (v : pyval) : result Q :=
  match v with
  | PyInt z => Ok (inject_Z z)
  | PyFloat q => Ok q
  | _ => Raise TypeError
  end.

(** The number that a key argument [y] stands for in [y > self._y[-1]],
    [self._y - y >= 0] and [self._y[i] == y], where [self._y] holds [n]
    keys.  A scalar is itself, and so is the entry of a one-entry sequence,
    which numpy broadcasts against the keys.  A longer sequence makes the
    truth value of [y > self._y[-1]] ambiguous (ValueError); an empty one
    compares as false and then fails in [self._y - y] (ValueError) or,
    when there is a single key, in [np.where(...)[0][0]] (IndexError);
    [None] and a string cannot be compared with a number (TypeError). *)
Definition key_number (n : nat) (y : pyval) : result Q :=
  match y with
  | PyInt z => Ok (inject_Z z)
  | PyFloat q => Ok q
  | PySeq [v] => Ok v
  | PySeq [] => if n =? 1 then Raise IndexError else Raise ValueError
  | PySeq _ => Raise ValueError
  | PyNone | PyStr _ => Raise TypeError
  end.

(** [if isinstance(v, np.int) or isinstance(v, np.float): v = [v]] *)
Definition wrap_scalar (v : pyval) : pyval :=
  if isinstance_int v || isinstance_float v then
    match v with
    | PyInt z => PySeq [inject_Z z]
    | PyFloat q => PySeq [q]
    | _ => v
    end
  else v.

(** ** Row operations on the stored array *)

(** Assignment [dst[...] = src] to a block of shape [ds].  numpy drops
    unit dimensions from the left of [src] while it has more dimensions
    than the block, then broadcasts: aligned at the right, every dimension
    of [src] must equal that of the block or be 1, along which [src] is
    repeated.  A shape that does not fit is a ValueError. *)
Fixpoint strip_units (extra : nat) (sh : list nat) : list nat :=
  match extra, sh with
  | S e, 1 :: sh' => strip_units e sh'
  | _, _ => sh
  end.

Fixpoint fits (ss ds : list nat) : bool :=
  match ss, ds with
  | [], [] => true
  | s :: ss', d :: ds' => ((s =? d) || (s =? 1)) && fits ss' ds'
  | _, _ => false
  end.

(** The data of shape [ss] repeated to fill shape [ds]. *)
Fixpoint broadcast (ss ds : list nat) (dat : list Q) : list Q :=
  match ss, ds with
  | s :: ss', d :: ds' =>
      let inner := fold_right Nat.mul 1 ss' in
      flat_map
        (fun i =>
           broadcast ss' ds'
             (firstn inner (skipn ((if s =? d then i else 0) * inner) dat)))
        (seq 0 d)
  | _, _ => dat
  end.

Definition np_assign (ds : list nat) (src : ndarray) : result (list Q) :=
  let ss := strip_units (ndim src - length ds) (shape src) in
  if length ss <=? length ds then
    let ss' := repeat 1 (length ds - length ss) ++ ss in
    if fits ss' ds then Ok (broadcast ss' ds (data src))
    else Raise ValueError
  else Raise ValueError.

(** [np.insert(a, idx, v, axis=0)] for an integer [idx]: [v] is given as
    many dimensions as [a] has ([ndmin]), its first axis then says how many
    items are inserted, and [v] is assigned to the block they make.  (The
    entries are kept as they are: numpy casts them to the dtype of [a].) *)
Definition np_insert_row (a : ndarray) (idx : nat) (v : ndarray)
  : result ndarray :=
  match shape a with
  | [] => Raise IndexError
  | r :: rest =>
      let c := item_size a in
      if idx <=? r then
        let vs := repeat 1 (S (length rest) - ndim v) ++ shape v in
        let numnew := hd 0 vs in
        (block <- np_assign (numnew :: rest) (mk_ndarray vs (data v)) ;;
         Ok (mk_ndarray (r + numnew :: rest)
               (firstn (idx * c) (data a) ++ block
                  ++ skipn (idx * c) (data a))))%py
      else Raise IndexError
  end.

(** [a[idx, :] = v]: [v] is assigned to the item [idx], whose shape is
    that of [a] without its first axis. *)
Definition np_set_row (a : ndarray) (idx : nat) (v : ndarray)
  : result ndarray :=
  match shape a with
  | r :: _ :: _ =>
      let c := item_size a in
      if idx <? r then
        (row <- np_assign (tl (shape a)) v ;;
         Ok (mk_ndarray (shape a)
               (firstn (idx * c) (data a) ++ row ++ skipn (S idx * c) (data a))))%py
      else Raise IndexError
  | _ => Raise IndexError
  end.

(** [a[i, :]] *)
Definition np_row (a : ndarray) (i : nat) : result ndarray :=
  match shape a with
  | r :: _ :: rest =>
      if i <? r then Ok (mk_ndarray (tl (shape a)) (item a i))
      else Raise IndexError
  | _ => Raise IndexError
  end.

(** [np.insert(l, idx, x)] and [l[idx] = x] on a flat array of keys or of
    epochs.  The number is stored as given, which is what numpy does when
    the array holds it exactly: any [float], and any [int] up to [2^53], in
    a float64 array.  (An int64 array keeps [int(x)], and either dtype
    raises OverflowError for an [int] outside its range.) *)
Definition np_insert {A} (l : list A) (idx : nat) (x : A) : result (list A) :=
  if idx <=? length l then Ok (firstn idx l ++ x :: skipn idx l)
  else Raise IndexError.

Definition np_set {A} (l : list A) (idx : nat) (x : A) : result (list A) :=
  if idx <? length l then Ok (firstn idx l ++ x :: skipn (S idx) l)
  else Raise IndexError.

(** [np.where(ys - y >= 0)[0][0]]: the first position whose key is not
    below [y]. *)
Fixpoint first_ge (ys : list Q) (y : Q) : result nat :=
  match ys with
  | [] => Raise IndexError
  | k :: rest =>
      if Qle_bool 0 (k - y) then Ok 0
      else (i <- first_ge rest y ;; Ok (S i))%py
  end.

(** [l[-1]] and [l[i]] *)
Definition py_last (l : list Q) : result Q :=
  match l with
  | [] => Raise IndexError
  | _ => Ok (last l 0%Q)
  end.

Definition py_nth (l : list Q) (i : nat) : result Q :=
  match nth_error l i with
  | Some x => Ok x
  | None => Raise IndexError
  end.

(** Subscripting an attribute that holds [None]. *)
Definition subscriptable {A} (o : option A) : result A :=
  match o with
  | Some a => Ok a
  | None => Raise TypeError
  end.

(** ** class MultiSeries *)

Module MultiSeries.

Record t : Type := mk {
  _isempty : bool;
  _array : ndarray;
  _deltax : option Q;
  _y : option (list Q)      (* [None] or a flat array of keys *)
}.

Definition set_array (a : ndarray) : M t unit :=
  fun s => (Ok tt, mk (_isempty s) a (_deltax s) (_y s)).
Definition set_deltax (d : option Q) : M t unit :=
  fun s => (Ok tt, mk (_isempty s) (_array s) d (_y s)).
Definition set_y (ys : list Q) : M t unit :=
  fun s => (Ok tt, mk (_isempty s) (_array s) (_deltax s) (Some ys)).

(** [MultiSeries.__init__(self, array, deltax, y)].  [_isempty] is
    assigned only when [array] is one-dimensional; otherwise the test
    [if not self._isempty] finds no such attribute. *)
Definition __init__ (array : ndarray) (deltax : option Q) (y : pyval)
  : result t :=
  (st <- (if ndim array =? 1 then
            (n0 <- shape_at array 0 ;;
             if 0 <? n0
             then Ok (reshape_1_n array (np_size array), Some false)
             else Ok (np_array1 [], Some true))
          else Ok (array, None)) ;;
   let '(arr, isempty) := st in
   match isempty with
   | None => Raise AttributeError
   | Some false =>
       match wrap_scalar y with
       | PySeq l =>
           let ya := np_array1 l in
           n <- np_len ya ;;
           if 0 <? n then
             c <- (if negb (ndim ya =? 1)
                   then (y0 <- shape_at ya 0 ;; Ok (negb (y0 =? 1)))
                   else Ok false) ;;
             if c then Raise ShapeErrorY
             else
               r <- shape_at arr 0 ;;
               if negb (np_size ya =? r) then Raise IncompatibleSizeY
               else Ok (mk false arr deltax (Some (data ya)))
           else Raise InvalidVariable
       | _ => Raise TypeError   (* len() of a 0-d array *)
       end
   | Some true => Ok (mk true arr None None)
   end)%py.

Definition y (self : t) : option (list Q) := _y self.
Definition deltax (self : t) : option Q := _deltax self.
Definition shape (self : t) : list nat := shape (_array self).
Definition ysize (self : t) : result nat := shape_at (_array self) 0.
Definition xsize (self : t) : result nat := shape_at (_array self) 1.
Definition __len__ (self : t) : result nat := shape_at (_array self) 1.

(** [__iter__]: the pairs yielded before the generator finishes or
    raises, and how it ends. *)
Definition iter_item (self : t) (i : nat) : result (Q * Series.t) :=
  (ys <- subscriptable (y self) ;;
   k <- py_nth ys i ;;
   row <- np_row (_array self) i ;;
   s <- Series.__init__ row (deltax self) Series.default_info ;;
   Ok (k, s))%py.

Fixpoint iter_from {A} (f : nat -> result A) (idxs : list nat)
  : list A * result unit :=
  match idxs with
  | [] => ([], Ok tt)
  | i :: rest =>
      match f i with
      | Raise e => ([], Raise e)
      | Ok a => let '(out, r) := iter_from f rest in (a :: out, r)
      end
  end.

Definition __iter__ (self : t) : list (Q * Series.t) * result unit :=
  match ysize self with
  | Raise e => ([], Raise e)
  | Ok n => iter_from (iter_item self) (seq 0 n)
  end.

(** The first argument of [append]: a [Series], or a buffer that
    [append] wraps itself. *)
Inductive series_arg : Type :=
| ArgSeries (s : Series.t)
| ArgRaw (a : ndarray).

(** [MultiSeries.append(self, series, y)] *)
Definition append (arg : series_arg) (y : pyval) : M t unit :=
  (self <~ get ;;
   series <~ lift (match arg with
                   | ArgSeries s => Ok s
                   | ArgRaw a =>
                       Series.__init__ a (deltax self) Series.default_info
                   end) ;;
   if negb (_isempty self) then
     n <~ lift (Series.__len__ series) ;;
     xs <~ lift (xsize self) ;;
     if negb (n =? xs) then raise IncompatibleSize
     else if optQ_neb (Series.deltax series) (deltax self)
     then raise IncompatibleDeltax
     else
       ys <~ lift (subscriptable (_y self)) ;;
       ylast <~ lift (py_last ys) ;;
       yq <~ lift (key_number (List.length ys) y) ;;
       if Qgtb yq ylast then
         idx_insert <~ lift (ysize self) ;;
         a <~ lift (np_insert_row (_array self) idx_insert
                      (Series.value series)) ;;
         set_array a ;;;
         ys' <~ lift (np_insert ys idx_insert yq) ;;
         set_y ys'
       else
         idx_insert <~ lift (first_ge ys yq) ;;
         yi <~ lift (py_nth ys idx_insert) ;;
         if Qeq_bool yi yq then
           a <~ lift (np_set_row (_array self) idx_insert
                        (Series.value series)) ;;
           set_array a
         else
           a <~ lift (np_insert_row (_array self) idx_insert
                        (Series.value series)) ;;
           set_array a ;;;
           ys' <~ lift (np_insert ys idx_insert yq) ;;
           set_y ys'
   else
     let size := Series.size series in
     set_deltax (Series.deltax series) ;;;
     set_array (reshape_1_n (Series.value series) size) ;;;
     if negb (isinstance_int y) || negb (isinstance_float y)
     then raise TypeError
     else
       yq <~ lift (as_number y) ;;
       set_y [yq])%pym.


(** A run of [append] calls, stopping at the first that raises. *)
Record call : Type := mk_call { c_series : series_arg; c_y : pyval }.

Definition append_call (c : call) : M t unit := append (c_series c) (c_y c).

Fixpoint appends (cs : list call) : M t unit :=
  match cs with
  | [] => ret tt
  | c :: rest => (append_call c ;;; appends rest)%pym
  end.

End MultiSeries.

(** ** class TimeFreqSpectrum(MultiSeries) *)

Module TimeFreqSpectrum.

(** The inherited attributes are those of the [MultiSeries] part.
    [_epoch] is [None] while the attribute has not been assigned: the
    constructor of an empty spectrum only rebinds its local [epoch]. *)
Record t : Type := mk {
  as_MultiSeries : MultiSeries.t;
  _epoch : option (list Q)
}.

Definition _isempty (self : t) : bool := MultiSeries._isempty (as_MultiSeries self).
Definition _array (self : t) : ndarray := MultiSeries._array (as_MultiSeries self).
Definition _deltax (self : t) : option Q := MultiSeries._deltax (as_MultiSeries self).
Definition _y (self : t) : option (list Q) := MultiSeries._y (as_MultiSeries self).

(** An inherited setter acts on the [MultiSeries] part. *)
Definition inherited {A} (m : M MultiSeries.t A) : M t A :=
  fun s => let '(r, b) := m (as_MultiSeries s) in (r, mk b (_epoch s)).
Definition set_array (a : ndarray) : M t unit := inherited (MultiSeries.set_array a).
Definition set_deltax (d : option Q) : M t unit := inherited (MultiSeries.set_deltax d).
Definition set_y (ys : list Q) : M t unit := inherited (MultiSeries.set_y ys).
Definition set_epoch (es : list Q) : M t unit :=
  fun s => (Ok tt, mk (as_MultiSeries s) (Some es)).

Definition deltax (self : t) : option Q := _deltax self.
Definition ysize (self : t) : result nat := MultiSeries.ysize (as_MultiSeries self).
Definition xsize (self : t) : result nat := MultiSeries.xsize (as_MultiSeries self).
Definition frequencies (self : t) : option (list Q) := _y self.

(** [epoch]: [return self._epoch] *)
Definition epoch (self : t) : result (list Q) :=
  match _epoch self with
  | Some es => Ok es
  | None => Raise AttributeError
  end.

(** [fs]: [1./self.deltax] *)
Definition fs (self : t) : result Q :=
  match deltax self with
  | Some d => py_truediv 1 d
  | None => Raise TypeError
  end.

(** [self._info]: the constructor takes [info] and never stores it, and
    [MultiSeries] has no such attribute either. *)
Definition _info (self : t) : result string := Raise AttributeError.

(** [TimeFreqSpectrum.__init__(self, array, epoch, fs, freqs)] *)
Definition __init__ (array : ndarray) (epoch : pyval) (fs : Q) (freqs : pyval)
  : result t :=
  (dx <- py_truediv 1 fs ;;
   m <- MultiSeries.__init__ array (Some dx) freqs ;;
   if negb (MultiSeries._isempty m) then
     match wrap_scalar epoch with
     | PySeq l =>
         if length l =? 1 then
           (n <- MultiSeries.ysize m ;;
            Ok (mk m (Some (repeat (nth 0 l 0%Q) n))))
         else
           (n <- MultiSeries.ysize m ;;
            if length l =? n then Ok (mk m (Some l))
            else Raise IncompatibleEpoch)
     | _ => Raise TypeError   (* len() of a 0-d array *)
     end
   else Ok (mk m None))%py.

(** [__iter__]: each step builds the pair
    [(self.frequencies[i], TimeSeries(self._array[i,:], self.epoch[i],
    self.fs, info = self._info))], operands left to right. *)
Definition iter_item (self : t) (i : nat) : result (Q * TimeSeries.t) :=
  (ys <- subscriptable (frequencies self) ;;
   f <- py_nth ys i ;;
   row <- np_row (_array self) i ;;
   es <- epoch self ;;
   e <- py_nth es i ;;
   rate <- fs self ;;
   info <- _info self ;;
   ts <- TimeSeries.__init__ row e rate info ;;
   Ok (f, ts))%py.

Definition __iter__ (self : t) : list (Q * TimeSeries.t) * result unit :=
  match ysize self with
  | Raise e => ([], Raise e)
  | Ok n => MultiSeries.iter_from (iter_item self) (seq 0 n)
  end.

(** The first argument of [append]: a [TimeSeries], or a bare numpy
    array that comes with an explicit [epoch]. *)
Inductive ts_arg : Type :=
| ArgTimeSeries (ts : TimeSeries.t)
| ArgNdarray (a : ndarray).

(** The four locals [value], [epoch], [deltax], [size] that the head of
    [append] binds. *)
Record row_in : Type := mk_row {
  in_value : ndarray; in_epoch : Q; in_deltax : option Q; in_size : nat
}.

Definition unpack (self : t) (timeseries : ts_arg) (epoch fs : option Q)
  : result row_in :=
  match timeseries, epoch with
  | ArgNdarray _, None =>
      (* not a TimeSeries and epoch is None *)
      Raise TypeError
  | ArgNdarray a, Some e =>
      (* epoch is not None and the argument is an ndarray *)
      let dx := match fs with None => deltax self | Some f => Some f end in
      Ok (mk_row a e dx (np_size a))
  | ArgTimeSeries ts, _ =>
      Ok (mk_row (TimeSeries.value ts) (TimeSeries.epoch ts)
                 (TimeSeries.deltax ts) (TimeSeries.size ts))
  end.

(** Evaluating the message of the deltax error reads
    [timeseries.deltax], which a bare array does not have. *)
Definition deltax_error (timeseries : ts_arg) : exn :=
  match timeseries with
  | ArgTimeSeries _ => IncompatibleDeltax
  | ArgNdarray _ => AttributeError
  end.

(** [TimeFreqSpectrum.append(self, timeseries, freq, epoch = None,
    fs = None)] *)
Definition append (timeseries : ts_arg) (freq : Q) (epoch fs : option Q)
  : M t unit :=
  (self <~ get ;;
   r <~ lift (unpack self timeseries epoch fs) ;;
   let value := in_value r in
   let epoch := in_epoch r in
   let deltax_ := in_deltax r in
   let size := in_size r in
   if negb (_isempty self) then
     xs <~ lift (xsize self) ;;
     if negb (size =? xs) then raise IncompatibleSize
     else if optQ_neb deltax_ (deltax self)
     then raise (deltax_error timeseries)
     else
       ys <~ lift (subscriptable (_y self)) ;;
       ylast <~ lift (py_last ys) ;;
       if Qgtb freq ylast then
         idx_insert <~ lift (ysize self) ;;
         a <~ lift (np_insert_row (_array self) idx_insert value) ;;
         set_array a ;;;
         es <~ lift (TimeFreqSpectrum.epoch self) ;;
         es' <~ lift (np_insert es idx_insert epoch) ;;
         set_epoch es' ;;;
         ys' <~ lift (np_insert ys idx_insert freq) ;;
         set_y ys'
       else
         idx_insert <~ lift (first_ge ys freq) ;;
         yi <~ lift (py_nth ys idx_insert) ;;
         if Qeq_bool yi freq then
           a <~ lift (np_set_row (_array self) idx_insert value) ;;
           set_array a ;;;
           es <~ lift (TimeFreqSpectrum.epoch self) ;;
           es' <~ lift (np_set es idx_insert epoch) ;;
           set_epoch es'
         else
           a <~ lift (np_insert_row (_array self) idx_insert value) ;;
           set_array a ;;;
           es <~ lift (TimeFreqSpectrum.epoch self) ;;
           es' <~ lift (np_insert es idx_insert epoch) ;;
           set_epoch es' ;;;
           ys' <~ lift (np_insert ys idx_insert freq) ;;
           set_y ys'
   else
     set_array (reshape_1_n value size) ;;;
     set_epoch [epoch] ;;;
     set_y [freq] ;;;
     set_deltax deltax_)%pym.

(** A run of [append] calls, stopping at the first that raises. *)
Record call : Type := mk_call {
  c_timeseries : ts_arg; c_freq : Q; c_epoch : option Q; c_fs : option Q
}.

Definition append_call (c : call) : M t unit :=
  append (c_timeseries c) (c_freq c) (c_epoch c) (c_fs c).

Fixpoint appends (cs : list call) : M t unit :=
  match cs with
  | [] => ret tt
  | c :: rest => (append_call c ;;; appends rest)%pym
  end.

End TimeFreqSpectrum.

(** [CreateEmptySpectrum()] *)
Definition CreateEmptySpectrum : result TimeFreqSpectrum.t :=
  let array := np_array1 [] in
  let freqs := PyNone in
  let epoch := PyNone in
  let fs := 1%Q in
  TimeFreqSpectrum.__init__ array epoch fs freqs.

(** * Vocabulary of the statements *)

Definition start_not_negative (sl : pyslice) : Prop :=
  match start sl with
  | Some s0 => (0 <= s0)%Z
  | None => True
  end.

Definition empty_spectrum : TimeFreqSpectrum.t :=
  TimeFreqSpectrum.mk (MultiSeries.mk true (np_array1 []) None None) None.

(** The state an [append] leaves when it runs the empty-container branch. *)
Definition sole_row (r : TimeFreqSpectrum.row_in) (freq : Q)
  : TimeFreqSpectrum.t :=
  TimeFreqSpectrum.mk
    (MultiSeries.mk true
       (reshape_1_n (TimeFreqSpectrum.in_value r) (TimeFreqSpectrum.in_size r))
       (TimeFreqSpectrum.in_deltax r) (Some [freq]))
    (Some [TimeFreqSpectrum.in_epoch r]).

(** The three rows of the scenario: five samples each at rate 10, with
    epochs 0, 1 and 2. *)
Definition row_a : TimeSeries.t :=
  TimeSeries.mk (Series.mk (np_array1 [1; 2; 3; 4; 5]%Q) (Some (1 # 10))
                           TimeSeries.default_info) 0.
Definition row_b : TimeSeries.t :=
  TimeSeries.mk (Series.mk (np_array1 [6; 7; 8; 9; 10]%Q) (Some (1 # 10))
                           TimeSeries.default_info) 1.
Definition row_c : TimeSeries.t :=
  TimeSeries.mk (Series.mk (np_array1 [11; 12; 13; 14; 15]%Q) (Some (1 # 10))
                           TimeSeries.default_info) 2.

Definition call_ts (ts : TimeSeries.t) (freq : Q) : TimeFreqSpectrum.call :=
  TimeFreqSpectrum.mk_call (TimeFreqSpectrum.ArgTimeSeries ts) freq None None.

(** A spectrum flagged empty that holds one five-sample row at rate 10. *)
Definition one_row_spectrum (samples : list Q) (freq epoch : Q)
  : TimeFreqSpectrum.t :=
  TimeFreqSpectrum.mk
    (MultiSeries.mk true (mk_ndarray [1; 5] samples) (Some (1 # 10))
                    (Some [freq]))
    (Some [epoch]).

(** A spectrum not flagged empty, with rows of five samples at rate 10. *)
Definition sorted_spectrum (samples keys epochs : list Q)
  : TimeFreqSpectrum.t :=
  TimeFreqSpectrum.mk
    (MultiSeries.mk false (mk_ndarray [length keys; 5] samples)
                    (Some (1 / 10)%Q) (Some keys))
    (Some epochs).

Definition empty_multiseries : MultiSeries.t :=
  MultiSeries.mk true (np_array1 []) None None.

(** As many keys and epochs as rows, keys strictly ascending. *)
Definition lockstep (st : TimeFreqSpectrum.t) : Prop :=
  exists (r c : nat) (ys es : list Q),
    shape (TimeFreqSpectrum._array st) = [r; c] /\
    TimeFreqSpectrum._y st = Some ys /\
    TimeFreqSpectrum._epoch st = Some es /\
    length ys = r /\ length es = r /\
    StronglySorted Qlt ys.

(** Either in step, or still without any row. *)
Definition spectrum_inv (st : TimeFreqSpectrum.t) : Prop :=
  lockstep st \/
  (TimeFreqSpectrum._isempty st = true /\ TimeFreqSpectrum.ysize st = Ok 0).

(** The spacing a slice gives its result. *)
Definition sliced_deltax (d : Q) (sl : pyslice) : Q :=
  match step sl with
  | Some k => (d * inject_Z k)%Q
  | None => d
  end.

Definition or_default (o : option nat) (dflt : nat) : nat :=
  match o with Some v => v | None => dflt end.

(** The position an integer key names in a sequence of [n] entries. *)
Definition key_position (n : nat) (i : Z) : nat :=
  Z.to_nat (if (i <? 0)%Z then (i + Z.of_nat n)%Z else i).



(** The array, keys and epochs after a row has been written over
    position [i], and after a row has been inserted before position [i]. *)
Definition rows_replaced (a : ndarray) (i : nat) (row : list Q) : ndarray :=
  mk_ndarray (shape a)
    (firstn (i * item_size a) (data a) ++ row
       ++ skipn (S i * item_size a) (data a)).

Definition rows_inserted (a : ndarray) (i : nat) (row : list Q) : ndarray :=
  mk_ndarray (S (hd 0 (shape a)) :: tl (shape a))
    (firstn (i * item_size a) (data a) ++ row
       ++ skipn (i * item_size a) (data a)).

Definition replaced {A} (l : list A) (i : nat) (x : A) : list A :=
  firstn i l ++ x :: skipn (S i) l.

Definition inserted {A} (l : list A) (i : nat) (x : A) : list A :=
  firstn i l ++ x :: skipn i l.

(** Where a key [y] belongs among ascending keys [ys]: after the [i] keys
    below it. *)
Definition splits_at (ys : list Q) (y : Q) (i : nat) : Prop :=
  i <= length ys /\
  Forall (fun k => (k < y)%Q) (firstn i ys) /\
  Forall (fun k => (y <= k)%Q) (skipn i ys).

(** The two ways a successful append of a one-dimensional row changes a
    sorted spectrum. *)
Inductive appended (st : TimeFreqSpectrum.t) (value : ndarray)
          (freq epoch : Q) (st' : TimeFreqSpectrum.t) : Prop :=
| Replaced (i : nat) (k : Q) (ys es : list Q)
    (Hy : TimeFreqSpectrum._y st = Some ys)
    (He : TimeFreqSpectrum._epoch st = Some es)
    (Hsplit : splits_at ys freq i)
    (Hk : nth_error ys i = Some k) (Heq : (k == freq)%Q)
    (Hst : st' = TimeFreqSpectrum.mk
                   (MultiSeries.mk false
                      (rows_replaced (TimeFreqSpectrum._array st) i
                                     (data value))
                      (TimeFreqSpectrum._deltax st) (Some ys))
                   (Some (replaced es i epoch)))
| Inserted (i : nat) (ys es : list Q)
    (Hy : TimeFreqSpectrum._y st = Some ys)
    (He : TimeFreqSpectrum._epoch st = Some es)
    (Hsplit : splits_at ys freq i)
    (Hnew : Forall (fun k => (freq < k)%Q) (skipn i ys))
    (Hst : st' = TimeFreqSpectrum.mk
                   (MultiSeries.mk false
                      (rows_inserted (TimeFreqSpectrum._array st) i
                                     (data value))
                      (TimeFreqSpectrum._deltax st)
                      (Some (inserted ys i freq)))
                   (Some (inserted es i epoch))).

(** What [append] may do to a sorted spectrum [st]: raise and leave it,
    or store the row it unpacked in one of the two ways. *)
Definition sorted_outcome (st : TimeFreqSpectrum.t)
           (timeseries : TimeFreqSpectrum.ts_arg) (freq : Q)
           (epoch fs : option Q) (res : result unit)
           (st' : TimeFreqSpectrum.t) : Prop :=
  (exists e, res = Raise e /\ st' = st) \/
  (res = Ok tt /\
   exists row,
     TimeFreqSpectrum.unpack st timeseries epoch fs = Ok row /\
     TimeFreqSpectrum.xsize st = Ok (TimeFreqSpectrum.in_size row) /\
     optQ_neb (TimeFreqSpectrum.in_deltax row) (TimeFreqSpectrum.deltax st)
     = false /\
     appended st (TimeFreqSpectrum.in_value row) freq
              (TimeFreqSpectrum.in_epoch row) st').

(** The [j]-th run of [c] entries of a flat buffer. *)
Definition chunk (c : nat) (l : list Q) (j : nat) : list Q :=
  firstn c (skipn (j * c) l).

(** The rows of a stored array, first to last. *)
Definition rows_of (a : ndarray) : list (list Q) :=
  map (item a) (seq 0 (hd 0 (shape a))).

(** The buffer an [append] argument carries. *)
Definition arg_value (timeseries : TimeFreqSpectrum.ts_arg) : ndarray :=
  match timeseries with
  | TimeFreqSpectrum.ArgTimeSeries ts => TimeSeries.value ts
  | TimeFreqSpectrum.ArgNdarray a => a
  end.

(** As many keys as rows, rows of [c] columns, keys strictly ascending. *)
Definition ms_lockstep (c : nat) (m : MultiSeries.t) : Prop :=
  exists (r : nat) (ys : list Q),
    shape (MultiSeries._array m) = [r; c] /\
    MultiSeries._y m = Some ys /\
    length ys = r /\
    StronglySorted Qlt ys.

(** The series [append] works with: its argument, or the argument wrapped
    at the container's spacing. *)
Definition resolved (m : MultiSeries.t) (arg : MultiSeries.series_arg)
  : result Series.t :=
  match arg with
  | MultiSeries.ArgSeries s => Ok s
  | MultiSeries.ArgRaw a =>
      Series.__init__ a (MultiSeries.deltax m) Series.default_info
  end.

(** The two ways a successful append of a one-dimensional row changes a
    sorted [MultiSeries]. *)
Inductive ms_appended (m : MultiSeries.t) (value : ndarray) (y : Q)
          (m' : MultiSeries.t) : Prop :=
| MsReplaced (i : nat) (k : Q) (ys : list Q)
    (Hy : MultiSeries._y m = Some ys)
    (Hsplit : splits_at ys y i)
    (Hk : nth_error ys i = Some k) (Heq : (k == y)%Q)
    (Hm : m' = MultiSeries.mk false
                 (rows_replaced (MultiSeries._array m) i (data value))
                 (MultiSeries._deltax m) (Some ys))
| MsInserted (i : nat) (ys : list Q)
    (Hy : MultiSeries._y m = Some ys)
    (Hsplit : splits_at ys y i)
    (Hnew : Forall (fun k => (y < k)%Q) (skipn i ys))
    (Hm : m' = MultiSeries.mk false
                 (rows_inserted (MultiSeries._array m) i (data value))
                 (MultiSeries._deltax m) (Some (inserted ys i y))).

Definition ms_sorted_outcome (m : MultiSeries.t)
           (arg : MultiSeries.series_arg) (y : pyval) (res : result unit)
           (m' : MultiSeries.t) : Prop :=
  (exists e, res = Raise e /\ m' = m) \/
  (res = Ok tt /\
   exists series yq ys,
     resolved m arg = Ok series /\
     MultiSeries._y m = Some ys /\
     key_number (length ys) y = Ok yq /\
     (n <- Series.__len__ series ;; Ok n)%py = MultiSeries.xsize m /\
     optQ_neb (Series.deltax series) (MultiSeries.deltax m) = false /\
     ms_appended m (Series.value series) yq m').

(** *** The calls for which the numbers of the model are the numbers
    stored *)

(** A slice whose step Python converts to a float without overflow, as
    the product with a [float] spacing requires. *)
Definition step_in_float_range (sl : pyslice) : Prop :=
  match step sl with
  | Some k => (Z.abs k < float_overflow)%Z
  | None => True
  end.

(** A number of magnitude at most [2^53]: a float64 array holds it as
    given, whether the caller passes it as an [int] or as a [float]. *)
Definition float_exact (q : Q) : Prop := (Qabs q <= inject_Z (2 ^ 53))%Q.

(** The constructor builds a float64 array of keys: the key is a [float]
    (an array without entries builds no array of keys at all). *)
Definition float_keyed (array : ndarray) (y : pyval) : Prop :=
  shape array = [0] \/ exists k, y = PyFloat k.

(** The epoch that [append] stores with the row of a call: the one of the
    [TimeSeries], or the keyword that comes with a bare array. *)
Definition call_epoch (c : TimeFreqSpectrum.call) : option Q :=
  match TimeFreqSpectrum.c_timeseries c with
  | TimeFreqSpectrum.ArgTimeSeries ts => Some (TimeSeries.epoch ts)
  | TimeFreqSpectrum.ArgNdarray _ => TimeFreqSpectrum.c_epoch c
  end.

(** A call whose row is a one-dimensional array, and whose frequency and
    epoch a float64 array holds as given. *)
Definition plain_call (c : TimeFreqSpectrum.call) : Prop :=
  ndim (arg_value (TimeFreqSpectrum.c_timeseries c)) = 1 /\
  wf_ndarray (arg_value (TimeFreqSpectrum.c_timeseries c)) /\
  float_exact (TimeFreqSpectrum.c_freq c) /\
  match call_epoch c with
  | Some e => float_exact e
  | None => True
  end.

(** A spectrum as the constructor, given a float frequency, and a run of
    plain calls leave it (the run may have stopped at a call that
    raised). *)
Definition built (st : TimeFreqSpectrum.t) : Prop :=
  exists (array : ndarray) (epoch : pyval) (fs : Q) (freqs : pyval)
         (cs : list TimeFreqSpectrum.call) (res : result unit)
         (st0 : TimeFreqSpectrum.t),
    wf_ndarray array /\ float_keyed array freqs /\
    TimeFreqSpectrum.__init__ array epoch fs freqs = Ok st0 /\
    Forall plain_call cs /\
    TimeFreqSpectrum.appends cs st0 = (res, st).

(** The same for a [MultiSeries]: the buffer of an argument, a key that a
    float64 array of keys holds as given (or that [append] refuses), a
    plain call, and a container built with a float key and one row. *)
Definition ms_arg_value (arg : MultiSeries.series_arg) : ndarray :=
  match arg with
  | MultiSeries.ArgSeries s => Series.value s
  | MultiSeries.ArgRaw a => a
  end.

Definition plain_key (y : pyval) : Prop :=
  match y with
  | PyInt z => (Z.abs z <= 2 ^ 53)%Z
  | PySeq [v] => float_exact v
  | _ => True
  end.

Definition ms_plain_call (c : MultiSeries.call) : Prop :=
  ndim (ms_arg_value (MultiSeries.c_series c)) = 1 /\
  wf_ndarray (ms_arg_value (MultiSeries.c_series c)) /\
  plain_key (MultiSeries.c_y c).

Definition ms_built (m : MultiSeries.t) : Prop :=
  exists (array : ndarray) (deltax : option Q) (k0 : Q)
         (cs : list MultiSeries.call) (res : result unit)
         (m0 : MultiSeries.t),
    wf_ndarray array /\
    MultiSeries.__init__ array deltax (PyFloat k0) = Ok m0 /\
    MultiSeries._isempty m0 = false /\
    Forall ms_plain_call cs /\
    MultiSeries.appends cs m0 = (res, m).

(** * Properties *)

(** ** Constructing a [Series] *)

Lemma Series_init_1d (l : list Q) (dx : option Q) (info : string) :
  Series.__init__ (np_array1 l) dx info = Ok (Series.mk (np_array1 l) dx info).
Proof. reflexivity. Qed.

(** C6, as stated, fails: a 2-D buffer with a single row is accepted. *)
Lemma C6_row_vector_accepted :
  let v := mk_ndarray [1; 3] [1; 2; 3]%Q in
  ndim v <> 1 /\
  Series.__init__ v (Some (1 # 2)) "Series"%string
  = Ok (Series.mk v (Some (1 # 2)) "Series"%string) /\
  Series.__init__ v (Some (1 # 2)) "Series"%string <> Raise ShapeError.
Proof.
  split; [ vm_compute; lia | split; [ reflexivity | vm_compute; discriminate ] ].
Qed.

(** C6, amended: a buffer with two or more dimensions is rejected with the
    shape error exactly when its first dimension differs from 1; with first
    dimension 1 it is accepted and stored as given. *)
Theorem C6_shape_check_on_first_axis :
  forall (n m : nat) (rest : list nat) (d : list Q) (dx : option Q)
         (info : string),
    Series.__init__ (mk_ndarray (n :: m :: rest) d) dx info =
    if n =? 1 then Ok (Series.mk (mk_ndarray (n :: m :: rest) d) dx info)
    else Raise ShapeError.
Proof.
  intros n m rest d dx info.
  unfold Series.__init__, ndim, shape_at; simpl.
  destruct (n =? 1); reflexivity.
Qed.

(** A buffer without any dimension is refused as well, but by the lookup
    of [value.shape[0]], not by the shape check. *)
Lemma Series_init_0d (d : list Q) (dx : option Q) (info : string) :
  Series.__init__ (mk_ndarray [] d) dx info = Raise IndexError.
Proof. reflexivity. Qed.

(** ** Indexing a [Series] *)

Lemma item_size_1d (l : list Q) : item_size (np_array1 l) = 1.
Proof. reflexivity. Qed.

Lemma firstn_1_skipn (l : list Q) (k : nat) :
  k < length l -> firstn 1 (skipn k l) = [nth k l 0%Q].
Proof.
  revert k; induction l as [|x l IH]; intros k Hk; simpl in Hk; [lia|].
  destruct k as [|k]; [reflexivity|].
  simpl. apply IH. lia.
Qed.

Lemma item_1d (l : list Q) (k : nat) :
  k < length l -> item (np_array1 l) k = [nth k l 0%Q].
Proof.
  intros Hk. unfold item. rewrite item_size_1d, Nat.mul_1_r.
  simpl. now apply firstn_1_skipn.
Qed.

Lemma normalize_index_in_range (len : nat) (i : Z) :
  (- Z.of_nat len <= i < Z.of_nat len)%Z ->
  normalize_index len i =
  Ok (Z.to_nat (if (i <? 0)%Z then (i + Z.of_nat len)%Z else i)) /\
  Z.to_nat (if (i <? 0)%Z then (i + Z.of_nat len)%Z else i) < len.
Proof.
  intros [Hlo Hhi]. unfold normalize_index.
  destruct (Z.ltb_spec i (- Z.of_nat len)); [lia|].
  destruct (Z.leb_spec (Z.of_nat len) i); [lia|].
  split; [reflexivity|].
  destruct (Z.ltb_spec i 0); lia.
Qed.

(** C7, as stated, fails: a one-entry index array gives back a one-entry
    array, which is not a number. *)
Lemma C7_single_index_is_an_array :
  let s := Series.mk (np_array1 [1; 2; 3]%Q) (Some (1 # 2)) "Series"%string in
  Series._getslice s (Series.IndexArray [1%Z])
  = Ok (Series.Bare (np_array1 [2%Q])) /\
  forall x : Q,
    Series._getslice s (Series.IndexArray [1%Z]) <> Ok (Series.Scalar x).
Proof.
  split; [reflexivity|].
  intros x. vm_compute. discriminate.
Qed.

(** C7, amended: on a one-dimensional series, an index array with the
    single entry [i] (counted from the end when negative) returns the bare
    one-entry numpy array that holds the value at that position, not a
    [Series] and not a number. *)
Theorem C7_single_index_returns_bare_array :
  forall (l : list Q) (dx : option Q) (info : string) (i : Z),
    (- Z.of_nat (length l) <= i < Z.of_nat (length l))%Z ->
    Series._getslice (Series.mk (np_array1 l) dx info) (Series.IndexArray [i])
    = Ok (Series.Bare
            (np_array1
               [nth (Z.to_nat (if (i <? 0)%Z then (i + Z.of_nat (length l))%Z
                               else i)) l 0%Q])).
Proof.
  intros l dx info i Hi.
  destruct (normalize_index_in_range (length l) i Hi) as [Hn Hk].
  unfold Series._getslice, np_take; simpl.
  rewrite Hn. simpl.
  unfold take_items; simpl.
  rewrite item_1d by exact Hk.
  reflexivity.
Qed.

Lemma C7_single_index_returns_bare_array_witness :
  Series._getslice (Series.mk (np_array1 [1; 2; 3]%Q) (Some (1 # 2)) "Series"%string)
                   (Series.IndexArray [(-1)%Z])
  = Ok (Series.Bare (np_array1 [3%Q])).
Proof.
  apply (C7_single_index_returns_bare_array [1; 2; 3]%Q (Some (1 # 2))
           "Series"%string (-1)%Z).
  simpl. lia.
Defined.

(** ** Length and slicing with a step *)

Lemma start_check_passes (sl : pyslice) :
  start_not_negative sl ->
  match start sl with Some s => (s <? 0)%Z | None => false end = false.
Proof.
  unfold start_not_negative. destruct (start sl) as [s0|]; [|reflexivity].
  intros H. apply Z.ltb_ge. exact H.
Qed.






(** ** Resampling *)

Lemma Qeq_bool_false_neb (a b : Q) : Qeq_bool a b = false -> Qneb a b = true.
Proof. intros H. unfold Qneb. now rewrite H. Qed.

Lemma py_truediv_nonzero (a b : Q) :
  ~ (b == 0)%Q -> py_truediv a b = Ok (a / b)%Q.
Proof.
  intros H. unfold py_truediv.
  destruct (Qeq_bool b 0) eqn:E; [|reflexivity].
  apply Qeq_bool_eq in E. contradiction.
Qed.

(** C8: [resample] hands back the receiver itself when the new spacing
    equals the current one; otherwise it calls the kernel with the rates
    [1/spacing] and [1/new_spacing] and returns a newly built series with
    the kernel's buffer, the new spacing and the same label. *)
Theorem C8_resample_identity_or_delegate :
  forall (core_resample : ndarray -> Q -> Q -> ndarray)
         (s : Series.t) (d new_deltax : Q),
    Series.deltax s = Some d ->
    (Qeq_bool new_deltax d = true ->
     Series.resample core_resample s new_deltax = Ok Series.Self) /\
    (Qeq_bool new_deltax d = false ->
     ~ (d == 0)%Q -> ~ (new_deltax == 0)%Q ->
     ndim (core_resample (Series.value s) (1 / d)%Q (1 / new_deltax)%Q) = 1 ->
     Series.resample core_resample s new_deltax =
     Ok (Series.New
           (Series.mk (core_resample (Series.value s) (1 / d)%Q (1 / new_deltax)%Q)
                      (Some new_deltax) (Series._info s)))).
Proof.
  intros core s d nd Hd. split.
  - intros Heq. unfold Series.resample. rewrite Hd. simpl.
    unfold Qneb. rewrite Heq. reflexivity.
  - intros Hne Hd0 Hn0 Hdim. unfold Series.resample. rewrite Hd. simpl.
    rewrite (Qeq_bool_false_neb _ _ Hne).
    rewrite (py_truediv_nonzero 1 d Hd0). simpl.
    rewrite (py_truediv_nonzero 1 nd Hn0). simpl.
    unfold Series.__init__. rewrite Hdim. reflexivity.
Qed.

Lemma C8_resample_identity_or_delegate_witness :
  let s := Series.mk (np_array1 [1; 2; 3; 4]%Q) (Some (1 # 2)) "Series"%string in
  let core := fun (v : ndarray) (_ _ : Q) => v in
  Series.resample core s (2 # 4) = Ok Series.Self /\
  Series.resample core s (1 # 4) =
  Ok (Series.New (Series.mk (core (Series.value s) (1 / (1 # 2))%Q (1 / (1 # 4))%Q)
                            (Some (1 # 4)) "Series"%string)).
Proof.
  intros s core. split.
  - apply (proj1 (C8_resample_identity_or_delegate core s (1 # 2) (2 # 4)
                    eq_refl)).
    reflexivity.
  - apply (proj2 (C8_resample_identity_or_delegate core s (1 # 2) (1 # 4)
                    eq_refl)).
    + reflexivity.
    + intros H; discriminate H.
    + intros H; discriminate H.
    + reflexivity.
Defined.

(** ** Resampling a [TimeSeries] *)

Lemma TimeSeries_resample_same_rate
      (core_resample : ndarray -> Q -> Q -> ndarray)
      (ts : TimeSeries.t) (cur : Z) :
  TimeSeries.fs ts = Ok cur ->
  TimeSeries.resample core_resample ts cur = Ok Series.Self.
Proof.
  intros H. unfold TimeSeries.resample. rewrite H. simpl.
  now rewrite Z.eqb_refl.
Qed.

Lemma TimeSeries_resample_new_rate_raises
      (core_resample : ndarray -> Q -> Q -> ndarray)
      (ts : TimeSeries.t) (cur fs_new : Z) :
  TimeSeries.fs ts = Ok cur -> fs_new <> cur ->
  TimeSeries.resample core_resample ts fs_new = Raise AttributeError.
Proof.
  intros H Hne. unfold TimeSeries.resample. rewrite H. cbn [rbind].
  destruct (Z.eqb_spec fs_new cur); [contradiction|]. reflexivity.
Qed.

(** C5: a five-sample [TimeSeries] at rate 10 asked for rate 20 does not
    come back resampled: whatever the kernel returns, the call ends in an
    AttributeError raised by the lookup of [self.info]. *)
Theorem C5_resample_to_new_rate_raises :
  forall core_resample : ndarray -> Q -> Q -> ndarray,
    (ts <- TimeSeries.__init__ (np_array1 [1; 2; 3; 4; 5]%Q) 0 10
                               TimeSeries.default_info ;;
     TimeSeries.resample core_resample ts 20)%py
    = Raise AttributeError.
Proof. intros core. reflexivity. Qed.

(** ** Appending to a spectrum made by [CreateEmptySpectrum] *)

Lemma CreateEmptySpectrum_eq : CreateEmptySpectrum = Ok empty_spectrum.
Proof. reflexivity. Qed.

Lemma append_while_flag_set (st : TimeFreqSpectrum.t)
      (timeseries : TimeFreqSpectrum.ts_arg) (freq : Q) (epoch fs : option Q) :
  TimeFreqSpectrum._isempty st = true ->
  TimeFreqSpectrum.append timeseries freq epoch fs st =
  match TimeFreqSpectrum.unpack st timeseries epoch fs with
  | Raise e => (Raise e, st)
  | Ok r => (Ok tt, sole_row r freq)
  end.
Proof.
  intros He.
  unfold TimeFreqSpectrum.append, bind, get, lift.
  destruct (TimeFreqSpectrum.unpack st timeseries epoch fs) as [r|e];
    [|reflexivity].
  rewrite He.
  destruct st as [[ie a d ys] es]. cbv in He. subst ie. reflexivity.
Qed.

Lemma append_keeps_flag (st st' : TimeFreqSpectrum.t)
      (c : TimeFreqSpectrum.call) (res : result unit) :
  TimeFreqSpectrum._isempty st = true ->
  TimeFreqSpectrum.append_call c st = (res, st') ->
  TimeFreqSpectrum._isempty st' = true.
Proof.
  intros He H. unfold TimeFreqSpectrum.append_call in H.
  rewrite (append_while_flag_set _ _ _ _ _ He) in H.
  destruct (TimeFreqSpectrum.unpack _ _ _ _); inversion H; subst;
    [reflexivity | exact He].
Qed.

Lemma unpack_row_independent_of_state (st1 st2 : TimeFreqSpectrum.t)
      (timeseries : TimeFreqSpectrum.ts_arg) (epoch fs : option Q)
      (r1 : TimeFreqSpectrum.row_in) :
  TimeFreqSpectrum.unpack st1 timeseries epoch fs = Ok r1 ->
  exists r2,
    TimeFreqSpectrum.unpack st2 timeseries epoch fs = Ok r2 /\
    TimeFreqSpectrum.in_value r2 = TimeFreqSpectrum.in_value r1 /\
    TimeFreqSpectrum.in_epoch r2 = TimeFreqSpectrum.in_epoch r1 /\
    TimeFreqSpectrum.in_size r2 = TimeFreqSpectrum.in_size r1.
Proof.
  unfold TimeFreqSpectrum.unpack.
  destruct timeseries as [ts|a]; [|destruct epoch as [e|]];
    intros H; inversion H; subst; eexists; repeat split; reflexivity.
Qed.

Lemma appends_last_while_flag_set (cs : list TimeFreqSpectrum.call)
      (c : TimeFreqSpectrum.call) (st0 st : TimeFreqSpectrum.t) :
  TimeFreqSpectrum._isempty st0 = true ->
  TimeFreqSpectrum.appends (cs ++ [c]) st0 = (Ok tt, st) ->
  exists prev r,
    TimeFreqSpectrum._isempty prev = true /\
    TimeFreqSpectrum.unpack prev (TimeFreqSpectrum.c_timeseries c)
      (TimeFreqSpectrum.c_epoch c) (TimeFreqSpectrum.c_fs c) = Ok r /\
    st = sole_row r (TimeFreqSpectrum.c_freq c).
Proof.
  revert st0. induction cs as [|c0 cs IH]; intros st0 He H.
  - simpl in H. unfold bind, TimeFreqSpectrum.append_call in H.
    rewrite (append_while_flag_set _ _ _ _ _ He) in H.
    destruct (TimeFreqSpectrum.unpack st0 _ _ _) as [r|e] eqn:Hu.
    + unfold ret in H. inversion H; subst.
      exists st0, r. repeat split; assumption.
    + discriminate H.
  - simpl in H. unfold bind in H.
    destruct (TimeFreqSpectrum.append_call c0 st0) as [res st1] eqn:H1.
    destruct res as [[]|e]; [|discriminate H].
    apply (IH st1); [|exact H].
    eapply append_keeps_flag; eassumption.
Qed.

(** C10: on a spectrum made by [CreateEmptySpectrum] the flag [_isempty]
    stays set, so after any run of successful appends the spectrum holds
    exactly the row, key and epoch of the last call, whatever the earlier
    calls and whatever its frequency. *)
Theorem C10_empty_factory_keeps_only_last_row :
  forall (e st : TimeFreqSpectrum.t) (cs : list TimeFreqSpectrum.call)
         (c : TimeFreqSpectrum.call),
    CreateEmptySpectrum = Ok e ->
    TimeFreqSpectrum.appends (cs ++ [c]) e = (Ok tt, st) ->
    TimeFreqSpectrum._isempty st = true /\
    TimeFreqSpectrum.ysize st = Ok 1 /\
    TimeFreqSpectrum._y st = Some [TimeFreqSpectrum.c_freq c] /\
    exists r,
      TimeFreqSpectrum.unpack e (TimeFreqSpectrum.c_timeseries c)
        (TimeFreqSpectrum.c_epoch c) (TimeFreqSpectrum.c_fs c) = Ok r /\
      TimeFreqSpectrum._array st =
      reshape_1_n (TimeFreqSpectrum.in_value r) (TimeFreqSpectrum.in_size r) /\
      TimeFreqSpectrum._epoch st = Some [TimeFreqSpectrum.in_epoch r].
Proof.
  intros e st cs c He H.
  rewrite CreateEmptySpectrum_eq in He. inversion He; subst e.
  destruct (appends_last_while_flag_set cs c empty_spectrum st eq_refl H)
    as [prev [r [_ [Hu Hst]]]].
  destruct (unpack_row_independent_of_state prev empty_spectrum _ _ _ r Hu)
    as [r2 [Hu2 [Hv [Hep Hsz]]]].
  subst st. repeat split.
  exists r2. rewrite Hv, Hep, Hsz. repeat split. exact Hu2.
Qed.

Lemma scenario_rows_constructed :
  TimeSeries.__init__ (np_array1 [1; 2; 3; 4; 5]%Q) 0 10
    TimeSeries.default_info = Ok row_a /\
  TimeSeries.__init__ (np_array1 [6; 7; 8; 9; 10]%Q) 1 10
    TimeSeries.default_info = Ok row_b /\
  TimeSeries.__init__ (np_array1 [11; 12; 13; 14; 15]%Q) 2 10
    TimeSeries.default_info = Ok row_c.
Proof. repeat split; reflexivity. Qed.

Lemma C10_empty_factory_keeps_only_last_row_witness :
  exists st,
    TimeFreqSpectrum.appends [call_ts row_a 20; call_ts row_b 10] empty_spectrum
    = (Ok tt, st) /\
    TimeFreqSpectrum._isempty st = true /\
    TimeFreqSpectrum.ysize st = Ok 1 /\
    TimeFreqSpectrum._y st = Some [10%Q] /\
    TimeFreqSpectrum._array st = mk_ndarray [1; 5] [6; 7; 8; 9; 10]%Q /\
    TimeFreqSpectrum._epoch st = Some [1%Q].
Proof.
  eexists. split; [reflexivity|].
  destruct (C10_empty_factory_keeps_only_last_row empty_spectrum _
              [call_ts row_a 20] (call_ts row_b 10) eq_refl eq_refl)
    as [H1 [H2 [H3 [r [Hr [H4 H5]]]]]].
  inversion Hr; subst r.
  repeat split; assumption.
Defined.

(** C1: run from the empty-spectrum factory, the scenario ends with one row
    after every step.  The second append (frequency 10) leaves keys [[10]]
    and epochs [[1]] rather than [[10, 20]] and [[1, 0]]: the row stored at
    frequency 20 is gone; the third leaves keys [[20]]. *)
Theorem C1_scenario_from_empty_factory :
  exists s0 s1 s2 s3,
    CreateEmptySpectrum = Ok s0 /\
    TimeFreqSpectrum.append (TimeFreqSpectrum.ArgTimeSeries row_a) 20 None None s0
    = (Ok tt, s1) /\
    TimeFreqSpectrum.ysize s1 = Ok 1 /\
    TimeFreqSpectrum._y s1 = Some [20%Q] /\
    TimeFreqSpectrum.append (TimeFreqSpectrum.ArgTimeSeries row_b) 10 None None s1
    = (Ok tt, s2) /\
    TimeFreqSpectrum.ysize s2 = Ok 1 /\
    TimeFreqSpectrum._y s2 = Some [10%Q] /\
    TimeFreqSpectrum._epoch s2 = Some [1%Q] /\
    TimeFreqSpectrum._array s2 = mk_ndarray [1; 5] [6; 7; 8; 9; 10]%Q /\
    TimeFreqSpectrum.append (TimeFreqSpectrum.ArgTimeSeries row_c) 20 None None s2
    = (Ok tt, s3) /\
    TimeFreqSpectrum.ysize s3 = Ok 1 /\
    TimeFreqSpectrum._y s3 = Some [20%Q] /\
    TimeFreqSpectrum._epoch s3 = Some [2%Q] /\
    TimeFreqSpectrum._array s3 = mk_ndarray [1; 5] [11; 12; 13; 14; 15]%Q.
Proof.
  exists empty_spectrum,
    (one_row_spectrum [1; 2; 3; 4; 5]%Q 20 0),
    (one_row_spectrum [6; 7; 8; 9; 10]%Q 10 1),
    (one_row_spectrum [11; 12; 13; 14; 15]%Q 20 2).
  repeat split; vm_compute; reflexivity.
Qed.

(** The same three appends on a spectrum constructed with the first row
    take the sorted path and end as the scenario describes. *)
Lemma scenario_from_constructed_spectrum :
  exists s1 s2 s3,
    TimeFreqSpectrum.__init__ (np_array1 [1; 2; 3; 4; 5]%Q) (PyInt 0) 10
      (PyInt 20) = Ok s1 /\
    TimeFreqSpectrum.append (TimeFreqSpectrum.ArgTimeSeries row_b) 10 None None s1
    = (Ok tt, s2) /\
    TimeFreqSpectrum._y s2 = Some [10; 20]%Q /\
    TimeFreqSpectrum._epoch s2 = Some [1; 0]%Q /\
    TimeFreqSpectrum._array s2
    = mk_ndarray [2; 5] [6; 7; 8; 9; 10; 1; 2; 3; 4; 5]%Q /\
    TimeFreqSpectrum.append (TimeFreqSpectrum.ArgTimeSeries row_c) 20 None None s2
    = (Ok tt, s3) /\
    TimeFreqSpectrum._y s3 = Some [10; 20]%Q /\
    TimeFreqSpectrum._epoch s3 = Some [1; 2]%Q /\
    TimeFreqSpectrum._array s3
    = mk_ndarray [2; 5] [6; 7; 8; 9; 10; 11; 12; 13; 14; 15]%Q.
Proof.
  exists (sorted_spectrum [1; 2; 3; 4; 5]%Q [20]%Q [0]%Q),
    (sorted_spectrum [6; 7; 8; 9; 10; 1; 2; 3; 4; 5]%Q [10; 20]%Q [1; 0]%Q),
    (sorted_spectrum [6; 7; 8; 9; 10; 11; 12; 13; 14; 15]%Q [10; 20]%Q
       [1; 2]%Q).
  repeat split; vm_compute; reflexivity.
Qed.

(** ** The first append to an empty [MultiSeries] *)

Lemma empty_multiseries_constructed (deltax : option Q) (y : pyval) :
  MultiSeries.__init__ (np_array1 []) deltax y = Ok empty_multiseries.
Proof. reflexivity. Qed.

(** No value is both an [int] and a [float], so the guard of the empty
    branch always fires. *)
Lemma key_type_guard_always_fires (y : pyval) :
  negb (isinstance_int y) || negb (isinstance_float y) = true.
Proof. destruct y; reflexivity. Qed.

Lemma first_append_raises (m : MultiSeries.t) (s : Series.t) (y : pyval) :
  MultiSeries._isempty m = true ->
  MultiSeries.append (MultiSeries.ArgSeries s) y m =
  (Raise TypeError,
   MultiSeries.mk true (reshape_1_n (Series.value s) (Series.size s))
                  (Series.deltax s) (MultiSeries._y m)).
Proof.
  intros He. destruct m as [ie a d ys]. simpl in He. subst ie.
  unfold MultiSeries.append, bind, get, lift; simpl.
  unfold MultiSeries.set_deltax, MultiSeries.set_array; simpl.
  rewrite key_type_guard_always_fires. reflexivity.
Qed.

(** C3: the first append to an empty [MultiSeries] never succeeds: for
    every series and every key, scalar or not, it raises TypeError, and the
    key sequence stays [None]. *)
Theorem C3_first_append_always_TypeError :
  MultiSeries.__init__ (np_array1 []) None PyNone = Ok empty_multiseries /\
  forall (s : Series.t) (y : pyval),
    MultiSeries.append (MultiSeries.ArgSeries s) y empty_multiseries =
    (Raise TypeError,
     MultiSeries.mk true (reshape_1_n (Series.value s) (Series.size s))
                    (Series.deltax s) None).
Proof.
  split; [reflexivity|].
  intros s y. now rewrite first_append_raises.
Qed.

(** C2: an append that raises has already changed the container: on an
    empty [MultiSeries] the call with a three-sample series and the key 20
    raises TypeError and leaves the new row and spacing stored. *)
Theorem C2_failed_append_has_mutated :
  let s := Series.mk (np_array1 [1; 2; 3]%Q) (Some (1 # 2)) Series.default_info in
  exists m',
    MultiSeries.append (MultiSeries.ArgSeries s) (PyInt 20) empty_multiseries
    = (Raise TypeError, m') /\
    MultiSeries._array m' = mk_ndarray [1; 3] [1; 2; 3]%Q /\
    MultiSeries._array m' <> MultiSeries._array empty_multiseries /\
    MultiSeries._deltax m' = Some (1 # 2) /\
    MultiSeries._deltax m' <> MultiSeries._deltax empty_multiseries.
Proof.
  intros s.
  exists (MultiSeries.mk true (mk_ndarray [1; 3] [1; 2; 3]%Q) (Some (1 # 2)) None).
  split; [reflexivity|].
  repeat split; simpl; discriminate.
Qed.

(** ** Iterating a spectrum *)

Lemma iter_item_raises (st : TimeFreqSpectrum.t) (i : nat) :
  exists e, TimeFreqSpectrum.iter_item st i = Raise e.
Proof.
  unfold TimeFreqSpectrum.iter_item, TimeFreqSpectrum._info.
  destruct (subscriptable _); simpl; [|eauto].
  destruct (py_nth _ i); simpl; [|eauto].
  destruct (np_row _ i); simpl; [|eauto].
  destruct (TimeFreqSpectrum.epoch st); simpl; [|eauto].
  destruct (py_nth _ i); simpl; [|eauto].
  destruct (TimeFreqSpectrum.fs st); simpl; eauto.
Qed.

(** With at least one row, iteration raises before the first pair. *)
Lemma iter_nonempty_raises (st : TimeFreqSpectrum.t) (n : nat) :
  TimeFreqSpectrum.ysize st = Ok (S n) ->
  exists e, TimeFreqSpectrum.__iter__ st = ([], Raise e).
Proof.
  intros H. unfold TimeFreqSpectrum.__iter__. rewrite H. simpl.
  destruct (iter_item_raises st 0) as [e He]. rewrite He. eauto.
Qed.

(** C4: on a spectrum constructed with one row (key 20) and given a second
    row at key 10, rows, keys and epochs are in step and the keys ascend,
    yet iterating yields no pair: the first step raises AttributeError on
    [self._info]. *)
Theorem C4_iteration_raises :
  exists s1 s2,
    TimeFreqSpectrum.__init__ (np_array1 [1; 2; 3; 4; 5]%Q) (PyInt 0) 10
      (PyInt 20) = Ok s1 /\
    TimeFreqSpectrum.append (TimeFreqSpectrum.ArgTimeSeries row_b) 10 None None s1
    = (Ok tt, s2) /\
    TimeFreqSpectrum.ysize s2 = Ok 2 /\
    TimeFreqSpectrum._y s2 = Some [10; 20]%Q /\
    TimeFreqSpectrum._epoch s2 = Some [1; 0]%Q /\
    TimeFreqSpectrum.__iter__ s1 = ([], Raise AttributeError) /\
    TimeFreqSpectrum.__iter__ s2 = ([], Raise AttributeError).
Proof.
  exists (sorted_spectrum [1; 2; 3; 4; 5]%Q [20]%Q [0]%Q),
    (sorted_spectrum [6; 7; 8; 9; 10; 1; 2; 3; 4; 5]%Q [10; 20]%Q [1; 0]%Q).
  repeat split; vm_compute; reflexivity.
Qed.

(** * Further properties of the module *)

(** ** Slicing a one-dimensional series *)

Lemma take_items_1d (l : list Q) (ps : list nat) :
  Forall (fun p => p < length l) ps ->
  take_items (np_array1 l) ps = np_array1 (map (fun p => nth p l 0%Q) ps).
Proof.
  intros H. unfold take_items, np_array1; simpl.
  rewrite length_map. f_equal.
  induction H as [|p ps Hp _ IH]; [reflexivity|].
  simpl. rewrite IH.
  change (item {| shape := [length l]; data := l |} p)
    with (item (np_array1 l) p).
  now rewrite item_1d.
Qed.

Lemma adjust_start_range (b : option Z) (stp n : Z) :
  (0 <= n)%Z ->
  ((0 < stp -> 0 <= adjust_start b stp n <= n) /\
   (stp < 0 -> -1 <= adjust_start b stp n <= n - 1))%Z.
Proof.
  intros Hn. unfold adjust_start. destruct b as [v|].
  - destruct (Z.ltb_spec v 0); [destruct (Z.ltb_spec (v + n) 0)|
                                destruct (Z.leb_spec n v)];
      destruct (Z.ltb_spec stp 0); lia.
  - destruct (Z.ltb_spec stp 0); lia.
Qed.

Lemma adjust_stop_range (b : option Z) (stp n : Z) :
  (0 <= n)%Z ->
  ((0 < stp -> 0 <= adjust_stop b stp n <= n) /\
   (stp < 0 -> -1 <= adjust_stop b stp n <= n - 1))%Z.
Proof.
  intros Hn. unfold adjust_stop. destruct b as [v|].
  - destruct (Z.ltb_spec v 0); [destruct (Z.ltb_spec (v + n) 0)|
                                destruct (Z.leb_spec n v)];
      destruct (Z.ltb_spec stp 0); lia.
  - destruct (Z.ltb_spec stp 0); lia.
Qed.

(** Every position a slice selects lies inside the sequence. *)
Lemma slice_position_in_range (lo hi stp n j : Z) :
  (0 <= n)%Z -> stp <> 0%Z ->
  (0 < stp -> 0 <= lo <= n /\ 0 <= hi <= n)%Z ->
  (stp < 0 -> -1 <= lo <= n - 1 /\ -1 <= hi <= n - 1)%Z ->
  (0 <= j < slice_length lo hi stp)%Z ->
  (0 <= lo + j * stp < n)%Z.
Proof.
  intros Hn Hnz Hpos Hneg Hj. unfold slice_length in Hj.
  destruct (Z.ltb_spec stp 0) as [Hs|Hs].
  - destruct (Hneg Hs) as [Hlo Hhi].
    destruct (Z.ltb_spec hi lo) as [Hlt|]; [|lia].
    assert (Hd : (- stp * ((lo - hi - 1) / - stp) <= lo - hi - 1)%Z)
      by (apply Z.mul_div_le; lia).
    assert (Hjm : (j <= (lo - hi - 1) / - stp)%Z) by lia.
    assert (Hm : (j * - stp <= (lo - hi - 1) / - stp * - stp)%Z)
      by (apply Z.mul_le_mono_nonneg_r; lia).
    nia.
  - assert (Hs' : (0 < stp)%Z) by lia.
    destruct (Hpos Hs') as [Hlo Hhi].
    destruct (Z.ltb_spec lo hi) as [Hlt|]; [|lia].
    assert (Hd : (stp * ((hi - lo - 1) / stp) <= hi - lo - 1)%Z)
      by (apply Z.mul_div_le; lia).
    assert (Hjm : (j <= (hi - lo - 1) / stp)%Z) by lia.
    assert (Hm : (j * stp <= (hi - lo - 1) / stp * stp)%Z)
      by (apply Z.mul_le_mono_nonneg_r; lia).
    nia.
Qed.

Lemma slice_length_le (lo hi stp n : Z) :
  (0 <= n)%Z -> stp <> 0%Z ->
  (0 < stp -> 0 <= lo <= n /\ 0 <= hi <= n)%Z ->
  (stp < 0 -> -1 <= lo <= n - 1 /\ -1 <= hi <= n - 1)%Z ->
  (0 <= slice_length lo hi stp <= n)%Z.
Proof.
  intros Hn Hnz Hpos Hneg. unfold slice_length.
  destruct (Z.ltb_spec stp 0) as [Hs|Hs].
  - destruct (Hneg Hs) as [Hlo Hhi].
    destruct (Z.ltb_spec hi lo) as [Hlt|]; [|lia].
    assert (H0 : (0 <= (lo - hi - 1) / - stp)%Z)
      by (apply Z.div_pos; lia).
    assert (H1 : ((lo - hi - 1) / - stp <= lo - hi - 1)%Z)
      by (apply Z.div_le_upper_bound; nia).
    lia.
  - assert (Hs' : (0 < stp)%Z) by lia.
    destruct (Hpos Hs') as [Hlo Hhi].
    destruct (Z.ltb_spec lo hi) as [Hlt|]; [|lia].
    assert (H0 : (0 <= (hi - lo - 1) / stp)%Z)
      by (apply Z.div_pos; lia).
    assert (H1 : ((hi - lo - 1) / stp <= hi - lo - 1)%Z)
      by (apply Z.div_le_upper_bound; nia).
    lia.
Qed.

Lemma slice_positions_ok (sl : pyslice) (len : nat) :
  step sl <> Some 0%Z ->
  exists ps,
    slice_positions sl len = Ok ps /\
    Forall (fun p => p < len) ps /\
    length ps <= len.
Proof.
  intros Hnz. unfold slice_positions.
  set (stp := match step sl with Some s => s | None => 1%Z end).
  assert (Hstp : stp <> 0%Z).
  { unfold stp. destruct (step sl) as [k|]; [|lia].
    intros ->. now apply Hnz. }
  destruct (Z.eqb_spec stp 0) as [|_]; [contradiction|].
  set (n := Z.of_nat len).
  set (lo := adjust_start (start sl) stp n).
  set (hi := adjust_stop (stop sl) stp n).
  assert (Hn : (0 <= n)%Z) by (unfold n; lia).
  destruct (adjust_start_range (start sl) stp n Hn) as [Hsp Hsn].
  destruct (adjust_stop_range (stop sl) stp n Hn) as [Hep Hen].
  fold lo in Hsp, Hsn. fold hi in Hep, Hen.
  assert (Hpos : (0 < stp -> 0 <= lo <= n /\ 0 <= hi <= n)%Z) by auto.
  assert (Hneg : (stp < 0 -> -1 <= lo <= n - 1 /\ -1 <= hi <= n - 1)%Z) by auto.
  eexists; split; [reflexivity|]. split.
  - apply Forall_forall. intros p Hp.
    apply in_map_iff in Hp as [i [Hi Hin]]. apply in_seq in Hin.
    pose proof (slice_position_in_range lo hi stp n (Z.of_nat i)
                  Hn Hstp Hpos Hneg) as H.
    assert (Hj : (0 <= Z.of_nat i < slice_length lo hi stp)%Z) by lia.
    specialize (H Hj). subst p. unfold n in H. lia.
  - rewrite length_map, length_seq.
    pose proof (slice_length_le lo hi stp n Hn Hstp Hpos Hneg) as H.
    unfold n in H. lia.
Qed.

Lemma getslice_1d (l : list Q) (d : Q) (info : string) (sl : pyslice)
      (ps : list nat) :
  start_not_negative sl ->
  slice_positions sl (length l) = Ok ps ->
  Forall (fun p => p < length l) ps ->
  Series._getslice (Series.mk (np_array1 l) (Some d) info) (Series.Slice sl)
  = Ok (Series.Wrapped
          (Series.mk (np_array1 (map (fun p => nth p l 0%Q) ps))
                     (Some (sliced_deltax d sl)) Series.default_info)).
Proof.
  intros Hst Hps Hin. unfold Series._getslice.
  rewrite (start_check_passes sl Hst).
  unfold Series.scale_deltax, np_getslice, sliced_deltax; simpl.
  rewrite Hps.
  destruct (step sl) as [k|]; simpl; rewrite (take_items_1d l ps Hin);
    reflexivity.
Qed.

(** X1: on a one-dimensional series with a numeric spacing, a slice whose
    start is negative or whose step is zero raises ValueError; every other
    slice, its step being of a magnitude that converts to a float, returns
    a [Series] labelled ['Series'] whose entries are entries of the buffer,
    at most as many as the buffer has, at the spacing scaled by the
    step. *)
Theorem X1_slice_raises_iff_negative_start_or_zero_step :
  forall (l : list Q) (d : Q) (info : string) (sl : pyslice),
    let s := Series.mk (np_array1 l) (Some d) info in
    ((exists s0, start sl = Some s0 /\ (s0 < 0)%Z) \/ step sl = Some 0%Z ->
     Series._getslice s (Series.Slice sl) = Raise ValueError) /\
    (start_not_negative sl -> step sl <> Some 0%Z ->
     step_in_float_range sl ->
     exists ps,
       Forall (fun p => p < length l) ps /\ length ps <= length l /\
       Series._getslice s (Series.Slice sl)
       = Ok (Series.Wrapped
               (Series.mk (np_array1 (map (fun p => nth p l 0%Q) ps))
                          (Some (sliced_deltax d sl)) Series.default_info))).
Proof.
  intros l d info sl s. split.
  - intros H. unfold Series._getslice.
    destruct (start sl) as [s0|] eqn:Hs0.
    + destruct (Z.ltb_spec s0 0) as [Hneg|Hpos]; [reflexivity|].
      destruct H as [[s1 [H1 H2]]|Hz]; [inversion H1; lia|].
      rewrite Hz. unfold s, Series.scale_deltax, np_getslice, slice_positions;
        simpl. rewrite Hz. reflexivity.
    + destruct H as [[s1 [H1 _]]|Hz]; [discriminate H1|].
      rewrite Hz. unfold s, Series.scale_deltax, np_getslice, slice_positions;
        simpl. rewrite Hz. reflexivity.
  - intros Hst Hnz _.
    destruct (slice_positions_ok sl (length l) Hnz) as [ps [Hps [Hin Hlen]]].
    exists ps. repeat split; try assumption.
    now apply getslice_1d.
Qed.

Lemma X1_slice_raises_iff_negative_start_or_zero_step_witness :
  let s := Series.mk (np_array1 [1; 2; 3; 4; 5]%Q) (Some (1 # 4)) "abc"%string in
  Series._getslice s (Series.Slice (mk_slice (Some (-1)%Z) None None))
  = Raise ValueError /\
  exists ps,
    Forall (fun p => p < 5) ps /\ length ps <= 5 /\
    Series._getslice s (Series.Slice (mk_slice (Some 4%Z) (Some 0%Z) (Some (-2)%Z)))
    = Ok (Series.Wrapped
            (Series.mk (np_array1 (map (fun p => nth p [1; 2; 3; 4; 5]%Q 0%Q) ps))
                       (Some ((1 # 4) * inject_Z (-2))%Q) Series.default_info)).
Proof.
  intros s. split.
  - apply (proj1 (X1_slice_raises_iff_negative_start_or_zero_step
                    [1; 2; 3; 4; 5]%Q (1 # 4) "abc"%string
                    (mk_slice (Some (-1)%Z) None None))).
    left. exists (-1)%Z. split; [reflexivity | lia].
  - apply (proj2 (X1_slice_raises_iff_negative_start_or_zero_step
                    [1; 2; 3; 4; 5]%Q (1 # 4) "abc"%string
                    (mk_slice (Some 4%Z) (Some 0%Z) (Some (-2)%Z)))).
    + unfold start_not_negative; simpl; lia.
    + simpl; discriminate.
    + vm_compute. reflexivity.
Defined.

Lemma skipn_nth_cons (l : list Q) (a : nat) :
  a < length l -> skipn a l = nth a l 0%Q :: skipn (S a) l.
Proof.
  revert a; induction l as [|x l IH]; intros a Ha; simpl in Ha; [lia|].
  destruct a as [|a]; [reflexivity|].
  simpl. apply IH. lia.
Qed.

Lemma map_nth_seq (l : list Q) (a m : nat) :
  a + m <= length l ->
  map (fun p => nth p l 0%Q) (seq a m) = firstn m (skipn a l).
Proof.
  revert a; induction m as [|m IH]; intros a H; [reflexivity|].
  simpl seq. simpl map. rewrite (skipn_nth_cons l a) by lia.
  simpl. f_equal. apply IH. lia.
Qed.

Lemma positions_from (a k s m : nat) :
  map (fun i => Z.to_nat (Z.of_nat a + Z.of_nat i * Z.of_nat k)) (seq s m)
  = map (fun i => a + i * k) (seq s m).
Proof. apply map_ext. intros i. lia. Qed.

Lemma seq_as_map_from (a m s : nat) :
  map (fun i => a + i * 1) (seq s m) = seq (a + s) m.
Proof.
  revert s. induction m as [|m IH]; intros s; [reflexivity|].
  simpl. f_equal; [lia|]. rewrite IH. f_equal. lia.
Qed.

Lemma seq_as_map (a m : nat) : map (fun i => a + i * 1) (seq 0 m) = seq a m.
Proof. rewrite seq_as_map_from. now rewrite Nat.add_0_r. Qed.

Lemma adjust_start_nat (oa : option nat) (k : Z) (len : nat) :
  (0 < k)%Z ->
  adjust_start (option_map Z.of_nat oa) k (Z.of_nat len)
  = Z.of_nat (Nat.min (or_default oa 0) len).
Proof.
  intros Hk. unfold adjust_start. destruct (Z.ltb_spec k 0); [lia|].
  destruct oa as [a|]; simpl; [|lia].
  destruct (Z.ltb_spec (Z.of_nat a) 0); [lia|].
  destruct (Z.leb_spec (Z.of_nat len) (Z.of_nat a)); lia.
Qed.

Lemma adjust_stop_nat (ob : option nat) (k : Z) (len : nat) :
  (0 < k)%Z ->
  adjust_stop (option_map Z.of_nat ob) k (Z.of_nat len)
  = Z.of_nat (Nat.min (or_default ob len) len).
Proof.
  intros Hk. unfold adjust_stop. destruct (Z.ltb_spec k 0); [lia|].
  destruct ob as [b|]; simpl; [|lia].
  destruct (Z.ltb_spec (Z.of_nat b) 0); [lia|].
  destruct (Z.leb_spec (Z.of_nat len) (Z.of_nat b)); lia.
Qed.

(** How many entries [lo:hi:k] selects, for [0 <= lo], [0 <= hi] and
    [k > 0]: the ceiling of [(hi - lo) / k]. *)
Lemma slice_length_nat (lo hi k : nat) :
  0 < k ->
  Z.to_nat (slice_length (Z.of_nat lo) (Z.of_nat hi) (Z.of_nat k))
  = (hi - lo + k - 1) / k.
Proof.
  intros Hk. unfold slice_length.
  destruct (Z.ltb_spec (Z.of_nat k) 0); [lia|].
  destruct (Z.ltb_spec (Z.of_nat lo) (Z.of_nat hi)) as [Hlt|Hge].
  - replace (Z.of_nat hi - Z.of_nat lo - 1)%Z with (Z.of_nat (hi - lo - 1))
      by lia.
    rewrite <- Nat2Z.inj_div.
    replace (hi - lo + k - 1) with (hi - lo - 1 + 1 * k) by lia.
    rewrite Nat.div_add by lia. lia.
  - replace (hi - lo + k - 1) with (k - 1) by lia.
    rewrite Nat.div_small by lia. reflexivity.
Qed.


Lemma slice_positions_no_step (oa ob : option nat) (len : nat) :
  let lo := Nat.min (or_default oa 0) len in
  let hi := Nat.min (or_default ob len) len in
  slice_positions
    (mk_slice (option_map Z.of_nat oa) (option_map Z.of_nat ob) None) len
  = Ok (seq lo (hi - lo)).
Proof.
  intros lo hi. unfold slice_positions; cbn [step start stop].
  change (1 =? 0)%Z with false. cbv iota.
  rewrite adjust_start_nat, adjust_stop_nat by lia.
  fold lo hi. change 1%Z with (Z.of_nat 1) at 2.
  rewrite slice_length_nat by lia.
  change 1%Z with (Z.of_nat 1).
  rewrite positions_from, seq_as_map.
  do 2 f_equal. rewrite Nat.div_1_r. lia.
Qed.

(** X2: on a one-dimensional series, [s[a:b]], [s[a:]], [s[:b]] and [s[:]]
    with non-negative bounds return the entries from position [a] up to,
    not including, position [b], each bound clamped to the length, at the
    same spacing; the label of the result is ['Series'] whatever the label
    of [s] was. *)
Theorem X2_contiguous_slice_is_sublist :
  forall (l : list Q) (d : Q) (info : string) (oa ob : option nat),
    Series._getslice (Series.mk (np_array1 l) (Some d) info)
      (Series.Slice
         (mk_slice (option_map Z.of_nat oa) (option_map Z.of_nat ob) None))
    = Ok (Series.Wrapped
            (Series.mk
               (np_array1
                  (firstn (or_default ob (length l) - or_default oa 0)
                          (skipn (or_default oa 0) l)))
               (Some d) Series.default_info)).
Proof.
  intros l d info oa ob.
  set (a := or_default oa 0). set (b := or_default ob (length l)).
  set (lo := Nat.min a (length l)). set (hi := Nat.min b (length l)).
  rewrite (getslice_1d l d info _ (seq lo (hi - lo))).
  - unfold sliced_deltax; simpl. do 4 f_equal.
    rewrite map_nth_seq by (unfold lo, hi; lia).
    destruct (Nat.le_gt_cases (length l) a) as [Hbig|Hsmall].
    + replace (skipn a l) with (@nil Q) by (symmetry; now apply skipn_all2).
      replace (skipn lo l) with (@nil Q)
        by (symmetry; apply skipn_all2; unfold lo; lia).
      now rewrite !firstn_nil.
    + replace lo with a by (unfold lo; lia).
      destruct (Nat.le_gt_cases (length l) b) as [Hb|Hb].
      * replace hi with (length l) by (unfold hi; lia).
        rewrite !firstn_all2; [reflexivity| |]; rewrite length_skipn; lia.
      * replace hi with b by (unfold hi; lia). reflexivity.
  - unfold start_not_negative; simpl. destruct oa; simpl; lia.
  - apply slice_positions_no_step.
  - apply Forall_forall. intros p Hp. apply in_seq in Hp.
    unfold lo, hi in Hp. lia.
Qed.



Lemma rev_as_map (l : list Q) :
  map (fun i => nth (length l - 1 - i) l 0%Q) (seq 0 (length l)) = rev l.
Proof.
  induction l as [|x l IH]; [reflexivity|].
  cbn [length rev]. rewrite seq_S, map_app. cbn [map Nat.add].
  f_equal.
  - rewrite <- IH. apply map_ext_in. intros i Hi. apply in_seq in Hi.
    replace (S (length l) - 1 - i) with (S (length l - 1 - i)) by lia.
    reflexivity.
  - replace (S (length l) - 1 - length l) with 0 by lia. reflexivity.
Qed.

Lemma slice_positions_reverse (len : nat) :
  slice_positions (mk_slice None None (Some (-1)%Z)) len
  = Ok (map (fun i => len - 1 - i) (seq 0 len)).
Proof.
  unfold slice_positions; cbn [step start stop].
  change (-1 =? 0)%Z with false. cbv iota.
  unfold adjust_start, adjust_stop, slice_length.
  change (-1 <? 0)%Z with true. cbv iota.
  destruct (Z.ltb_spec (-1) (Z.of_nat len - 1)) as [Hlt|Hge].
  - replace (Z.to_nat ((Z.of_nat len - 1 - -1 - 1) / - -1 + 1)) with len.
    + f_equal. apply map_ext_in. intros i Hi. apply in_seq in Hi. lia.
    + change (- -1)%Z with 1%Z. rewrite Z.div_1_r. lia.
  - assert (len = 0) by lia. subst len. reflexivity.
Qed.

(** X4: on a one-dimensional series, [s[::-1]] returns the entries in
    reverse order, and its spacing is the spacing multiplied by [-1]: the
    result of reversing a series with a positive spacing has a negative
    one. *)
Theorem X4_reverse_slice_negates_spacing :
  forall (l : list Q) (d : Q) (info : string),
    Series._getslice (Series.mk (np_array1 l) (Some d) info)
      (Series.Slice (mk_slice None None (Some (-1)%Z)))
    = Ok (Series.Wrapped
            (Series.mk (np_array1 (rev l)) (Some (d * inject_Z (-1))%Q)
                       Series.default_info)) /\
    ((0 < d)%Q -> (d * inject_Z (-1) < 0)%Q).
Proof.
  intros l d info. split.
  - rewrite (getslice_1d l d info _
               (map (fun i => length l - 1 - i) (seq 0 (length l)))).
    + unfold sliced_deltax; simpl. rewrite map_map.
      now rewrite rev_as_map.
    + exact I.
    + apply slice_positions_reverse.
    + apply Forall_forall. intros p Hp.
      apply in_map_iff in Hp as [i [<- Hi]]. apply in_seq in Hi. lia.
  - intros Hd.
    setoid_replace (d * inject_Z (-1))%Q with (- d)%Q by ring.
    apply (Qopp_lt_compat 0 d) in Hd. exact Hd.
Qed.

Lemma X4_reverse_slice_negates_spacing_witness :
  Series._getslice
    (Series.mk (np_array1 [1; 2; 3]%Q) (Some (1 # 2)) "abc"%string)
    (Series.Slice (mk_slice None None (Some (-1)%Z)))
  = Ok (Series.Wrapped
          (Series.mk (np_array1 [3; 2; 1]%Q) (Some ((1 # 2) * inject_Z (-1))%Q)
                     Series.default_info)) /\
  ((1 # 2) * inject_Z (-1) < 0)%Q.
Proof.
  destruct (X4_reverse_slice_negates_spacing [1; 2; 3]%Q (1 # 2) "abc"%string)
    as [H1 H2].
  split; [exact H1 | apply H2; reflexivity].
Defined.

(** ** Reading and writing single entries *)

Lemma normalize_index_out_of_range (len : nat) (i : Z) :
  (i < - Z.of_nat len \/ Z.of_nat len <= i)%Z ->
  normalize_index len i = Raise IndexError.
Proof.
  intros H. unfold normalize_index.
  destruct (Z.ltb_spec i (- Z.of_nat len)); [reflexivity|].
  destruct (Z.leb_spec (Z.of_nat len) i); [reflexivity|lia].
Qed.

Lemma getitem_int_1d (l : list Q) (dx : option Q) (info : string) (j : Z) :
  (- Z.of_nat (length l) <= j < Z.of_nat (length l))%Z ->
  Series.__getitem__ (Series.mk (np_array1 l) dx info) (Series.Int j)
  = Ok (Series.Scalar (nth (key_position (length l) j) l 0%Q)).
Proof.
  intros Hj. unfold Series.__getitem__, Series.np_getitem_int; simpl.
  destruct (normalize_index_in_range (length l) j Hj) as [Hn _].
  rewrite Hn. reflexivity.
Qed.

(** X5: on a one-dimensional series of [n] entries, [s[i]] for an integer
    [i] with [-n <= i < n] is the number at position [i], counted from the
    end when [i] is negative, so [s[i - n]] and [s[i]] agree; any other
    integer raises IndexError. *)
Theorem X5_integer_key_reads_one_entry :
  forall (l : list Q) (dx : option Q) (info : string) (i : Z),
    let s := Series.mk (np_array1 l) dx info in
    let n := Z.of_nat (length l) in
    ((- n <= i < n)%Z ->
     Series.__getitem__ s (Series.Int i)
     = Ok (Series.Scalar (nth (key_position (length l) i) l 0%Q))) /\
    ((0 <= i < n)%Z ->
     Series.__getitem__ s (Series.Int (i - n))
     = Series.__getitem__ s (Series.Int i)) /\
    ((i < - n \/ n <= i)%Z ->
     Series.__getitem__ s (Series.Int i) = Raise IndexError).
Proof.
  intros l dx info i s n.
  assert (Hin : forall j, (- n <= j < n)%Z ->
            Series.__getitem__ s (Series.Int j)
            = Ok (Series.Scalar (nth (key_position (length l) j) l 0%Q)))
    by (intros j Hj; now apply getitem_int_1d).
  split; [apply Hin|]. split.
  - intros Hi. rewrite !Hin by lia. do 2 f_equal.
    unfold key_position. fold n.
    destruct (Z.ltb_spec (i - n) 0); destruct (Z.ltb_spec i 0); try lia.
    f_equal. lia.
  - intros Hout. unfold Series.__getitem__, Series.np_getitem_int; simpl.
    now rewrite normalize_index_out_of_range.
Qed.

Lemma X5_integer_key_reads_one_entry_witness :
  let s := Series.mk (np_array1 [1; 2; 3]%Q) None "abc"%string in
  Series.__getitem__ s (Series.Int (-1)) = Ok (Series.Scalar 3%Q) /\
  Series.__getitem__ s (Series.Int (2 - 3)) = Series.__getitem__ s (Series.Int 2) /\
  Series.__getitem__ s (Series.Int 3) = Raise IndexError.
Proof.
  intros s.
  pose proof (X5_integer_key_reads_one_entry [1; 2; 3]%Q None "abc"%string
                (-1)%Z) as [H1 _].
  pose proof (X5_integer_key_reads_one_entry [1; 2; 3]%Q None "abc"%string
                2%Z) as [_ [H2 _]].
  pose proof (X5_integer_key_reads_one_entry [1; 2; 3]%Q None "abc"%string
                3%Z) as [_ [_ H3]].
  split; [apply H1; simpl; lia|].
  split; [apply H2; simpl; lia | apply H3; simpl; lia].
Defined.

Lemma nth_update (l : list Q) (p q : nat) (x : Q) :
  p < length l ->
  nth q (firstn p l ++ x :: skipn (S p) l) 0%Q
  = if q =? p then x else nth q l 0%Q.
Proof.
  intros Hp.
  assert (Hlen : length (firstn p l) = p) by (rewrite length_firstn; lia).
  destruct (Nat.eqb_spec q p) as [->|Hne].
  - rewrite app_nth2 by lia. rewrite Hlen, Nat.sub_diag. reflexivity.
  - destruct (Nat.lt_ge_cases q p) as [Hlt|Hge].
    + rewrite app_nth1 by lia. rewrite nth_firstn.
      destruct (Nat.ltb_spec q p); [reflexivity|lia].
    + rewrite app_nth2 by lia. rewrite Hlen.
      destruct (q - p) as [|m] eqn:Hm; [lia|].
      cbn [nth]. rewrite nth_skipn. f_equal. lia.
Qed.

Lemma fill_item_1d (l : list Q) (p : nat) (x : Q) :
  Series.fill_item (np_array1 l) p x
  = mk_ndarray [length l] (firstn p l ++ x :: skipn (S p) l).
Proof.
  unfold Series.fill_item. rewrite item_size_1d.
  simpl shape. simpl data. rewrite Nat.mul_1_r.
  replace (S p * 1) with (S p) by lia. reflexivity.
Qed.

Lemma setitem_int_1d (dt : dtype) (l : list Q) (dx : option Q)
      (info : string) (i : Z) (x : Q) :
  (- Z.of_nat (length l) <= i < Z.of_nat (length l))%Z ->
  Series.__setitem__ dt (Series.Int i) x (Series.mk (np_array1 l) dx info)
  = match np_cast dt x with
    | Ok x' =>
        (Ok tt,
         Series.mk
           (mk_ndarray [length l]
              (firstn (key_position (length l) i) l
                 ++ x' :: skipn (S (key_position (length l) i)) l))
           dx info)
    | Raise e => (Raise e, Series.mk (np_array1 l) dx info)
    end.
Proof.
  intros Hi.
  destruct (normalize_index_in_range (length l) i Hi) as [Hn _].
  fold (key_position (length l) i) in Hn.
  unfold Series.__setitem__, Series.key_positions.
  cbn [Series._value Series._deltax Series._info].
  change (shape (np_array1 l)) with [length l]. cbv beta iota.
  rewrite Hn. cbn [rbind].
  destruct (np_cast dt x) as [x'|e]; cbn [rbind]; [|reflexivity].
  unfold Series.fill_items. cbn [fold_left].
  now rewrite fill_item_1d.
Qed.

(** X6: on a one-dimensional series, [s[i] = x] with an integer [i] in
    range and a number [x] that the dtype of the buffer can hold writes the
    cast of [x] at that position and nothing else: afterwards [s[i]] is the
    cast of [x] (the whole part of [x] in an int64 buffer), every other
    position reads as before, and the number of entries, the spacing and
    the label are unchanged.  When the cast raises, so does the
    assignment, and with [i] out of range it raises IndexError; in both
    cases the series is untouched. *)
Theorem X6_setitem_then_getitem :
  forall (dt : dtype) (l : list Q) (dx : option Q) (info : string) (i : Z)
         (x : Q),
    let s := Series.mk (np_array1 l) dx info in
    let n := Z.of_nat (length l) in
    ((- n <= i < n)%Z ->
     (forall x', np_cast dt x = Ok x' ->
        exists s',
          Series.__setitem__ dt (Series.Int i) x s = (Ok tt, s') /\
          Series.__getitem__ s' (Series.Int i) = Ok (Series.Scalar x') /\
          (forall j, (- n <= j < n)%Z ->
                     key_position (length l) j <> key_position (length l) i ->
                     Series.__getitem__ s' (Series.Int j)
                     = Series.__getitem__ s (Series.Int j)) /\
          Series.__len__ s' = Series.__len__ s /\
          Series.deltax s' = dx /\ Series._info s' = info) /\
     (forall e, np_cast dt x = Raise e ->
        Series.__setitem__ dt (Series.Int i) x s = (Raise e, s))) /\
    ((i < - n \/ n <= i)%Z ->
     Series.__setitem__ dt (Series.Int i) x s = (Raise IndexError, s)).
Proof.
  intros dt l dx info i x s n. split.
  - intros Hi. split.
    + intros x' Hcast.
      destruct (normalize_index_in_range (length l) i Hi) as [_ Hp].
      fold (key_position (length l) i) in Hp.
      set (p := key_position (length l) i) in *.
      set (l' := firstn p l ++ x' :: skipn (S p) l).
      assert (Hlen : length l' = length l).
      { unfold l'. rewrite length_app, length_firstn. cbn [length].
        rewrite length_skipn. lia. }
      exists (Series.mk (np_array1 l') dx info).
      assert (Hget : forall j, (- n <= j < n)%Z ->
                Series.__getitem__ (Series.mk (np_array1 l') dx info)
                                   (Series.Int j)
                = Ok (Series.Scalar
                        (nth (key_position (length l) j) l' 0%Q))).
      { intros j Hj. rewrite <- Hlen. apply getitem_int_1d.
        rewrite Hlen. exact Hj. }
      split; [|split; [|split; [|split; [|split]]]].
      * unfold s. rewrite (setitem_int_1d dt l dx info i x Hi), Hcast.
        fold p. fold l'. unfold np_array1. now rewrite Hlen.
      * rewrite Hget by exact Hi. fold p. unfold l'.
        rewrite nth_update by exact Hp. now rewrite Nat.eqb_refl.
      * intros j Hj Hne. rewrite Hget by exact Hj.
        unfold s. rewrite (getitem_int_1d l dx info j Hj). unfold l'.
        rewrite nth_update by exact Hp.
        destruct (Nat.eqb_spec (key_position (length l) j) p);
          [contradiction|reflexivity].
      * unfold Series.__len__, np_len; simpl. now rewrite Hlen.
      * reflexivity.
      * reflexivity.
    + intros e Hcast. unfold s.
      now rewrite (setitem_int_1d dt l dx info i x Hi), Hcast.
  - intros Hout. unfold Series.__setitem__, Series.key_positions.
    cbn [Series._value s]. change (shape (np_array1 l)) with [length l].
    cbv beta iota. now rewrite normalize_index_out_of_range.
Qed.

Lemma X6_setitem_then_getitem_witness :
  exists s',
    Series.__setitem__ int64 (Series.Int (-1)) (5 # 2)
      (Series.mk (np_array1 [1; 2; 3]%Q) None "abc"%string) = (Ok tt, s') /\
    Series.__getitem__ s' (Series.Int (-1)) = Ok (Series.Scalar 2%Q) /\
    Series.__getitem__ s' (Series.Int 0) = Ok (Series.Scalar 1%Q).
Proof.
  assert (Hi : (- Z.of_nat (length [1; 2; 3]%Q) <= -1
                < Z.of_nat (length [1; 2; 3]%Q))%Z) by (simpl; lia).
  destruct (proj1 (proj1 (X6_setitem_then_getitem int64 [1; 2; 3]%Q None
                            "abc"%string (-1)%Z (5 # 2)%Q) Hi)
              2%Q eq_refl) as [s' [H1 [H2 [H3 _]]]].
  exists s'. split; [exact H1|]. split; [exact H2|].
  rewrite (H3 0%Z); [reflexivity | simpl; lia | vm_compute; lia].
Defined.

(** ** Indexing with an integer array *)








Lemma Qle_bool_false_lt (a b : Q) : Qle_bool a b = false -> (b < a)%Q.
Proof.
  intros H. apply Qnot_le_lt. intros Hle.
  apply Qle_bool_iff in Hle. congruence.
Qed.
















(** ** What an append to a sorted container does *)

Lemma np_insert_ok {A} (l : list A) (idx : nat) (x : A) :
  idx <= length l ->
  np_insert l idx x = Ok (firstn idx l ++ x :: skipn idx l) /\
  length (firstn idx l ++ x :: skipn idx l) = S (length l).
Proof.
  intros H. unfold np_insert.
  destruct (Nat.leb_spec idx (length l)); [|lia].
  split; [reflexivity|].
  rewrite length_app; simpl.
  rewrite length_firstn, length_skipn. lia.
Qed.

Lemma first_ge_lt_length (ys : list Q) (y : Q) (i : nat) :
  first_ge ys y = Ok i -> i < length ys.
Proof.
  revert i; induction ys as [|k rest IH]; intros i; simpl; [discriminate|].
  destruct (Qle_bool 0 (k - y)).
  - intros H; inversion H; lia.
  - destruct (first_ge rest y) as [j|]; simpl; [|discriminate].
    intros H; inversion H; subst. specialize (IH j eq_refl). lia.
Qed.

Lemma Forall_insert {A} (P : A -> Prop) (l : list A) (i : nat) (x : A) :
  Forall P l -> P x -> Forall P (firstn i l ++ x :: skipn i l).
Proof.
  intros Hl Hx. rewrite <- (firstn_skipn i l) in Hl.
  apply Forall_app in Hl as [H1 H2].
  apply Forall_app; split; [exact H1|]. constructor; assumption.
Qed.

Lemma sorted_below_last (ys : list Q) (x : Q) :
  StronglySorted Qlt ys -> In x ys -> (x <= last ys 0)%Q.
Proof.
  revert x. induction ys as [|k rest IH]; intros x Hs Hin; [contradiction|].
  inversion Hs as [|? ? Hrest Hall]; subst.
  destruct rest as [|k' rest'].
  - destruct Hin as [->|[]]. simpl. apply Qle_refl.
  - change (last (k :: k' :: rest') 0%Q) with (last (k' :: rest') 0%Q).
    destruct Hin as [->|Hin].
    + apply Qle_trans with k'.
      * apply Qlt_le_weak. inversion Hall; assumption.
      * apply IH; [exact Hrest | left; reflexivity].
    + apply IH; assumption.
Qed.

Lemma lockstep_intro (ie : bool) (a : ndarray) (d : option Q)
      (ys es : list Q) (r c : nat) :
  shape a = [r; c] -> length ys = r -> length es = r ->
  StronglySorted Qlt ys ->
  lockstep (TimeFreqSpectrum.mk (MultiSeries.mk ie a d (Some ys)) (Some es)).
Proof.
  intros Hs Hy He Hsorted. exists r, c, ys, es.
  repeat split; assumption.
Qed.

Lemma py_last_eq (ys : list Q) (y : Q) : py_last ys = Ok y -> y = last ys 0%Q.
Proof.
  unfold py_last. destruct ys; [discriminate|].
  intros H; inversion H; reflexivity.
Qed.

Lemma first_ge_split (ys : list Q) (y : Q) (i : nat) :
  first_ge ys y = Ok i ->
  Forall (fun k => (k < y)%Q) (firstn i ys) /\
  exists k, nth_error ys i = Some k /\ (y <= k)%Q.
Proof.
  revert i. induction ys as [|k0 rest IH]; intros i; simpl; [discriminate|].
  destruct (Qle_bool 0 (k0 - y)) eqn:Hk.
  - intros H; inversion H; subst i. split; [constructor|].
    exists k0. split; [reflexivity|].
    apply Qle_bool_iff in Hk.
    apply (Qplus_le_l _ _ (- y)). now rewrite Qplus_opp_r.
  - destruct (first_ge rest y) as [j|] eqn:Hj; simpl; [|discriminate].
    intros H; inversion H; subst i.
    destruct (IH j eq_refl) as [Hlt [k [Hn Hle]]].
    split.
    + simpl. constructor; [|exact Hlt].
      apply Qle_bool_false_lt in Hk.
      apply (Qplus_lt_l _ _ (- y)). now rewrite Qplus_opp_r.
    + exists k. split; assumption.
Qed.

Lemma sorted_skipn_lower (ys : list Q) (i : nat) (k y : Q) :
  StronglySorted Qlt ys ->
  nth_error ys i = Some k -> (y <= k)%Q ->
  Forall (fun x => (y <= x)%Q) (skipn i ys).
Proof.
  revert i. induction ys as [|k0 rest IH]; intros i Hs Hn Hy.
  - destruct i; discriminate Hn.
  - inversion Hs as [|? ? Hrest Hall]; subst.
    destruct i as [|i]; simpl in *.
    + inversion Hn; subst k0. constructor; [exact Hy|].
      eapply Forall_impl; [|exact Hall].
      intros x Hx. apply Qlt_le_weak in Hx. eapply Qle_trans; eassumption.
    + now apply IH.
Qed.

Lemma sorted_skipn_strict (ys : list Q) (i : nat) (k y : Q) :
  StronglySorted Qlt ys ->
  nth_error ys i = Some k -> (y < k)%Q ->
  Forall (fun x => (y < x)%Q) (skipn i ys).
Proof.
  revert i. induction ys as [|k0 rest IH]; intros i Hs Hn Hy.
  - destruct i; discriminate Hn.
  - inversion Hs as [|? ? Hrest Hall]; subst.
    destruct i as [|i]; simpl in *.
    + inversion Hn; subst k0. constructor; [exact Hy|].
      eapply Forall_impl; [|exact Hall].
      intros x Hx. eapply Qlt_trans; eassumption.
    + now apply IH.
Qed.

Lemma all_below_above_last (ys : list Q) (y : Q) :
  StronglySorted Qlt ys ->
  Qgtb y (last ys 0%Q) = true ->
  Forall (fun k => (k < y)%Q) ys.
Proof.
  intros Hs Hgt. unfold Qgtb in Hgt. apply negb_true_iff in Hgt.
  apply Qle_bool_false_lt in Hgt.
  apply Forall_forall. intros x Hx.
  eapply Qle_lt_trans; [apply sorted_below_last; eassumption | exact Hgt].
Qed.

Lemma py_nth_error (ys : list Q) (i : nat) (k : Q) :
  py_nth ys i = Ok k <-> nth_error ys i = Some k.
Proof.
  unfold py_nth. destruct (nth_error ys i); split; intros H;
    inversion H; reflexivity.
Qed.

(** ** Rows written into the stored array *)

Lemma firstn_add_skipn (a b : nat) (l : list Q) :
  firstn (a + b) l = firstn a l ++ firstn b (skipn a l).
Proof.
  revert l. induction a as [|a IH]; intros l; [reflexivity|].
  destruct l as [|x l]; simpl.
  - now rewrite firstn_nil.
  - now rewrite IH.
Qed.

Lemma flat_chunks_from (inner : nat) (dat : list Q) (n s : nat) :
  flat_map (fun i => firstn inner (skipn (i * inner) dat)) (seq s n)
  = firstn (n * inner) (skipn (s * inner) dat).
Proof.
  revert s. induction n as [|n IH]; intros s; [reflexivity|].
  cbn [seq flat_map]. rewrite IH.
  replace (S n * inner) with (inner + n * inner) by lia.
  rewrite firstn_add_skipn, skipn_skipn.
  replace (inner + s * inner) with (S s * inner) by lia. reflexivity.
Qed.

(** The runs of [inner] entries of a buffer, one after the other, are the
    buffer. *)
Lemma flat_chunks (inner n : nat) (dat : list Q) :
  length dat = n * inner ->
  flat_map (fun i => firstn inner (skipn (i * inner) dat)) (seq 0 n) = dat.
Proof.
  intros H. rewrite flat_chunks_from. simpl. apply firstn_all2. lia.
Qed.

Lemma fits_refl (sh : list nat) : fits sh sh = true.
Proof.
  induction sh as [|s sh IH]; [reflexivity|].
  simpl. now rewrite Nat.eqb_refl, IH.
Qed.

(** Broadcasting to its own shape leaves a buffer as it is. *)
Lemma broadcast_same (sh : list nat) (dat : list Q) :
  length dat = fold_right Nat.mul 1 sh -> broadcast sh sh dat = dat.
Proof.
  revert dat. induction sh as [|s sh IH]; intros dat H; [reflexivity|].
  cbn [broadcast]. rewrite Nat.eqb_refl. cbn [fold_right] in H.
  set (inner := fold_right Nat.mul 1 sh) in *.
  transitivity
    (flat_map (fun i => firstn inner (skipn (i * inner) dat)) (seq 0 s));
    [|now apply flat_chunks].
  rewrite !flat_map_concat_map. f_equal.
  apply map_ext_in. intros i Hi. apply in_seq in Hi.
  apply IH. rewrite length_firstn, length_skipn, H.
  assert (S i * inner <= s * inner) by (apply Nat.mul_le_mono_r; lia).
  apply Nat.min_l. simpl in *. lia.
Qed.

(** Assigning an array to a block of its own shape writes its data. *)
Lemma np_assign_same (v : ndarray) :
  wf_ndarray v -> np_assign (shape v) v = Ok (data v).
Proof.
  intros H. unfold np_assign, ndim. rewrite Nat.sub_diag.
  change (strip_units 0 (shape v)) with (shape v).
  rewrite Nat.leb_refl, Nat.sub_diag. cbn [repeat app].
  rewrite fits_refl. now rewrite broadcast_same.
Qed.

(** A one-dimensional array of [c] entries. *)
Lemma flat_shape (v : ndarray) (c : nat) :
  ndim v = 1 -> np_size v = c -> shape v = [c].
Proof.
  unfold ndim, np_size.
  destruct (shape v) as [|n [|m rest]]; simpl; try discriminate.
  intros _ H. f_equal. lia.
Qed.

Lemma flat_data_length (v : ndarray) (c : nat) :
  shape v = [c] -> wf_ndarray v -> length (data v) = c.
Proof.
  unfold wf_ndarray. intros Hs H. rewrite Hs in H. simpl in H. lia.
Qed.

(** Inserted into an array of rows of [c] entries, a one-dimensional array
    of [c] entries makes one row. *)
Lemma np_insert_row_flat (a v : ndarray) (i r c : nat) :
  shape a = [r; c] -> shape v = [c] -> wf_ndarray v -> i <= r ->
  np_insert_row a i v = Ok (rows_inserted a i (data v)).
Proof.
  intros Hs Hv Hwf Hi. unfold np_insert_row, rows_inserted, ndim.
  rewrite Hs, Hv. destruct (Nat.leb_spec i r); [|lia].
  cbn [length Nat.sub repeat app hd tl].
  assert (Ha : np_assign [1; c] (mk_ndarray [1; c] (data v)) = Ok (data v)).
  { apply (np_assign_same (mk_ndarray [1; c] (data v))).
    unfold wf_ndarray in *. rewrite Hv in Hwf. simpl in *. lia. }
  rewrite Ha. cbn [rbind]. now rewrite Nat.add_1_r.
Qed.

Lemma np_set_row_flat (a v : ndarray) (i r c : nat) :
  shape a = [r; c] -> shape v = [c] -> wf_ndarray v -> i < r ->
  np_set_row a i v = Ok (rows_replaced a i (data v)).
Proof.
  intros Hs Hv Hwf Hi. unfold np_set_row, rows_replaced.
  rewrite Hs. destruct (Nat.ltb_spec i r); [|lia].
  cbn [tl]. rewrite <- Hv. rewrite (np_assign_same v Hwf).
  reflexivity.
Qed.

Lemma np_insert_row_inserted (a a' v : ndarray) (i r c : nat) :
  shape a = [r; c] -> shape v = [c] -> wf_ndarray v ->
  np_insert_row a i v = Ok a' ->
  a' = rows_inserted a i (data v) /\ i <= r.
Proof.
  intros Hs Hv Hwf H. destruct (Nat.le_gt_cases i r) as [Hi|Hi].
  - rewrite (np_insert_row_flat a v i r c Hs Hv Hwf Hi) in H.
    inversion H. split; [reflexivity | exact Hi].
  - unfold np_insert_row in H. rewrite Hs in H.
    destruct (Nat.leb_spec i r); [lia | discriminate H].
Qed.

Lemma np_set_row_replaced (a a' v : ndarray) (i r c : nat) :
  shape a = [r; c] -> shape v = [c] -> wf_ndarray v ->
  np_set_row a i v = Ok a' ->
  a' = rows_replaced a i (data v) /\ i < r.
Proof.
  intros Hs Hv Hwf H. destruct (Nat.lt_ge_cases i r) as [Hi|Hi].
  - rewrite (np_set_row_flat a v i r c Hs Hv Hwf Hi) in H.
    inversion H. split; [reflexivity | exact Hi].
  - unfold np_set_row in H. rewrite Hs in H.
    destruct (Nat.ltb_spec i r); [lia | discriminate H].
Qed.

Lemma chunk_in_prefix (c j : nat) (d1 x : list Q) :
  j * c + c <= length d1 ->
  firstn c (skipn (j * c) (d1 ++ x)) = firstn c (skipn (j * c) d1).
Proof.
  intros H. rewrite skipn_app.
  replace (j * c - length d1) with 0 by lia. rewrite skipn_O.
  rewrite firstn_app, length_skipn.
  replace (c - (length d1 - j * c)) with 0 by lia.
  rewrite firstn_O. now rewrite app_nil_r.
Qed.

Lemma chunk_after_prefix (m : nat) (d1 x : list Q) :
  length d1 <= m ->
  skipn m (d1 ++ x) = skipn (m - length d1) x.
Proof.
  intros H. rewrite skipn_app.
  rewrite (skipn_all2 d1) by exact H. reflexivity.
Qed.

Lemma firstn_seq_min (n s len : nat) :
  firstn n (seq s len) = seq s (Nat.min n len).
Proof.
  revert s len. induction n as [|n IH]; intros s len; [reflexivity|].
  destruct len as [|len]; [reflexivity|].
  simpl. now rewrite IH.
Qed.

Section Chunks.
Variables (c r i : nat) (dat row : list Q).
Hypothesis Hdat : length dat = r * c.
Hypothesis Hrow : length row = c.

Variable d1 : list Q.
Hypothesis Hd1 : d1 = firstn (i * c) dat.

Lemma prefix_length : i <= r -> length d1 = i * c.
Proof.
  intros Hi. rewrite Hd1, length_firstn, Hdat.
  apply Nat.min_l. now apply Nat.mul_le_mono_r.
Qed.

Lemma chunk_before (tail : list Q) (j : nat) :
  i <= r -> j < i -> chunk c (d1 ++ tail) j = chunk c dat j.
Proof.
  intros Hi Hj. unfold chunk.
  assert (Hle : j * c + c <= i * c).
  { replace (j * c + c) with (S j * c) by lia.
    now apply Nat.mul_le_mono_r. }
  pose proof (prefix_length Hi) as Hp.
  rewrite chunk_in_prefix by lia.
  transitivity (firstn c (skipn (j * c) (d1 ++ skipn (i * c) dat))).
  - symmetry. apply chunk_in_prefix. lia.
  - rewrite Hd1. now rewrite firstn_skipn.
Qed.

Lemma chunk_at (tail : list Q) :
  i <= r -> chunk c (d1 ++ row ++ tail) i = row.
Proof.
  intros Hi. unfold chunk. pose proof (prefix_length Hi) as Hp.
  rewrite chunk_after_prefix by lia.
  rewrite Hp, Nat.sub_diag, skipn_O.
  rewrite firstn_app, Hrow, Nat.sub_diag, firstn_O, app_nil_r.
  apply firstn_all2. lia.
Qed.

Lemma chunk_after_insert (j : nat) :
  i <= r -> i <= j ->
  chunk c (d1 ++ row ++ skipn (i * c) dat) (S j) = chunk c dat j.
Proof.
  intros Hi Hj. unfold chunk.
  assert (Hle : i * c <= j * c) by now apply Nat.mul_le_mono_r.
  pose proof (prefix_length Hi) as Hp.
  rewrite app_assoc.
  rewrite chunk_after_prefix by (rewrite length_app; lia).
  rewrite length_app, Hp, Hrow.
  rewrite skipn_skipn. do 2 f_equal. lia.
Qed.

Lemma chunk_after_replace (j : nat) :
  i < r -> i < j ->
  chunk c (d1 ++ row ++ skipn (S i * c) dat) j = chunk c dat j.
Proof.
  intros Hi Hj. unfold chunk.
  assert (Hle : S i * c <= j * c) by now apply Nat.mul_le_mono_r.
  assert (Hp : length d1 = i * c) by (apply prefix_length; lia).
  rewrite app_assoc.
  rewrite chunk_after_prefix by (rewrite length_app; lia).
  rewrite length_app, Hp, Hrow.
  rewrite skipn_skipn. do 2 f_equal. lia.
Qed.

Lemma chunks_inserted :
  i <= r ->
  map (chunk c (d1 ++ row ++ skipn (i * c) dat)) (seq 0 (S r))
  = inserted (map (chunk c dat) (seq 0 r)) i row.
Proof.
  intros Hi. unfold inserted.
  rewrite firstn_map, skipn_map, firstn_seq_min, skipn_seq.
  replace (Nat.min i r) with i by lia. cbn [Nat.add].
  replace (S r) with (i + S (r - i)) by lia.
  rewrite seq_app, map_app. cbn [seq map Nat.add]. f_equal.
  - apply map_ext_in. intros j Hj. apply in_seq in Hj.
    apply chunk_before; lia.
  - f_equal; [now apply chunk_at|].
    rewrite <- seq_shift, map_map.
    apply map_ext_in. intros j Hj. apply in_seq in Hj.
    apply chunk_after_insert; lia.
Qed.

Lemma chunks_replaced :
  i < r ->
  map (chunk c (d1 ++ row ++ skipn (S i * c) dat)) (seq 0 r)
  = replaced (map (chunk c dat) (seq 0 r)) i row.
Proof.
  intros Hi. unfold replaced.
  rewrite firstn_map, skipn_map, firstn_seq_min, skipn_seq.
  replace (Nat.min i r) with i by lia. cbn [Nat.add].
  replace r with (i + S (r - S i)) at 1 by lia.
  rewrite seq_app, map_app. cbn [seq map Nat.add]. f_equal.
  - apply map_ext_in. intros j Hj. apply in_seq in Hj.
    apply chunk_before; lia.
  - f_equal; [apply chunk_at; lia|].
    apply map_ext_in. intros j Hj. apply in_seq in Hj.
    apply chunk_after_replace; lia.
Qed.

Lemma inserted_data_length :
  i <= r -> length (d1 ++ row ++ skipn (i * c) dat) = S r * c.
Proof.
  intros Hi. pose proof (prefix_length Hi) as Hp.
  rewrite !length_app, Hp, Hrow, length_skipn, Hdat.
  assert (i * c <= r * c) by now apply Nat.mul_le_mono_r. lia.
Qed.

Lemma replaced_data_length :
  i < r -> length (d1 ++ row ++ skipn (S i * c) dat) = r * c.
Proof.
  intros Hi. assert (Hp : length d1 = i * c) by (apply prefix_length; lia).
  rewrite !length_app, Hp, Hrow, length_skipn, Hdat.
  assert (S i * c <= r * c) by now apply Nat.mul_le_mono_r. lia.
Qed.

End Chunks.

Lemma item_size_2d (a : ndarray) (r c : nat) :
  shape a = [r; c] -> item_size a = c.
Proof. intros H. unfold item_size. rewrite H. simpl. lia. Qed.

Lemma wf_2d (a : ndarray) (r c : nat) :
  shape a = [r; c] -> (wf_ndarray a <-> length (data a) = r * c).
Proof.
  intros H. unfold wf_ndarray. rewrite H. simpl.
  rewrite Nat.mul_1_r. reflexivity.
Qed.

Lemma rows_of_2d (a : ndarray) (r c : nat) :
  shape a = [r; c] -> rows_of a = map (chunk c (data a)) (seq 0 r).
Proof.
  intros H. unfold rows_of. rewrite H. simpl hd.
  apply map_ext. intros j. unfold item, chunk.
  now rewrite (item_size_2d a r c H).
Qed.

Lemma rows_of_inserted (a : ndarray) (r c i : nat) (row : list Q) :
  shape a = [r; c] -> wf_ndarray a -> length row = c -> i <= r ->
  shape (rows_inserted a i row) = [S r; c] /\
  wf_ndarray (rows_inserted a i row) /\
  rows_of (rows_inserted a i row) = inserted (rows_of a) i row.
Proof.
  intros Hs Hwf Hrow Hi. apply (wf_2d a r c Hs) in Hwf.
  assert (Hs' : shape (rows_inserted a i row) = [S r; c])
    by (unfold rows_inserted; rewrite Hs; reflexivity).
  split; [exact Hs'|]. split.
  - apply (wf_2d _ (S r) c Hs'). unfold rows_inserted; simpl.
    rewrite (item_size_2d a r c Hs).
    now apply (inserted_data_length c r i (data a) row Hwf Hrow _ eq_refl).
  - rewrite (rows_of_2d _ _ _ Hs'), (rows_of_2d _ _ _ Hs).
    unfold rows_inserted; simpl. rewrite (item_size_2d a r c Hs).
    now apply (chunks_inserted c r i (data a) row Hwf Hrow _ eq_refl).
Qed.

Lemma rows_of_replaced (a : ndarray) (r c i : nat) (row : list Q) :
  shape a = [r; c] -> wf_ndarray a -> length row = c -> i < r ->
  shape (rows_replaced a i row) = [r; c] /\
  wf_ndarray (rows_replaced a i row) /\
  rows_of (rows_replaced a i row) = replaced (rows_of a) i row.
Proof.
  intros Hs Hwf Hrow Hi. apply (wf_2d a r c Hs) in Hwf.
  assert (Hs' : shape (rows_replaced a i row) = [r; c])
    by (unfold rows_replaced; rewrite Hs; reflexivity).
  split; [exact Hs'|]. split.
  - apply (wf_2d _ r c Hs'). unfold rows_replaced; simpl.
    rewrite (item_size_2d a r c Hs).
    now apply (replaced_data_length c r i (data a) row Hwf Hrow _ eq_refl).
  - rewrite (rows_of_2d _ _ _ Hs'), (rows_of_2d _ _ _ Hs).
    unfold rows_replaced; simpl. rewrite (item_size_2d a r c Hs).
    now apply (chunks_replaced c r i (data a) row Hwf Hrow _ eq_refl).
Qed.

Lemma unpack_fields (st : TimeFreqSpectrum.t)
      (timeseries : TimeFreqSpectrum.ts_arg) (epoch fs : option Q)
      (row : TimeFreqSpectrum.row_in) :
  TimeFreqSpectrum.unpack st timeseries epoch fs = Ok row ->
  TimeFreqSpectrum.in_value row = arg_value timeseries /\
  TimeFreqSpectrum.in_size row = np_size (arg_value timeseries).
Proof.
  unfold TimeFreqSpectrum.unpack.
  destruct timeseries as [ts|a]; [|destruct epoch as [e|]];
    intros H; inversion H; subst; split; reflexivity.
Qed.

Lemma MultiSeries_init_outcome (array : ndarray) (deltax : option Q)
      (y : pyval) (m : MultiSeries.t) :
  MultiSeries.__init__ array deltax y = Ok m ->
  (m = empty_multiseries /\ shape array = [0]) \/
  (exists k,
      m = MultiSeries.mk false (reshape_1_n array (np_size array)) deltax
                         (Some [k])).
Proof.
  unfold MultiSeries.__init__, ndim, shape_at.
  destruct (shape array) as [|n0 [|n1 rest]] eqn:Hs; simpl; try discriminate.
  destruct n0 as [|n0]; simpl.
  - intros H; inversion H. left. split; reflexivity.
  - destruct (wrap_scalar y) as [| | | |l]; try discriminate.
    destruct l as [|k [|k' l]]; simpl; try discriminate.
    intros H; inversion H. right. exists k. reflexivity.
Qed.

Lemma inserted_sorted (ys : list Q) (y : Q) (i : nat) :
  StronglySorted Qlt ys ->
  Forall (fun k => (k < y)%Q) (firstn i ys) ->
  Forall (fun k => (y < k)%Q) (skipn i ys) ->
  StronglySorted Qlt (inserted ys i y).
Proof.
  unfold inserted. revert i. induction ys as [|k rest IH]; intros i Hs Hb Ha.
  - rewrite firstn_nil, skipn_nil. constructor; constructor.
  - destruct i as [|i]; simpl in *.
    + constructor; assumption.
    + inversion Hs as [|? ? Hrest Hall]; subst.
      inversion Hb as [|? ? Hk Hb']; subst.
      constructor; [now apply IH|].
      now apply Forall_insert.
Qed.

Lemma inserted_length {A} (l : list A) (i : nat) (x : A) :
  length (inserted l i x) = S (length l).
Proof.
  unfold inserted. rewrite length_app. cbn [length].
  rewrite <- (firstn_skipn i l) at 3. rewrite length_app. lia.
Qed.

(** On a spectrum whose flag is cleared and that is in step, [append] of a
    one-dimensional row either raises and assigns nothing, or succeeds in
    one of the two ways. *)
Lemma append_sorted_outcome (st st' : TimeFreqSpectrum.t)
      (timeseries : TimeFreqSpectrum.ts_arg) (freq : Q) (epoch fs : option Q)
      (res : result unit) :
  TimeFreqSpectrum._isempty st = false ->
  lockstep st ->
  ndim (arg_value timeseries) = 1 ->
  wf_ndarray (arg_value timeseries) ->
  TimeFreqSpectrum.append timeseries freq epoch fs st = (res, st') ->
  sorted_outcome st timeseries freq epoch fs res st'.
Proof.
  intros He Hl Hflat Hwfv.
  destruct Hl as [r [c [ys [es [Hs [Hy [Hes [Hly [Hle Hsorted]]]]]]]]].
  destruct st as [[ie a d ys0] es0].
  cbv in He. subst ie.
  unfold TimeFreqSpectrum._array, TimeFreqSpectrum._y in Hs, Hy.
  simpl in Hs, Hy, Hes. subst ys0 es0.
  set (st := TimeFreqSpectrum.mk (MultiSeries.mk false a d (Some ys)) (Some es)).
  set (P := sorted_outcome st timeseries freq epoch fs).
  assert (Hkeep : forall (e : exn), (Raise (A:=unit) e, st) = (res, st') ->
                                    P res st').
  { intros e H. inversion H; subst. left. eauto. }
  assert (Hok : forall row st1,
             TimeFreqSpectrum.unpack st timeseries epoch fs = Ok row ->
             TimeFreqSpectrum.in_size row = c ->
             optQ_neb (TimeFreqSpectrum.in_deltax row) d = false ->
             appended st (TimeFreqSpectrum.in_value row) freq
                      (TimeFreqSpectrum.in_epoch row) st1 ->
             P (Ok tt) st1).
  { intros row st1 Hu Hsz Hdx H. right. split; [reflexivity|]. exists row.
    repeat split; try assumption.
    unfold TimeFreqSpectrum.xsize, MultiSeries.xsize, shape_at; simpl.
    rewrite Hs; simpl. now rewrite Hsz. }
  clearbody P.
  unfold TimeFreqSpectrum.append, bind, get, lift, raise.
  destruct (TimeFreqSpectrum.unpack st timeseries epoch fs) as [row|e0] eqn:Hu;
    [|apply Hkeep].
  destruct (unpack_fields _ _ _ _ _ Hu) as [Hval Hsize].
  specialize (Hok row).
  unfold TimeFreqSpectrum.xsize, TimeFreqSpectrum.ysize,
    TimeFreqSpectrum.deltax, TimeFreqSpectrum.epoch,
    MultiSeries.xsize, MultiSeries.ysize, shape_at, subscriptable.
  unfold TimeFreqSpectrum._isempty at 1, TimeFreqSpectrum._array,
    TimeFreqSpectrum._y, TimeFreqSpectrum._deltax.
  cbn [st TimeFreqSpectrum.as_MultiSeries MultiSeries._isempty
       MultiSeries._array MultiSeries._deltax MultiSeries._y
       TimeFreqSpectrum._epoch negb].
  rewrite Hs. cbn [nth_error].
  destruct (Nat.eqb_spec (TimeFreqSpectrum.in_size row) c) as [Hsz|];
    cbn [negb]; [|apply Hkeep].
  assert (Hshape : shape (TimeFreqSpectrum.in_value row) = [c]).
  { rewrite Hval. apply flat_shape; [exact Hflat | congruence]. }
  assert (Hwfr : wf_ndarray (TimeFreqSpectrum.in_value row))
    by (rewrite Hval; exact Hwfv).
  destruct (optQ_neb (TimeFreqSpectrum.in_deltax row) d) eqn:Hdx;
    [apply Hkeep|].
  specialize (fun st1 => Hok st1 eq_refl Hsz eq_refl).
  destruct (py_last ys) as [ylast|e0] eqn:Hlast; [|apply Hkeep].
  apply py_last_eq in Hlast.
  destruct (Qgtb freq ylast) eqn:Hgt.
  - destruct (np_insert_row a r (TimeFreqSpectrum.in_value row)) as [a1|e0]
      eqn:Hrow; [|apply Hkeep].
    unfold TimeFreqSpectrum.set_array, TimeFreqSpectrum.set_epoch,
      TimeFreqSpectrum.set_y, TimeFreqSpectrum.inherited,
      MultiSeries.set_array, MultiSeries.set_y; simpl.
    destruct (np_insert_ok es r (TimeFreqSpectrum.in_epoch row)) as [He1 He2];
      [lia|].
    destruct (np_insert_ok ys r freq) as [Hy1 Hy2]; [lia|].
    rewrite He1, Hy1.
    intros H; inversion H; subst res st'.
    destruct (np_insert_row_inserted _ _ _ _ _ _ Hs Hshape Hwfr Hrow)
      as [Ha1 _].
    apply Hok.
    apply (Inserted st _ _ _ _ r ys es); try reflexivity.
    + split; [lia|]. subst r ylast.
      rewrite firstn_all, skipn_all. split; [|constructor].
      now apply all_below_above_last.
    + subst r. rewrite skipn_all. constructor.
    + now rewrite Ha1.
  - destruct (first_ge ys freq) as [i|e0] eqn:Hi; [|apply Hkeep].
    pose proof (first_ge_lt_length _ _ _ Hi) as Hilt.
    destruct (first_ge_split _ _ _ Hi) as [Hbelow [k [Hk Hle']]].
    destruct (py_nth ys i) as [yi|e0] eqn:Hyi; [|apply Hkeep].
    apply py_nth_error in Hyi. rewrite Hk in Hyi. inversion Hyi; subst yi.
    assert (Hsplit : splits_at ys freq i).
    { split; [lia|]. split; [exact Hbelow|].
      eapply sorted_skipn_lower; eassumption. }
    destruct (Qeq_bool k freq) eqn:Heq.
    + destruct (np_set_row a i (TimeFreqSpectrum.in_value row)) as [a1|e0]
        eqn:Hrow; [|apply Hkeep].
      unfold TimeFreqSpectrum.set_array, TimeFreqSpectrum.set_epoch,
        TimeFreqSpectrum.inherited, MultiSeries.set_array; simpl.
      unfold np_set. destruct (Nat.ltb_spec i (length es)) as [_|]; [|lia].
      intros H; inversion H; subst res st'.
      destruct (np_set_row_replaced _ _ _ _ _ _ Hs Hshape Hwfr Hrow)
        as [Ha1 _].
      apply Hok.
      apply (Replaced st _ _ _ _ i k ys es); try reflexivity;
        try assumption.
      * now apply Qeq_bool_iff.
      * now rewrite Ha1.
    + destruct (np_insert_row a i (TimeFreqSpectrum.in_value row)) as [a1|e0]
        eqn:Hrow; [|apply Hkeep].
      unfold TimeFreqSpectrum.set_array, TimeFreqSpectrum.set_epoch,
        TimeFreqSpectrum.set_y, TimeFreqSpectrum.inherited,
        MultiSeries.set_array, MultiSeries.set_y; simpl.
      destruct (np_insert_ok es i (TimeFreqSpectrum.in_epoch row)) as [He1 He2];
        [lia|].
      destruct (np_insert_ok ys i freq) as [Hy1 Hy2]; [lia|].
      rewrite He1, Hy1.
      intros H; inversion H; subst res st'.
      destruct (np_insert_row_inserted _ _ _ _ _ _ Hs Hshape Hwfr Hrow)
        as [Ha1 _].
      apply Hok.
      apply (Inserted st _ _ _ _ i ys es); try reflexivity;
        try assumption.
      * eapply sorted_skipn_strict; [eassumption..|].
        apply Qle_lteq in Hle' as [Hlt|Heq']; [exact Hlt|].
        apply Qeq_bool_neq in Heq. exfalso. apply Heq. now symmetry.
      * now rewrite Ha1.
Qed.

Lemma replaced_length {A} (l : list A) (i : nat) (x : A) :
  i < length l -> length (replaced l i x) = length l.
Proof.
  intros H. unfold replaced. rewrite length_app, length_firstn.
  cbn [length]. rewrite length_skipn. lia.
Qed.

(** One [append] of a one-dimensional row on a sorted spectrum keeps it
    sorted and its array well formed; if it raises, it has assigned
    nothing. *)
Lemma append_keeps_lockstep (st st' : TimeFreqSpectrum.t)
      (timeseries : TimeFreqSpectrum.ts_arg) (freq : Q) (epoch fs : option Q)
      (res : result unit) :
  TimeFreqSpectrum._isempty st = false ->
  lockstep st ->
  wf_ndarray (TimeFreqSpectrum._array st) ->
  ndim (arg_value timeseries) = 1 ->
  wf_ndarray (arg_value timeseries) ->
  TimeFreqSpectrum.append timeseries freq epoch fs st = (res, st') ->
  TimeFreqSpectrum._isempty st' = false /\
  lockstep st' /\
  wf_ndarray (TimeFreqSpectrum._array st') /\
  (forall e, res = Raise e -> st' = st).
Proof.
  intros He Hl Hwf Hflat Hwfv H.
  destruct (append_sorted_outcome _ _ _ _ _ _ _ He Hl Hflat Hwfv H)
    as [[e [Hr ->]]|[Hr [row [Hu [Hxs [_ Hap]]]]]].
  - repeat split; try assumption.
  - destruct (unpack_fields _ _ _ _ _ Hu) as [Hval Hsize].
    destruct Hl as [r [c [ys0 [es0 [Hs [Hy0 [He0 [Hly [Hle Hsorted]]]]]]]]].
    assert (Hc : np_size (arg_value timeseries) = c).
    { unfold TimeFreqSpectrum.xsize, MultiSeries.xsize, shape_at in Hxs.
      fold (TimeFreqSpectrum._array st) in Hxs. rewrite Hs in Hxs.
      simpl in Hxs. inversion Hxs. congruence. }
    assert (Hrl : length (data (TimeFreqSpectrum.in_value row)) = c).
    { rewrite Hval. apply flat_data_length; [|exact Hwfv].
      now apply flat_shape. }
    destruct Hap as [i k ys es Hy Hes Hsplit Hk Heq Hst
                    |i ys es Hy Hes Hsplit Hnew Hst];
      rewrite Hy in Hy0; rewrite Hes in He0;
      inversion Hy0; inversion He0; subst ys0 es0.
    + assert (Hi : i < r).
      { assert (Hn : nth_error ys i <> None) by congruence.
        apply nth_error_Some in Hn. lia. }
      destruct (rows_of_replaced _ r c i _ Hs Hwf Hrl Hi)
        as [Hs' [Hwf' _]].
      subst st'. split; [reflexivity|]. split; [|split].
      * apply (lockstep_intro _ _ _ _ _ r c); try assumption.
        rewrite replaced_length; lia.
      * exact Hwf'.
      * intros e He'. subst res. discriminate He'.
    + assert (Hi : i <= r) by (destruct Hsplit; lia).
      destruct (rows_of_inserted _ r c i _ Hs Hwf Hrl Hi)
        as [Hs' [Hwf' _]].
      subst st'. split; [reflexivity|]. split; [|split].
      * apply (lockstep_intro _ _ _ _ _ (S r) c).
        -- exact Hs'.
        -- rewrite inserted_length. lia.
        -- rewrite inserted_length. lia.
        -- destruct Hsplit as [_ [Hb _]]. now apply inserted_sorted.
      * exact Hwf'.
      * intros e He'. subst res. discriminate He'.
Qed.

Lemma sole_row_lockstep (row : TimeFreqSpectrum.row_in) (freq : Q) :
  lockstep (sole_row row freq).
Proof.
  apply (lockstep_intro _ _ _ _ _ 1 (TimeFreqSpectrum.in_size row));
    try reflexivity.
  constructor; constructor.
Qed.

(** Every plain call, successful or not, on either branch of [append],
    keeps the invariant; if it raises, it has assigned nothing. *)
Lemma append_call_keeps_inv (st st' : TimeFreqSpectrum.t)
      (c : TimeFreqSpectrum.call) (res : result unit) :
  spectrum_inv st ->
  (TimeFreqSpectrum._isempty st = false ->
   wf_ndarray (TimeFreqSpectrum._array st)) ->
  plain_call c ->
  TimeFreqSpectrum.append_call c st = (res, st') ->
  spectrum_inv st' /\
  (TimeFreqSpectrum._isempty st' = false ->
   wf_ndarray (TimeFreqSpectrum._array st')) /\
  (forall e, res = Raise e -> st' = st).
Proof.
  intros Hinv Hwf [Hflat [Hwfv _]] H.
  unfold TimeFreqSpectrum.append_call in H.
  destruct (TimeFreqSpectrum._isempty st) eqn:He.
  - rewrite (append_while_flag_set _ _ _ _ _ He) in H.
    destruct (TimeFreqSpectrum.unpack _ _ _ _) as [row|e];
      inversion H; subst.
    + split; [left; apply sole_row_lockstep|].
      split; [intros Habs; cbv in Habs; discriminate Habs|].
      intros e He'. discriminate He'.
    + split; [exact Hinv|]. split; [intros Habs; congruence|].
      intros e0 _. reflexivity.
  - destruct Hinv as [Hl|[Habs _]]; [|congruence].
    destruct (append_keeps_lockstep _ _ _ _ _ _ _ He Hl (Hwf eq_refl)
                Hflat Hwfv H) as [_ [Hl' [Hwf' Hkeep]]].
    split; [left; exact Hl'|]. split; [intros _; exact Hwf' | exact Hkeep].
Qed.

Lemma appends_keep_inv (cs : list TimeFreqSpectrum.call)
      (st st' : TimeFreqSpectrum.t) (res : result unit) :
  spectrum_inv st ->
  (TimeFreqSpectrum._isempty st = false ->
   wf_ndarray (TimeFreqSpectrum._array st)) ->
  Forall plain_call cs ->
  TimeFreqSpectrum.appends cs st = (res, st') ->
  spectrum_inv st' /\
  (TimeFreqSpectrum._isempty st' = false ->
   wf_ndarray (TimeFreqSpectrum._array st')).
Proof.
  revert st. induction cs as [|c cs IH]; intros st Hinv Hwf Hcs H.
  - inversion H; subst. split; assumption.
  - inversion Hcs as [|? ? Hc Hrest]; subst.
    simpl in H. unfold bind in H.
    destruct (TimeFreqSpectrum.append_call c st) as [r1 st1] eqn:H1.
    destruct (append_call_keeps_inv _ _ _ _ Hinv Hwf Hc H1)
      as [Hinv1 [Hwf1 _]].
    destruct r1 as [[]|e].
    + eapply IH; eassumption.
    + inversion H; subst. split; assumption.
Qed.

Lemma spectrum_init_outcome (array : ndarray) (epoch : pyval) (fs : Q)
      (freqs : pyval) (st : TimeFreqSpectrum.t) :
  TimeFreqSpectrum.__init__ array epoch fs freqs = Ok st ->
  (st = empty_spectrum /\ shape array = [0]) \/
  (exists k e,
      st = TimeFreqSpectrum.mk
             (MultiSeries.mk false (reshape_1_n array (np_size array))
                             (Some (1 / fs)%Q) (Some [k]))
             (Some [e])).
Proof.
  unfold TimeFreqSpectrum.__init__, py_truediv.
  destruct (Qeq_bool fs 0); [discriminate|]. cbn [rbind].
  destruct (MultiSeries.__init__ array (Some (1 / fs)%Q) freqs) as [m|]
    eqn:Hm; [|discriminate]. cbn [rbind].
  destruct (MultiSeries_init_outcome _ _ _ _ Hm) as [[-> Hs]|[k ->]].
  - cbn. intros H; inversion H. left. split; [reflexivity | exact Hs].
  - cbn [MultiSeries._isempty negb].
    destruct (wrap_scalar epoch) as [| | | |l]; try discriminate.
    unfold MultiSeries.ysize, shape_at. cbn.
    destruct l as [|e [|e' l]]; cbn; try discriminate.
    intros H; inversion H. right. exists k, e. reflexivity.
Qed.

(** A constructed spectrum satisfies the invariant. *)
Lemma constructed_inv (array : ndarray) (epoch : pyval) (fs : Q)
      (freqs : pyval) (st : TimeFreqSpectrum.t) :
  wf_ndarray array ->
  TimeFreqSpectrum.__init__ array epoch fs freqs = Ok st ->
  spectrum_inv st /\
  (TimeFreqSpectrum._isempty st = false ->
   wf_ndarray (TimeFreqSpectrum._array st)).
Proof.
  intros Hwf H.
  destruct (spectrum_init_outcome _ _ _ _ _ H) as [[-> _]|[k [e ->]]].
  - split; [right; split; reflexivity|].
    intros Habs. discriminate Habs.
  - split.
    + left. apply (lockstep_intro _ _ _ _ _ 1 (np_size array));
        try reflexivity.
      constructor; constructor.
    + intros _. unfold wf_ndarray, np_size in *. cbn. lia.
Qed.

Lemma built_inv (st : TimeFreqSpectrum.t) :
  built st ->
  spectrum_inv st /\
  (TimeFreqSpectrum._isempty st = false ->
   wf_ndarray (TimeFreqSpectrum._array st)).
Proof.
  intros [array [epoch [fs [freqs [cs [res [st0 [Hwf [_ [H0 [Hcs H]]]]]]]]]]].
  destruct (constructed_inv _ _ _ _ _ Hwf H0) as [Hinv0 Hwf0].
  eapply appends_keep_inv; eassumption.
Qed.

Lemma built_sorted (st : TimeFreqSpectrum.t) :
  built st -> TimeFreqSpectrum._isempty st = false ->
  lockstep st /\ wf_ndarray (TimeFreqSpectrum._array st).
Proof.
  intros Hb He. destruct (built_inv st Hb) as [[Hl|[Habs _]] Hwf];
    [|congruence].
  split; [exact Hl | exact (Hwf He)].
Qed.

Lemma unpack_epoch (st : TimeFreqSpectrum.t)
      (timeseries : TimeFreqSpectrum.ts_arg) (epoch fs : option Q)
      (row : TimeFreqSpectrum.row_in) (freq : Q) :
  TimeFreqSpectrum.unpack st timeseries epoch fs = Ok row ->
  call_epoch (TimeFreqSpectrum.mk_call timeseries freq epoch fs)
  = Some (TimeFreqSpectrum.in_epoch row).
Proof.
  unfold TimeFreqSpectrum.unpack, call_epoch; cbn.
  destruct timeseries as [ts|a]; [|destruct epoch as [e|]];
    intros H; inversion H; reflexivity.
Qed.

(** X9: what a successful [append] of a plain call does to a spectrum
    built by the constructor with a float frequency and extended by plain
    calls.  With [i] the number of keys below the new frequency: if the
    key at position [i] equals the frequency, the keys are unchanged, the
    epoch at position [i] is replaced by the new one and the row at
    position [i] by a row of as many entries, every other row and epoch
    staying as it was; otherwise the frequency, the epoch and one row are
    inserted at position [i], the later ones moving down by one. *)
Theorem X9_append_replaces_or_inserts_at_key_position :
  forall (st st' : TimeFreqSpectrum.t) (timeseries : TimeFreqSpectrum.ts_arg)
         (freq : Q) (epoch fs : option Q),
    built st ->
    TimeFreqSpectrum._isempty st = false ->
    plain_call (TimeFreqSpectrum.mk_call timeseries freq epoch fs) ->
    TimeFreqSpectrum.append timeseries freq epoch fs st = (Ok tt, st') ->
    exists (ys es : list Q) (e : Q) (i : nat) (row : list Q),
      TimeFreqSpectrum._y st = Some ys /\
      TimeFreqSpectrum._epoch st = Some es /\
      call_epoch (TimeFreqSpectrum.mk_call timeseries freq epoch fs)
      = Some e /\
      splits_at ys freq i /\
      TimeFreqSpectrum.xsize st = Ok (length row) /\
      ((exists k, nth_error ys i = Some k /\ (k == freq)%Q /\
                  TimeFreqSpectrum._y st' = Some ys /\
                  TimeFreqSpectrum._epoch st' = Some (replaced es i e) /\
                  rows_of (TimeFreqSpectrum._array st')
                  = replaced (rows_of (TimeFreqSpectrum._array st)) i row)
       \/
       (Forall (fun k => (freq < k)%Q) (skipn i ys) /\
        TimeFreqSpectrum._y st' = Some (inserted ys i freq) /\
        TimeFreqSpectrum._epoch st' = Some (inserted es i e) /\
        rows_of (TimeFreqSpectrum._array st')
        = inserted (rows_of (TimeFreqSpectrum._array st)) i row)).
Proof.
  intros st st' ts freq epoch fs Hb He Hc Happ.
  destruct (built_sorted st Hb He) as [Hl Hwf].
  destruct Hc as [Hflat [Hwfv _]]. cbn in Hflat, Hwfv.
  destruct (append_sorted_outcome _ _ _ _ _ _ _ He Hl Hflat Hwfv Happ)
    as [[e [Hr _]]|[_ [row [Hu [Hxs [_ Hap]]]]]]; [discriminate Hr|].
  destruct (unpack_fields _ _ _ _ _ Hu) as [Hval Hsize].
  pose proof (unpack_epoch _ _ _ _ _ freq Hu) as Hep.
  destruct Hl as [r [c [ys0 [es0 [Hs [Hy0 [He0 [Hly [Hle _]]]]]]]]].
  assert (Hc : np_size (arg_value ts) = c).
  { unfold TimeFreqSpectrum.xsize, MultiSeries.xsize, shape_at in Hxs.
    fold (TimeFreqSpectrum._array st) in Hxs. rewrite Hs in Hxs.
    simpl in Hxs. inversion Hxs. congruence. }
  assert (Hrl : length (data (TimeFreqSpectrum.in_value row)) = c).
  { rewrite Hval. apply flat_data_length; [|exact Hwfv].
    now apply flat_shape. }
  assert (Hx : TimeFreqSpectrum.xsize st
               = Ok (length (data (TimeFreqSpectrum.in_value row)))).
  { rewrite Hxs, Hrl. f_equal. congruence. }
  destruct Hap as [i k ys es Hy Hes Hsplit Hk Heq Hst
                  |i ys es Hy Hes Hsplit Hnew Hst];
    rewrite Hy in Hy0; rewrite Hes in He0;
    inversion Hy0; inversion He0; subst ys0 es0;
    exists ys, es, (TimeFreqSpectrum.in_epoch row), i,
           (data (TimeFreqSpectrum.in_value row));
    (split; [exact Hy|]); (split; [exact Hes|]); (split; [exact Hep|]);
    (split; [exact Hsplit|]); (split; [exact Hx|]).
  - assert (Hi : i < r).
    { assert (Hn : nth_error ys i <> None) by congruence.
      apply nth_error_Some in Hn. lia. }
    destruct (rows_of_replaced _ r c i _ Hs Hwf Hrl Hi) as [_ [_ Hrows]].
    subst st'. left. exists k. repeat split; assumption.
  - assert (Hi : i <= r) by (destruct Hsplit; lia).
    destruct (rows_of_inserted _ r c i _ Hs Hwf Hrl Hi) as [_ [_ Hrows]].
    subst st'. right. repeat split; assumption.
Qed.

Lemma sorted_spectrum_built :
  built (sorted_spectrum [1; 2; 3; 4; 5]%Q [20]%Q [0]%Q).
Proof.
  exists (np_array1 [1; 2; 3; 4; 5]%Q), (PyInt 0), 10%Q, (PyFloat 20),
    [], (Ok tt), (sorted_spectrum [1; 2; 3; 4; 5]%Q [20]%Q [0]%Q).
  split; [reflexivity|]. split; [right; eexists; reflexivity|].
  split; [reflexivity|]. split; [constructor | reflexivity].
Qed.

Lemma float_exact_small (z : Z) :
  (Z.abs z <= 2 ^ 53)%Z -> float_exact (inject_Z z).
Proof.
  intros H. unfold float_exact, Qabs, Qle, inject_Z; simpl.
  rewrite !Z.mul_1_r. exact H.
Qed.

Lemma call_ts_plain (ts : TimeSeries.t) (l : list Q) (d : option Q)
      (info : string) (e freq : Z) (epoch fs : option Q) :
  ts = TimeSeries.mk (Series.mk (np_array1 l) d info) (inject_Z e) ->
  (Z.abs e <= 2 ^ 53)%Z -> (Z.abs freq <= 2 ^ 53)%Z ->
  plain_call (TimeFreqSpectrum.mk_call (TimeFreqSpectrum.ArgTimeSeries ts)
                                       (inject_Z freq) epoch fs).
Proof.
  intros -> He Hf. split; [reflexivity|].
  split; [unfold wf_ndarray; simpl; lia|].
  split; [now apply float_exact_small|].
  cbn. now apply float_exact_small.
Qed.

Lemma X9_append_replaces_or_inserts_at_key_position_witness :
  let st := sorted_spectrum [1; 2; 3; 4; 5]%Q [20]%Q [0]%Q in
  let st' := sorted_spectrum [6; 7; 8; 9; 10; 1; 2; 3; 4; 5]%Q [10; 20]%Q
                             [1; 0]%Q in
  exists ys i,
    TimeFreqSpectrum._y st = Some ys /\ splits_at ys 10 i /\
    exists row : list Q, TimeFreqSpectrum.xsize st = Ok (length row).
Proof.
  intros st st'.
  destruct (X9_append_replaces_or_inserts_at_key_position st st'
              (TimeFreqSpectrum.ArgTimeSeries row_b) 10 None None
              sorted_spectrum_built eq_refl
              (call_ts_plain row_b _ _ _ 1 10 None None eq_refl
                 ltac:(simpl; lia) ltac:(simpl; lia))
              eq_refl)
    as [ys [es [e [i [row [Hy [_ [_ [Hs [Hx _]]]]]]]]]].
  exists ys, i. split; [exact Hy | split; [exact Hs | exists row; exact Hx]].
Defined.

(** X10: an [append] that raises has assigned nothing: on a spectrum
    built by the constructor with a float frequency and extended by plain
    calls, whether or not it holds a row yet, a plain call that raises
    leaves the spectrum exactly as it was. *)
Theorem X10_failed_append_leaves_spectrum :
  forall (st st' : TimeFreqSpectrum.t) (timeseries : TimeFreqSpectrum.ts_arg)
         (freq : Q) (epoch fs : option Q) (e : exn),
    built st ->
    plain_call (TimeFreqSpectrum.mk_call timeseries freq epoch fs) ->
    TimeFreqSpectrum.append timeseries freq epoch fs st = (Raise e, st') ->
    st' = st.
Proof.
  intros st st' ts freq epoch fs e Hb Hc H.
  destruct (built_inv st Hb) as [Hinv Hwf].
  destruct (append_call_keeps_inv st st'
              (TimeFreqSpectrum.mk_call ts freq epoch fs) (Raise e)
              Hinv Hwf Hc H) as [_ [_ Hkeep]].
  now apply (Hkeep e).
Qed.

Lemma X10_failed_append_leaves_spectrum_witness :
  let st := sorted_spectrum [1; 2; 3; 4; 5]%Q [20]%Q [0]%Q in
  snd (TimeFreqSpectrum.append
         (TimeFreqSpectrum.ArgNdarray (np_array1 [1; 2; 3]%Q)) 10 (Some 1%Q)
         None st)
  = st.
Proof.
  intros st.
  apply (X10_failed_append_leaves_spectrum st _
           (TimeFreqSpectrum.ArgNdarray (np_array1 [1; 2; 3]%Q)) 10 (Some 1%Q)
           None IncompatibleSize sorted_spectrum_built).
  - split; [reflexivity|]. split; [reflexivity|].
    split; [apply (float_exact_small 10); simpl; lia|].
    apply (float_exact_small 1); simpl; lia.
  - reflexivity.
Defined.

(** X11: which error [append] raises for a row that does not fit a
    spectrum with rows of [c] columns and spacing [d].  A bare array
    without an epoch: TypeError.  A row whose size is not [c]: the size
    error.  A row of the right size whose spacing is not [d]: the spacing
    error for a [TimeSeries], AttributeError for a bare array (whose
    spacing is the keyword [fs] itself when it is given, not [1/fs]). *)
Theorem X11_append_rejects_rows_that_do_not_fit :
  forall (st : TimeFreqSpectrum.t) (r c : nat) (freq : Q),
    TimeFreqSpectrum._isempty st = false ->
    shape (TimeFreqSpectrum._array st) = [r; c] ->
    (forall a fs,
        TimeFreqSpectrum.append (TimeFreqSpectrum.ArgNdarray a) freq None fs st
        = (Raise TypeError, st)) /\
    (forall ts epoch fs,
        TimeSeries.size ts <> c ->
        TimeFreqSpectrum.append (TimeFreqSpectrum.ArgTimeSeries ts) freq
                                epoch fs st
        = (Raise IncompatibleSize, st)) /\
    (forall a e fs,
        np_size a <> c ->
        TimeFreqSpectrum.append (TimeFreqSpectrum.ArgNdarray a) freq
                                (Some e) fs st
        = (Raise IncompatibleSize, st)) /\
    (forall ts epoch fs,
        TimeSeries.size ts = c ->
        optQ_neb (TimeSeries.deltax ts) (TimeFreqSpectrum.deltax st) = true ->
        TimeFreqSpectrum.append (TimeFreqSpectrum.ArgTimeSeries ts) freq
                                epoch fs st
        = (Raise IncompatibleDeltax, st)) /\
    (forall a e f,
        np_size a = c ->
        optQ_neb (Some f) (TimeFreqSpectrum.deltax st) = true ->
        TimeFreqSpectrum.append (TimeFreqSpectrum.ArgNdarray a) freq
                                (Some e) (Some f) st
        = (Raise AttributeError, st)).
Proof.
  intros st r c freq He Hs.
  assert (Hx : TimeFreqSpectrum.xsize st = Ok c).
  { unfold TimeFreqSpectrum.xsize, MultiSeries.xsize, shape_at.
    fold (TimeFreqSpectrum._array st). now rewrite Hs. }
  split; [|split; [|split; [|split]]].
  - intros a fs. reflexivity.
  - intros ts epoch fs Hsz.
    unfold TimeFreqSpectrum.append, bind, get, lift, raise; simpl.
    rewrite He, Hx; simpl.
    destruct (Nat.eqb_spec (TimeSeries.size ts) c); [contradiction|].
    reflexivity.
  - intros a e fs Hsz.
    unfold TimeFreqSpectrum.append, bind, get, lift, raise; simpl.
    rewrite He, Hx; simpl.
    destruct (Nat.eqb_spec (np_size a) c); [contradiction|].
    reflexivity.
  - intros ts epoch fs Hsz Hdx.
    unfold TimeFreqSpectrum.append, bind, get, lift, raise;
      cbn -[optQ_neb].
    rewrite He, Hx; cbn -[optQ_neb].
    destruct (Nat.eqb_spec (TimeSeries.size ts) c); [|contradiction].
    cbn -[optQ_neb]. rewrite Hdx. reflexivity.
  - intros a e f Hsz Hdx.
    unfold TimeFreqSpectrum.append, bind, get, lift, raise;
      cbn -[optQ_neb].
    rewrite He, Hx; cbn -[optQ_neb].
    destruct (Nat.eqb_spec (np_size a) c); [|contradiction].
    cbn -[optQ_neb]. rewrite Hdx. reflexivity.
Qed.

Lemma X11_append_rejects_rows_that_do_not_fit_witness :
  let st := sorted_spectrum [1; 2; 3; 4; 5]%Q [20]%Q [0]%Q in
  TimeFreqSpectrum.append
    (TimeFreqSpectrum.ArgNdarray (np_array1 [6; 7; 8; 9; 10]%Q)) 10
    (Some 1%Q) (Some 10%Q) st
  = (Raise AttributeError, st).
Proof.
  intros st.
  apply (proj2 (proj2 (proj2 (proj2
           (X11_append_rejects_rows_that_do_not_fit st 1 5 10
              eq_refl eq_refl))))).
  - reflexivity.
  - reflexivity.
Defined.

(** X12: after any run of plain [append] calls on a spectrum returned by
    the constructor, given a float frequency (or an array without
    entries), whether the run ended or stopped at a call that raised,
    either no row has been stored yet or there are as many keys and as
    many epochs as rows and the keys are strictly ascending. *)
Theorem X12_appends_keep_rows_keys_epochs_in_step :
  forall (array : ndarray) (epoch : pyval) (fs : Q) (freqs : pyval)
         (st0 st : TimeFreqSpectrum.t) (cs : list TimeFreqSpectrum.call)
         (res : result unit),
    wf_ndarray array ->
    float_keyed array freqs ->
    TimeFreqSpectrum.__init__ array epoch fs freqs = Ok st0 ->
    Forall plain_call cs ->
    TimeFreqSpectrum.appends cs st0 = (res, st) ->
    (TimeFreqSpectrum._isempty st = true /\ TimeFreqSpectrum.ysize st = Ok 0)
    \/
    (exists (r c : nat) (ys es : list Q),
        shape (TimeFreqSpectrum._array st) = [r; c] /\
        TimeFreqSpectrum._y st = Some ys /\
        TimeFreqSpectrum._epoch st = Some es /\
        length ys = r /\ length es = r /\
        StronglySorted Qlt ys).
Proof.
  intros array epoch fs freqs st0 st cs res Hwf _ H0 Hcs H.
  destruct (constructed_inv _ _ _ _ _ Hwf H0) as [Hinv0 Hwf0].
  destruct (appends_keep_inv _ _ _ _ Hinv0 Hwf0 Hcs H) as [[Hl|He] _].
  - right. exact Hl.
  - left. exact He.
Qed.

Lemma X12_appends_keep_rows_keys_epochs_in_step_witness :
  let st := sorted_spectrum [6; 7; 8; 9; 10; 11; 12; 13; 14; 15]%Q
                            [10; 20]%Q [1; 2]%Q in
  exists (r c : nat) (ys es : list Q),
    shape (TimeFreqSpectrum._array st) = [r; c] /\
    TimeFreqSpectrum._y st = Some ys /\
    TimeFreqSpectrum._epoch st = Some es /\
    length ys = r /\ length es = r /\ StronglySorted Qlt ys.
Proof.
  intros st.
  assert (Hcs : Forall plain_call [call_ts row_b 10; call_ts row_c 20]).
  { constructor; [|constructor; [|constructor]].
    - apply (call_ts_plain row_b _ _ _ 1 10 None None eq_refl);
        simpl; lia.
    - apply (call_ts_plain row_c _ _ _ 2 20 None None eq_refl);
        simpl; lia. }
  destruct (X12_appends_keep_rows_keys_epochs_in_step
              (np_array1 [1; 2; 3; 4; 5]%Q) (PyInt 0) 10 (PyFloat 20)
              (sorted_spectrum [1; 2; 3; 4; 5]%Q [20]%Q [0]%Q)
              (sorted_spectrum [6; 7; 8; 9; 10; 11; 12; 13; 14; 15]%Q
                               [10; 20]%Q [1; 2]%Q)
              [call_ts row_b 10; call_ts row_c 20] (Ok tt)
              eq_refl (or_intror (ex_intro _ 20%Q eq_refl))
              eq_refl Hcs eq_refl) as [[Habs _]|H].
  - discriminate Habs.
  - exact H.
Defined.

(** ** Appends that succeed, and appending twice *)













(** ** The sorted [MultiSeries] *)

Lemma resolved_value (m : MultiSeries.t) (arg : MultiSeries.series_arg)
      (series : Series.t) :
  resolved m arg = Ok series -> Series.value series = ms_arg_value arg.
Proof.
  unfold resolved, Series.__init__. destruct arg as [s|a]; simpl.
  - intros H; inversion H; reflexivity.
  - destruct (negb (ndim a =? 1)); simpl.
    + destruct (shape_at a 0) as [n0|]; simpl; [|discriminate].
      destruct (negb (n0 =? 1)); [discriminate|].
      intros H; inversion H; reflexivity.
    + intros H; inversion H; reflexivity.
Qed.

Lemma flat_len (v : ndarray) (n : nat) :
  ndim v = 1 -> np_len v = Ok n -> shape v = [n].
Proof.
  unfold ndim, np_len.
  destruct (shape v) as [|n0 [|m rest]]; simpl; try discriminate.
  intros _ H. inversion H. reflexivity.
Qed.

(** On a sorted [MultiSeries], [append] of a one-dimensional series either
    raises and assigns nothing, or succeeds in one of the two ways. *)
Lemma ms_append_sorted_outcome (m m' : MultiSeries.t) (c : nat)
      (arg : MultiSeries.series_arg) (y : pyval) (res : result unit) :
  MultiSeries._isempty m = false ->
  ms_lockstep c m ->
  ndim (ms_arg_value arg) = 1 ->
  wf_ndarray (ms_arg_value arg) ->
  MultiSeries.append arg y m = (res, m') ->
  ms_sorted_outcome m arg y res m'.
Proof.
  intros He Hl Hflat Hwfv.
  destruct Hl as [r [ys [Hs [Hy [Hly Hsorted]]]]].
  destruct m as [ie a d ys0].
  simpl in He, Hs, Hy. subst ie ys0.
  set (m := MultiSeries.mk false a d (Some ys)).
  set (P := ms_sorted_outcome m arg y).
  assert (Hkeep : forall (e : exn), (Raise (A:=unit) e, m) = (res, m') ->
                                    P res m').
  { intros e H. inversion H; subst. left. eauto. }
  assert (Hok : forall series yq m1,
             resolved m arg = Ok series ->
             key_number (length ys) y = Ok yq ->
             Series.__len__ series = Ok c ->
             optQ_neb (Series.deltax series) d = false ->
             ms_appended m (Series.value series) yq m1 ->
             P (Ok tt) m1).
  { intros series yq m1 Hr Hyq Hn Hdx H. right. split; [reflexivity|].
    exists series, yq, ys. repeat split; try assumption.
    rewrite Hn. unfold MultiSeries.xsize, shape_at, m.
    cbn [MultiSeries._array rbind]. now rewrite Hs. }
  clearbody P.
  unfold MultiSeries.append, bind, get, lift, raise.
  fold (resolved m arg).
  destruct (resolved m arg) as [series|e0] eqn:Hr; [|apply Hkeep].
  pose proof (resolved_value _ _ _ Hr) as Hval.
  specialize (Hok series).
  cbn [m MultiSeries._isempty negb].
  destruct (Series.__len__ series) as [n|e0] eqn:Hn; [|apply Hkeep].
  unfold MultiSeries.xsize, MultiSeries.ysize, MultiSeries.deltax, shape_at,
    subscriptable.
  cbn [m MultiSeries._array MultiSeries._deltax MultiSeries._y].
  rewrite Hs. cbn [nth_error].
  destruct (Nat.eqb_spec n c) as [Hnc|]; cbn [negb]; [|apply Hkeep].
  subst n.
  assert (Hshape : shape (Series.value series) = [c]).
  { apply flat_len; [rewrite Hval; exact Hflat | exact Hn]. }
  assert (Hwfr : wf_ndarray (Series.value series))
    by (rewrite Hval; exact Hwfv).
  destruct (optQ_neb (Series.deltax series) d) eqn:Hdx; [apply Hkeep|].
  destruct (py_last ys) as [ylast|e0] eqn:Hlast; [|apply Hkeep].
  apply py_last_eq in Hlast.
  destruct (key_number (length ys) y) as [yq|e0] eqn:Hyq; [|apply Hkeep].
  specialize (fun m1 => Hok yq m1 eq_refl eq_refl eq_refl eq_refl).
  destruct (Qgtb yq ylast) eqn:Hgt.
  - destruct (np_insert_row a r (Series.value series)) as [a1|e0]
      eqn:Hrow; [|apply Hkeep].
    unfold MultiSeries.set_array, MultiSeries.set_y; simpl.
    destruct (np_insert_ok ys r yq) as [Hy1 Hy2]; [lia|].
    rewrite Hy1.
    intros H; inversion H; subst res m'.
    destruct (np_insert_row_inserted _ _ _ _ _ _ Hs Hshape Hwfr Hrow)
      as [Ha1 _].
    apply Hok.
    apply (MsInserted m _ _ _ r ys); try reflexivity.
    + split; [lia|]. subst r ylast.
      rewrite firstn_all, skipn_all. split; [|constructor].
      now apply all_below_above_last.
    + subst r. rewrite skipn_all. constructor.
    + now rewrite Ha1.
  - destruct (first_ge ys yq) as [i|e0] eqn:Hi; [|apply Hkeep].
    pose proof (first_ge_lt_length _ _ _ Hi) as Hilt.
    destruct (first_ge_split _ _ _ Hi) as [Hbelow [k [Hk Hle']]].
    destruct (py_nth ys i) as [yi|e0] eqn:Hyi; [|apply Hkeep].
    apply py_nth_error in Hyi. rewrite Hk in Hyi. inversion Hyi; subst yi.
    assert (Hsplit : splits_at ys yq i).
    { split; [lia|]. split; [exact Hbelow|].
      eapply sorted_skipn_lower; eassumption. }
    destruct (Qeq_bool k yq) eqn:Heq.
    + destruct (np_set_row a i (Series.value series)) as [a1|e0]
        eqn:Hrow; [|apply Hkeep].
      unfold MultiSeries.set_array; simpl.
      intros H; inversion H; subst res m'.
      destruct (np_set_row_replaced _ _ _ _ _ _ Hs Hshape Hwfr Hrow)
        as [Ha1 _].
      apply Hok.
      apply (MsReplaced m _ _ _ i k ys); try reflexivity;
        try assumption.
      * now apply Qeq_bool_iff.
      * now rewrite Ha1.
    + destruct (np_insert_row a i (Series.value series)) as [a1|e0]
        eqn:Hrow; [|apply Hkeep].
      unfold MultiSeries.set_array, MultiSeries.set_y; simpl.
      destruct (np_insert_ok ys i yq) as [Hy1 Hy2]; [lia|].
      rewrite Hy1.
      intros H; inversion H; subst res m'.
      destruct (np_insert_row_inserted _ _ _ _ _ _ Hs Hshape Hwfr Hrow)
        as [Ha1 _].
      apply Hok.
      apply (MsInserted m _ _ _ i ys); try reflexivity;
        try assumption.
      * eapply sorted_skipn_strict; [eassumption..|].
        apply Qle_lteq in Hle' as [Hlt|Heq']; [exact Hlt|].
        apply Qeq_bool_neq in Heq. exfalso. apply Heq. now symmetry.
      * now rewrite Ha1.
Qed.

Lemma ms_row_length (m : MultiSeries.t) (c r : nat) (series : Series.t)
      (arg : MultiSeries.series_arg) :
  shape (MultiSeries._array m) = [r; c] ->
  resolved m arg = Ok series ->
  ndim (ms_arg_value arg) = 1 -> wf_ndarray (ms_arg_value arg) ->
  (n <- Series.__len__ series ;; Ok n)%py = MultiSeries.xsize m ->
  length (data (Series.value series)) = c.
Proof.
  intros Hs Hr Hflat Hwfv Hlen.
  pose proof (resolved_value _ _ _ Hr) as Hval.
  unfold MultiSeries.xsize, shape_at in Hlen. rewrite Hs in Hlen.
  cbn [nth_error] in Hlen.
  destruct (Series.__len__ series) as [n|] eqn:Hn; [|discriminate Hlen].
  cbn [rbind] in Hlen. inversion Hlen; subst n.
  apply flat_data_length; [|rewrite Hval; exact Hwfv].
  apply flat_len; [rewrite Hval; exact Hflat | exact Hn].
Qed.

(** One [append] of a one-dimensional series on a sorted [MultiSeries]
    keeps it sorted, with rows of the same width and the same spacing; if
    it raises, it has assigned nothing. *)
Lemma ms_append_keeps_lockstep (m m' : MultiSeries.t) (c : nat)
      (arg : MultiSeries.series_arg) (y : pyval) (res : result unit) :
  MultiSeries._isempty m = false ->
  ms_lockstep c m ->
  wf_ndarray (MultiSeries._array m) ->
  ndim (ms_arg_value arg) = 1 ->
  wf_ndarray (ms_arg_value arg) ->
  MultiSeries.append arg y m = (res, m') ->
  MultiSeries._isempty m' = false /\ ms_lockstep c m' /\
  wf_ndarray (MultiSeries._array m') /\
  MultiSeries._deltax m' = MultiSeries._deltax m /\
  (MultiSeries._y m <> Some [] -> MultiSeries._y m' <> Some []) /\
  (forall e, res = Raise e -> m' = m).
Proof.
  intros He Hl Hwf Hflat Hwfv H.
  destruct (ms_append_sorted_outcome _ _ _ _ _ _ He Hl Hflat Hwfv H)
    as [[e [_ ->]]|[Hr [series [yq [ys1 [Hres [_ [_ [Hlen [_ Hap]]]]]]]]]].
  - repeat split; try assumption. intros Hne; exact Hne.
  - destruct Hl as [r [ys0 [Hs [Hy0 [Hly Hsorted]]]]].
    pose proof (ms_row_length _ _ _ _ _ Hs Hres Hflat Hwfv Hlen) as Hrl.
    destruct Hap as [i k ys Hy Hsplit Hk Heq Hm
                    |i ys Hy Hsplit Hnew Hm];
      rewrite Hy in Hy0; inversion Hy0; subst ys0.
    + assert (Hi : i < r).
      { assert (Hn : nth_error ys i <> None) by congruence.
        apply nth_error_Some in Hn. lia. }
      destruct (rows_of_replaced _ r c i _ Hs Hwf Hrl Hi)
        as [Hs' [Hwf' _]].
      subst m'. split; [reflexivity|]. split; [|split; [|split; [|split]]].
      * exists r, ys. repeat split; assumption.
      * exact Hwf'.
      * reflexivity.
      * cbn [MultiSeries._y]. now rewrite Hy.
      * intros e He'. subst res. discriminate He'.
    + assert (Hi : i <= r) by (destruct Hsplit; lia).
      destruct (rows_of_inserted _ r c i _ Hs Hwf Hrl Hi)
        as [Hs' [Hwf' _]].
      subst m'. split; [reflexivity|]. split; [|split; [|split; [|split]]].
      * exists (S r), (inserted ys i yq). repeat split.
        -- exact Hs'.
        -- rewrite inserted_length. lia.
        -- destruct Hsplit as [_ [Hb _]]. now apply inserted_sorted.
      * exact Hwf'.
      * reflexivity.
      * intros _. cbn [MultiSeries._y]. unfold inserted.
        destruct (firstn i ys); discriminate.
      * intros e He'. subst res. discriminate He'.
Qed.

Lemma ms_appends_keep_lockstep (cs : list MultiSeries.call)
      (m m' : MultiSeries.t) (c : nat) (res : result unit) :
  MultiSeries._isempty m = false ->
  ms_lockstep c m ->
  wf_ndarray (MultiSeries._array m) ->
  Forall ms_plain_call cs ->
  MultiSeries.appends cs m = (res, m') ->
  MultiSeries._isempty m' = false /\ ms_lockstep c m' /\
  wf_ndarray (MultiSeries._array m') /\
  MultiSeries._deltax m' = MultiSeries._deltax m /\
  (MultiSeries._y m <> Some [] -> MultiSeries._y m' <> Some []).
Proof.
  revert m. induction cs as [|c0 cs IH]; intros m He Hl Hwf Hcs H.
  - inversion H; subst. repeat split; try assumption.
    intros Hne; exact Hne.
  - inversion Hcs as [|? ? [Hflat [Hwfv _]] Hrest]; subst.
    simpl in H. unfold bind in H.
    destruct (MultiSeries.append_call c0 m) as [r1 m1] eqn:H1.
    destruct (ms_append_keeps_lockstep _ _ _ _ _ _ He Hl Hwf Hflat Hwfv H1)
      as [He1 [Hl1 [Hwf1 [Hd1 [Hk1 _]]]]].
    destruct r1 as [[]|e].
    + destruct (IH m1 He1 Hl1 Hwf1 Hrest H)
        as [He' [Hl' [Hwf' [Hd' Hk']]]].
      repeat split; try assumption; [congruence|].
      intros Hne. apply Hk', Hk1, Hne.
    + inversion H; subst. repeat split; assumption.
Qed.

Lemma ms_constructed_sorted (array : ndarray) (deltax : option Q)
      (y : pyval) (m : MultiSeries.t) :
  wf_ndarray array ->
  MultiSeries.__init__ array deltax y = Ok m ->
  MultiSeries._isempty m = false ->
  ms_lockstep (np_size array) m /\ wf_ndarray (MultiSeries._array m) /\
  MultiSeries._deltax m = deltax /\ MultiSeries._y m <> Some [].
Proof.
  intros Hwf H0 He.
  destruct (MultiSeries_init_outcome _ _ _ _ H0) as [[-> _]|[k ->]];
    [discriminate He|].
  split; [|split; [|split; [reflexivity | discriminate]]].
  - exists 1, [k]. repeat split. constructor; constructor.
  - unfold wf_ndarray, np_size in *. cbn. lia.
Qed.

Lemma ms_built_sorted (m : MultiSeries.t) :
  ms_built m ->
  MultiSeries._isempty m = false /\
  MultiSeries._y m <> Some [] /\
  exists c, ms_lockstep c m /\ wf_ndarray (MultiSeries._array m).
Proof.
  intros [array [deltax [k0 [cs [res [m0 [Hwf [H0 [He0 [Hcs H]]]]]]]]]].
  destruct (ms_constructed_sorted _ _ _ _ Hwf H0 He0)
    as [Hl0 [Hwf0 [_ Hk0]]].
  destruct (ms_appends_keep_lockstep _ _ _ _ _ He0 Hl0 Hwf0 Hcs H)
    as [He [Hl [Hwf' [_ Hk]]]].
  split; [exact He|]. split; [exact (Hk Hk0)|].
  exists (np_size array). split; assumption.
Qed.

(** X14: after any run of plain [append] calls on a [MultiSeries]
    constructed with one row and a float key, whether the run ended or
    stopped at a call that raised, the keys are strictly ascending (so no
    key occurs twice), there are as many keys as rows, every row has as
    many columns as the first one, and the spacing is the one given to
    the constructor. *)
Theorem X14_appends_keep_keys_ascending :
  forall (array : ndarray) (deltax : option Q) (k0 : Q)
         (m0 m : MultiSeries.t) (cs : list MultiSeries.call)
         (res : result unit),
    wf_ndarray array ->
    MultiSeries.__init__ array deltax (PyFloat k0) = Ok m0 ->
    MultiSeries._isempty m0 = false ->
    Forall ms_plain_call cs ->
    MultiSeries.appends cs m0 = (res, m) ->
    MultiSeries._isempty m = false /\
    MultiSeries._deltax m = deltax /\
    exists (r : nat) (ys : list Q),
      shape (MultiSeries._array m) = [r; np_size array] /\
      MultiSeries._y m = Some ys /\
      length ys = r /\
      StronglySorted Qlt ys.
Proof.
  intros array deltax k0 m0 m cs res Hwf H0 He Hcs H.
  destruct (ms_constructed_sorted _ _ _ _ Hwf H0 He)
    as [Hl0 [Hwf0 [Hd0 _]]].
  destruct (ms_appends_keep_lockstep _ _ _ _ _ He Hl0 Hwf0 Hcs H)
    as [He' [Hl' [_ [Hd' _]]]].
  split; [exact He'|]. split; [congruence | exact Hl'].
Qed.

Lemma one_row_multiseries_built :
  ms_built (MultiSeries.mk false (mk_ndarray [1; 3] [1; 2; 3]%Q)
                           (Some (1 # 2)) (Some [20]%Q)).
Proof.
  exists (np_array1 [1; 2; 3]%Q), (Some (1 # 2)), 20%Q, [], (Ok tt),
    (MultiSeries.mk false (mk_ndarray [1; 3] [1; 2; 3]%Q)
                    (Some (1 # 2)) (Some [20]%Q)).
  split; [reflexivity|]. split; [reflexivity|]. split; [reflexivity|].
  split; [constructor | reflexivity].
Qed.

Lemma X14_appends_keep_keys_ascending_witness :
  let s := Series.mk (np_array1 [7; 8; 9]%Q) (Some (1 # 2)) "abc"%string in
  let m := MultiSeries.mk false (mk_ndarray [2; 3] [7; 8; 9; 1; 2; 3]%Q)
                          (Some (1 # 2)) (Some [5; 20]%Q) in
  exists (r : nat) (ys : list Q),
    shape (MultiSeries._array m) = [r; 3] /\
    MultiSeries._y m = Some ys /\ length ys = r /\ StronglySorted Qlt ys.
Proof.
  intros s m.
  assert (Hcs : Forall ms_plain_call
                  [MultiSeries.mk_call (MultiSeries.ArgSeries s) (PyInt 5)]).
  { constructor; [|constructor].
    split; [reflexivity|]. split; [reflexivity|]. simpl. lia. }
  destruct (X14_appends_keep_keys_ascending (np_array1 [1; 2; 3]%Q)
              (Some (1 # 2)) 20%Q
              (MultiSeries.mk false (mk_ndarray [1; 3] [1; 2; 3]%Q)
                              (Some (1 # 2)) (Some [20]%Q))
              m
              [MultiSeries.mk_call (MultiSeries.ArgSeries s) (PyInt 5)]
              (Ok tt) eq_refl eq_refl eq_refl Hcs eq_refl) as [_ [_ H]].
  exact H.
Defined.

(** X15: what a successful plain [append] does to a [MultiSeries] built
    with a float key and extended by plain calls.  The key is a number
    or a one-entry sequence.  With [i] the number of stored keys below it:
    if the key at position [i] equals the new key, the keys are unchanged
    and the row at position [i] is replaced by a row of as many entries,
    every other row staying as it was; otherwise the key and one row are
    inserted at position [i], the later ones moving down by one. *)
Theorem X15_multiseries_append_replaces_or_inserts :
  forall (m m' : MultiSeries.t) (arg : MultiSeries.series_arg) (y : pyval),
    ms_built m ->
    ms_plain_call (MultiSeries.mk_call arg y) ->
    MultiSeries.append arg y m = (Ok tt, m') ->
    exists (yq : Q) (ys : list Q) (i : nat) (row : list Q),
      MultiSeries._y m = Some ys /\
      key_number (length ys) y = Ok yq /\
      splits_at ys yq i /\
      MultiSeries.xsize m = Ok (length row) /\
      ((exists k, nth_error ys i = Some k /\ (k == yq)%Q /\
                  MultiSeries._y m' = Some ys /\
                  rows_of (MultiSeries._array m')
                  = replaced (rows_of (MultiSeries._array m)) i row)
       \/
       (Forall (fun k => (yq < k)%Q) (skipn i ys) /\
        MultiSeries._y m' = Some (inserted ys i yq) /\
        rows_of (MultiSeries._array m')
        = inserted (rows_of (MultiSeries._array m)) i row)).
Proof.
  intros m m' arg y Hb [Hflat [Hwfv _]] Happ. cbn in Hflat, Hwfv.
  destruct (ms_built_sorted m Hb) as [He [_ [c [Hl Hwf]]]].
  destruct (ms_append_sorted_outcome _ _ _ _ _ _ He Hl Hflat Hwfv Happ)
    as [[e [Hr _]]|[_ [series [yq [ys1 [Hres [Hy1 [Hyq [Hlen [_ Hap]]]]]]]]]];
    [discriminate Hr|].
  destruct Hl as [r [ys0 [Hs [Hy0 [Hly _]]]]].
  pose proof (ms_row_length _ _ _ _ _ Hs Hres Hflat Hwfv Hlen) as Hrl.
  assert (Hx : MultiSeries.xsize m
               = Ok (length (data (Series.value series)))).
  { unfold MultiSeries.xsize, shape_at. rewrite Hs. cbn. now rewrite Hrl. }
  rewrite Hy1 in Hy0. inversion Hy0; subst ys0.
  destruct Hap as [i k ys Hy Hsplit Hk Heq Hm
                  |i ys Hy Hsplit Hnew Hm];
    rewrite Hy in Hy1; inversion Hy1; subst ys1;
    exists yq, ys, i, (data (Series.value series));
    (split; [exact Hy|]); (split; [exact Hyq|]); (split; [exact Hsplit|]);
    (split; [exact Hx|]).
  - assert (Hi : i < r).
    { assert (Hn : nth_error ys i <> None) by congruence.
      apply nth_error_Some in Hn. lia. }
    destruct (rows_of_replaced _ r c i _ Hs Hwf Hrl Hi) as [_ [_ Hrows]].
    subst m'. left. exists k. repeat split; assumption.
  - assert (Hi : i <= r) by (destruct Hsplit; lia).
    destruct (rows_of_inserted _ r c i _ Hs Hwf Hrl Hi) as [_ [_ Hrows]].
    subst m'. right. repeat split; assumption.
Qed.

Lemma X15_multiseries_append_replaces_or_inserts_witness :
  let s := Series.mk (np_array1 [7; 8; 9]%Q) (Some (1 # 2)) "abc"%string in
  let m := MultiSeries.mk false (mk_ndarray [1; 3] [1; 2; 3]%Q)
                          (Some (1 # 2)) (Some [20]%Q) in
  let m' := MultiSeries.mk false (mk_ndarray [1; 3] [7; 8; 9]%Q)
                           (Some (1 # 2)) (Some [20]%Q) in
  exists (yq : Q) (ys : list Q) (i : nat),
    MultiSeries._y m = Some ys /\
    key_number (length ys) (PySeq [20]%Q) = Ok yq /\
    splits_at ys yq i.
Proof.
  intros s m m'.
  assert (Hc : ms_plain_call
                 (MultiSeries.mk_call (MultiSeries.ArgSeries s)
                                      (PySeq [20]%Q))).
  { split; [reflexivity|]. split; [reflexivity|].
    apply (float_exact_small 20). simpl. lia. }
  destruct (X15_multiseries_append_replaces_or_inserts m m'
              (MultiSeries.ArgSeries s) (PySeq [20]%Q)
              one_row_multiseries_built Hc eq_refl)
    as [yq [ys [i [row [H1 [H2 [H3 _]]]]]]].
  exists yq, ys, i.
  split; [exact H1 | split; [exact H2 | exact H3]].
Defined.

(** X13: [MultiSeries.__init__] never builds a container of more than
    one row.  An array that is not one-dimensional makes it raise
    AttributeError (the flag [_isempty] is read before it was ever
    assigned); when it returns, the container is either the empty one
    (for an array of no entries) or holds the whole array as its single
    row, with the given spacing and exactly one key. *)
Theorem X13_constructor_builds_at_most_one_row :
  forall (array : ndarray) (deltax : option Q) (y : pyval),
    (ndim array <> 1 ->
     MultiSeries.__init__ array deltax y = Raise AttributeError) /\
    (forall m,
        MultiSeries.__init__ array deltax y = Ok m ->
        (m = empty_multiseries /\ shape array = [0]) \/
        (exists k,
            m = MultiSeries.mk false (reshape_1_n array (np_size array))
                               deltax (Some [k]))).
Proof.
  intros array deltax y. split.
  - intros Hnd. unfold MultiSeries.__init__.
    destruct (Nat.eqb_spec (ndim array) 1); [contradiction|]. reflexivity.
  - intros m. apply MultiSeries_init_outcome.
Qed.

Lemma X13_constructor_builds_at_most_one_row_witness :
  MultiSeries.__init__ (mk_ndarray [2; 2] [1; 2; 3; 4]%Q) (Some (1 # 2))
                       (PySeq [10; 20]%Q)
  = Raise AttributeError.
Proof.
  apply (proj1 (X13_constructor_builds_at_most_one_row
                  (mk_ndarray [2; 2] [1; 2; 3; 4]%Q) (Some (1 # 2))
                  (PySeq [10; 20]%Q))).
  vm_compute. lia.
Defined.

(** ** Iterating a [MultiSeries], and its key range *)

Lemma iter_from_all_ok {A} (f : nat -> result A) (g : nat -> A)
      (idxs : list nat) :
  (forall i, In i idxs -> f i = Ok (g i)) ->
  MultiSeries.iter_from f idxs = (map g idxs, Ok tt).
Proof.
  induction idxs as [|i idxs IH]; intros H; [reflexivity|].
  simpl. rewrite (H i) by (left; reflexivity).
  rewrite IH by (intros j Hj; apply H; right; exact Hj).
  reflexivity.
Qed.

Lemma nth_error_nth_lt (l : list Q) (i : nat) :
  i < length l -> nth_error l i = Some (nth i l 0%Q).
Proof. intros H. now apply nth_error_nth'. Qed.

(** X16: iterating a sorted [MultiSeries] finishes without raising and
    yields one pair per row, in storage order: the keys of the pairs are
    the keys of the container, which are strictly ascending, and the
    series of the pairs hold the rows, each a one-dimensional series at
    the container's spacing, labelled ['Series']. *)
Theorem X16_iteration_yields_rows_in_key_order :
  forall (m : MultiSeries.t) (c : nat),
    ms_lockstep c m ->
    exists (ys : list Q) (pairs : list (Q * Series.t)),
      MultiSeries._y m = Some ys /\
      MultiSeries.__iter__ m = (pairs, Ok tt) /\
      map fst pairs = ys /\
      StronglySorted Qlt (map fst pairs) /\
      map (fun p => data (Series.value (snd p))) pairs
      = rows_of (MultiSeries._array m) /\
      Forall (fun p => shape (Series.value (snd p)) = [c] /\
                       Series.deltax (snd p) = MultiSeries.deltax m /\
                       Series._info (snd p) = Series.default_info) pairs.
Proof.
  intros m c [r [ys [Hs [Hy [Hly Hsorted]]]]].
  set (g := fun i => (nth i ys 0%Q,
                      Series.mk (mk_ndarray [c] (item (MultiSeries._array m) i))
                                (MultiSeries.deltax m) Series.default_info)).
  assert (Hit : MultiSeries.__iter__ m = (map g (seq 0 r), Ok tt)).
  { unfold MultiSeries.__iter__, MultiSeries.ysize, shape_at.
    rewrite Hs. cbn [nth_error].
    apply iter_from_all_ok. intros i Hi. apply in_seq in Hi.
    unfold MultiSeries.iter_item, MultiSeries.y. rewrite Hy.
    cbn [subscriptable rbind]. unfold py_nth.
    rewrite nth_error_nth_lt by lia. cbn [rbind].
    unfold np_row. rewrite Hs.
    destruct (Nat.ltb_spec i r); [|lia]. cbn [rbind tl].
    reflexivity. }
  exists ys, (map g (seq 0 r)).
  assert (Hkeys : map fst (map g (seq 0 r)) = ys).
  { rewrite map_map. unfold g; cbn [fst]. subst r.
    rewrite map_nth_seq by lia. rewrite skipn_O. apply firstn_all. }
  split; [exact Hy|]. split; [exact Hit|]. split; [exact Hkeys|].
  split; [now rewrite Hkeys|]. split.
  - rewrite map_map. unfold rows_of. rewrite Hs. reflexivity.
  - apply Forall_forall. intros p Hp.
    apply in_map_iff in Hp as [i [<- _]]. repeat split.
Qed.

Lemma X16_iteration_yields_rows_in_key_order_witness :
  let m := MultiSeries.mk false (mk_ndarray [2; 3] [7; 8; 9; 1; 2; 3]%Q)
                          (Some (1 # 2)) (Some [5; 20]%Q) in
  exists (ys : list Q) (pairs : list (Q * Series.t)),
    MultiSeries._y m = Some ys /\
    MultiSeries.__iter__ m = (pairs, Ok tt) /\
    map fst pairs = ys.
Proof.
  intros m.
  assert (Hl : ms_lockstep 3 m).
  { exists 2, [5; 20]%Q. repeat split.
    constructor; [constructor; constructor|].
    constructor; [reflexivity | constructor]. }
  destruct (X16_iteration_yields_rows_in_key_order m 3 Hl)
    as [ys [pairs [H1 [H2 [H3 _]]]]].
  exists ys, pairs. split; [exact H1 | split; [exact H2 | exact H3]].
Defined.




(** ** Constructing a spectrum *)

(** X18: [TimeFreqSpectrum.__init__] never builds a spectrum of more than
    one row.  With a non-zero rate, an array that is not one-dimensional
    makes it raise AttributeError; when it returns, the spectrum is either
    the empty one of [CreateEmptySpectrum] (for an array of no entries,
    whatever the other arguments) or holds the whole array as its single
    row, with spacing [1/fs], exactly one frequency and exactly one
    epoch. *)
Theorem X18_spectrum_constructor_builds_at_most_one_row :
  forall (array : ndarray) (epoch : pyval) (fs : Q) (freqs : pyval),
    (~ (fs == 0)%Q -> ndim array <> 1 ->
     TimeFreqSpectrum.__init__ array epoch fs freqs = Raise AttributeError) /\
    (forall st,
        TimeFreqSpectrum.__init__ array epoch fs freqs = Ok st ->
        (st = empty_spectrum /\ shape array = [0]) \/
        (exists k e,
            st = TimeFreqSpectrum.mk
                   (MultiSeries.mk false (reshape_1_n array (np_size array))
                                   (Some (1 / fs)%Q) (Some [k]))
                   (Some [e]))).
Proof.
  intros array epoch fs freqs. split.
  - intros Hfs Hnd. unfold TimeFreqSpectrum.__init__.
    rewrite (py_truediv_nonzero 1 fs Hfs). cbn [rbind].
    unfold MultiSeries.__init__.
    destruct (Nat.eqb_spec (ndim array) 1); [contradiction|]. reflexivity.
  - intros st. unfold TimeFreqSpectrum.__init__, py_truediv.
    destruct (Qeq_bool fs 0); [discriminate|]. cbn [rbind].
    destruct (MultiSeries.__init__ array (Some (1 / fs)%Q) freqs) as [m|]
      eqn:Hm; [|discriminate]. cbn [rbind].
    destruct (MultiSeries_init_outcome _ _ _ _ Hm) as [[-> Hs]|[k ->]].
    + cbn. intros H; inversion H. left. split; [reflexivity | exact Hs].
    + cbn [MultiSeries._isempty negb].
      destruct (wrap_scalar epoch) as [| | | |l]; try discriminate.
      unfold MultiSeries.ysize, shape_at. cbn.
      destruct l as [|e [|e' l]]; cbn; try discriminate.
      intros H; inversion H. right. exists k, e. reflexivity.
Qed.

Lemma X18_spectrum_constructor_builds_at_most_one_row_witness :
  TimeFreqSpectrum.__init__ (mk_ndarray [2; 2] [1; 2; 3; 4]%Q)
                            (PySeq [0; 1]%Q) 10 (PySeq [10; 20]%Q)
  = Raise AttributeError.
Proof.
  apply (proj1 (X18_spectrum_constructor_builds_at_most_one_row
                  (mk_ndarray [2; 2] [1; 2; 3; 4]%Q) (PySeq [0; 1]%Q) 10
                  (PySeq [10; 20]%Q))).
  - intros H. discriminate H.
  - vm_compute. lia.
Defined.

(** ** Writing through a slice *)

Lemma fill_items_1d (ps : list nat) (l : list Q) (x : Q) :
  Forall (fun p => p < length l) ps ->
  exists l',
    Series.fill_items (np_array1 l) ps x = np_array1 l' /\
    length l' = length l /\
    (forall q, In q ps -> nth q l' 0%Q = x) /\
    (forall q, ~ In q ps -> nth q l' 0%Q = nth q l 0%Q).
Proof.
  revert l. induction ps as [|p ps IH]; intros l Hin.
  - exists l. split; [reflexivity|]. split; [reflexivity|].
    split; [intros q []|reflexivity].
  - inversion Hin as [|? ? Hp Hrest]; subst.
    set (l1 := firstn p l ++ x :: skipn (S p) l).
    assert (Hlen1 : length l1 = length l).
    { unfold l1. rewrite length_app, length_firstn. cbn [length].
      rewrite length_skipn. lia. }
    destruct (IH l1) as [l' [Hfill [Hlen [Hset Hkeep]]]];
      [now rewrite Hlen1|].
    exists l'. split; [|split; [congruence|split]].
    + unfold Series.fill_items in *. cbn [fold_left].
      rewrite fill_item_1d. fold l1.
      replace (mk_ndarray [length l] l1) with (np_array1 l1)
        by (unfold np_array1; now rewrite Hlen1).
      exact Hfill.
    + intros q Hq.
      destruct (in_dec Nat.eq_dec q ps) as [Hqin|Hqout];
        [now apply Hset|].
      destruct Hq as [->|Hq]; [|contradiction].
      rewrite (Hkeep q Hqout). unfold l1.
      rewrite nth_update by exact Hp. now rewrite Nat.eqb_refl.
    + intros q Hq.
      assert (Hqp : q <> p) by (intros ->; apply Hq; left; reflexivity).
      assert (Hqps : ~ In q ps) by (intros H; apply Hq; right; exact H).
      rewrite (Hkeep q Hqps). unfold l1.
      rewrite nth_update by exact Hp.
      destruct (Nat.eqb_spec q p); [contradiction|reflexivity].
Qed.

Lemma map_constant (ps : list nat) (l : list Q) (x : Q) :
  (forall q, In q ps -> nth q l 0%Q = x) ->
  map (fun p => nth p l 0%Q) ps = repeat x (length ps).
Proof.
  induction ps as [|p ps IH]; intros H; [reflexivity|].
  simpl. rewrite (H p) by (left; reflexivity).
  f_equal. apply IH. intros q Hq. apply H. right. exact Hq.
Qed.

(** X19: on a one-dimensional series, [s[sl] = x] with a slice of non-zero
    step and a number [x] that the dtype of the buffer can hold writes the
    cast of [x] at every position the slice selects and nowhere else: the
    number of entries is unchanged, every selected position reads the cast
    of [x] afterwards, every position not selected reads as before, and
    (when the start of the slice is not negative and its step converts to
    a float, so that reading through the slice is allowed) [s[sl]]
    afterwards is a series of that many copies of the cast of [x]. *)
Theorem X19_slice_assignment_fills_the_slice :
  forall (dt : dtype) (l : list Q) (d : Q) (info : string) (sl : pyslice)
         (x x' : Q),
    step sl <> Some 0%Z ->
    np_cast dt x = Ok x' ->
    let s := Series.mk (np_array1 l) (Some d) info in
    exists (s' : Series.t) (ps : list nat),
      slice_positions sl (length l) = Ok ps /\
      Series.__setitem__ dt (Series.Other (Series.Slice sl)) x s
      = (Ok tt, s') /\
      Series.__len__ s' = Series.__len__ s /\
      (forall q, In q ps ->
                 Series.__getitem__ s' (Series.Int (Z.of_nat q))
                 = Ok (Series.Scalar x')) /\
      (forall q, q < length l -> ~ In q ps ->
                 Series.__getitem__ s' (Series.Int (Z.of_nat q))
                 = Series.__getitem__ s (Series.Int (Z.of_nat q))) /\
      (start_not_negative sl -> step_in_float_range sl ->
       Series._getslice s' (Series.Slice sl)
       = Ok (Series.Wrapped
               (Series.mk (np_array1 (repeat x' (length ps)))
                          (Some (sliced_deltax d sl)) Series.default_info))).
Proof.
  intros dt l d info sl x x' Hnz Hcast s.
  destruct (slice_positions_ok sl (length l) Hnz) as [ps [Hps [Hin _]]].
  destruct (fill_items_1d ps l x' Hin) as [l' [Hfill [Hlen [Hset Hkeep]]]].
  exists (Series.mk (np_array1 l') (Some d) info), ps.
  assert (Hread : forall q, q < length l ->
            Series.__getitem__ (Series.mk (np_array1 l') (Some d) info)
                               (Series.Int (Z.of_nat q))
            = Ok (Series.Scalar (nth q l' 0%Q))).
  { intros q Hq.
    assert (Hr : (- Z.of_nat (length l') <= Z.of_nat q
                  < Z.of_nat (length l'))%Z) by lia.
    rewrite (getitem_int_1d l' (Some d) info _ Hr).
    unfold key_position.
    destruct (Z.ltb_spec (Z.of_nat q) 0); [lia|].
    now rewrite Nat2Z.id. }
  split; [exact Hps|]. split; [|split; [|split; [|split]]].
  - unfold Series.__setitem__, Series.key_positions, s.
    cbn [Series._value Series._deltax Series._info].
    change (shape (np_array1 l)) with [length l]. cbv beta iota.
    rewrite Hps. cbn [rbind]. rewrite Hcast. cbn [rbind].
    now rewrite Hfill.
  - unfold Series.__len__, np_len; simpl. now rewrite Hlen.
  - intros q Hq.
    assert (Hql : q < length l).
    { rewrite Forall_forall in Hin. now apply Hin. }
    rewrite (Hread q Hql). now rewrite (Hset q Hq).
  - intros q Hq Hout.
    rewrite (Hread q Hq).
    assert (Hr : (- Z.of_nat (length l) <= Z.of_nat q < Z.of_nat (length l))%Z)
      by lia.
    unfold s. rewrite (getitem_int_1d l (Some d) info _ Hr).
    unfold key_position.
    destruct (Z.ltb_spec (Z.of_nat q) 0); [lia|].
    rewrite Nat2Z.id. now rewrite (Hkeep q Hout).
  - intros Hst _.
    rewrite (getslice_1d l' d info sl ps Hst).
    + now rewrite (map_constant ps l' x' Hset).
    + now rewrite Hlen.
    + now rewrite Hlen.
Qed.

Lemma X19_slice_assignment_fills_the_slice_witness :
  exists (s' : Series.t) (ps : list nat),
    slice_positions (mk_slice (Some (-4)%Z) None (Some 2%Z)) 5 = Ok ps /\
    Series.__setitem__ float64
      (Series.Other (Series.Slice (mk_slice (Some (-4)%Z) None (Some 2%Z)))) 7
      (Series.mk (np_array1 [1; 2; 3; 4; 5]%Q) (Some (1 # 4)) "abc"%string)
    = (Ok tt, s') /\
    Series.__len__ s' = Ok 5 /\
    Series.__getitem__ s' (Series.Int 3) = Ok (Series.Scalar 7%Q).
Proof.
  assert (Hnz : step (mk_slice (Some (-4)%Z) None (Some 2%Z)) <> Some 0%Z)
    by (simpl; discriminate).
  destruct (X19_slice_assignment_fills_the_slice float64 [1; 2; 3; 4; 5]%Q
              (1 # 4) "abc"%string (mk_slice (Some (-4)%Z) None (Some 2%Z))
              7%Q 7%Q Hnz eq_refl)
    as [s' [ps [H1 [H2 [H3 [H4 _]]]]]].
  exists s', ps. split; [exact H1|]. split; [exact H2|]. split; [exact H3|].
  apply (H4 3). vm_compute in H1. inversion H1. simpl. tauto.
Defined.

(** ** Rows and keys a sorted [MultiSeries] refuses *)

Lemma ms_append_checks (m : MultiSeries.t) (r c : nat)
      (arg : MultiSeries.series_arg) (y : pyval) (series : Series.t)
      (n : nat) :
  MultiSeries._isempty m = false ->
  shape (MultiSeries._array m) = [r; c] ->
  resolved m arg = Ok series ->
  Series.__len__ series = Ok n ->
  (n <> c -> MultiSeries.append arg y m = (Raise IncompatibleSize, m)) /\
  (n = c ->
   optQ_neb (Series.deltax series) (MultiSeries.deltax m) = true ->
   MultiSeries.append arg y m = (Raise IncompatibleDeltax, m)) /\
  (n = c ->
   optQ_neb (Series.deltax series) (MultiSeries.deltax m) = false ->
   forall k rest e,
     MultiSeries._y m = Some (k :: rest) ->
     key_number (length (k :: rest)) y = Raise e ->
     MultiSeries.append arg y m = (Raise e, m)).
Proof.
  intros He Hs Hres Hn.
  unfold MultiSeries.append, bind, get, lift, raise.
  fold (resolved m arg). rewrite Hres, He. cbn [negb]. rewrite Hn.
  unfold MultiSeries.xsize, shape_at. rewrite Hs. cbn [nth_error].
  split; [|split].
  - intros Hne. destruct (Nat.eqb_spec n c); [contradiction|]. reflexivity.
  - intros -> Hdx. rewrite Nat.eqb_refl. cbn [negb]. now rewrite Hdx.
  - intros -> Hdx k rest e Hy Hkey.
    rewrite Nat.eqb_refl. cbn [negb]. rewrite Hdx, Hy.
    cbn [subscriptable py_last]. now rewrite Hkey.
Qed.

(** X20: on a [MultiSeries] built with a float key and extended by plain
    calls, whose rows have [c] columns: a plain [append] that raises leaves
    the container exactly as it was; a series whose length is not [c]
    raises the size error; one of length [c] whose spacing differs from
    the container's raises the spacing error; and a fitting series raises
    TypeError when the key is [None] or a string, and ValueError when the
    key is a sequence of two or more numbers. *)
Theorem X20_multiseries_append_rejects_and_keeps_state :
  forall (m : MultiSeries.t) (c : nat) (arg : MultiSeries.series_arg)
         (y : pyval),
    ms_built m ->
    MultiSeries.xsize m = Ok c ->
    (forall e m',
        ms_plain_call (MultiSeries.mk_call arg y) ->
        MultiSeries.append arg y m = (Raise e, m') -> m' = m) /\
    (forall series n,
        resolved m arg = Ok series ->
        Series.__len__ series = Ok n -> n <> c ->
        MultiSeries.append arg y m = (Raise IncompatibleSize, m)) /\
    (forall series,
        resolved m arg = Ok series ->
        Series.__len__ series = Ok c ->
        optQ_neb (Series.deltax series) (MultiSeries.deltax m) = true ->
        MultiSeries.append arg y m = (Raise IncompatibleDeltax, m)) /\
    (forall series,
        resolved m arg = Ok series ->
        Series.__len__ series = Ok c ->
        optQ_neb (Series.deltax series) (MultiSeries.deltax m) = false ->
        (y = PyNone \/ (exists s, y = PyStr s) ->
         MultiSeries.append arg y m = (Raise TypeError, m)) /\
        ((exists a b l, y = PySeq (a :: b :: l)) ->
         MultiSeries.append arg y m = (Raise ValueError, m))).
Proof.
  intros m c arg y Hb Hx.
  destruct (ms_built_sorted m Hb) as [He [Hkeys [c' [Hl Hwf]]]].
  assert (Hl' := Hl).
  destruct Hl' as [r [ys [Hs [Hy [Hly Hsorted]]]]].
  assert (c' = c).
  { unfold MultiSeries.xsize, shape_at in Hx. rewrite Hs in Hx.
    cbn in Hx. now inversion Hx. }
  subst c'.
  split; [|split; [|split]].
  - intros e m' [Hflat [Hwfv _]] H. cbn in Hflat, Hwfv.
    destruct (ms_append_sorted_outcome _ _ _ _ _ _ He Hl Hflat Hwfv H)
      as [[e' [_ Hm]]|[Hr _]]; [exact Hm | discriminate Hr].
  - intros series n Hres Hn Hne.
    now apply (proj1 (ms_append_checks m r c arg y series n He Hs Hres Hn)).
  - intros series Hres Hn Hdx.
    now apply (proj1 (proj2
                 (ms_append_checks m r c arg y series c He Hs Hres Hn))).
  - intros series Hres Hn Hdx.
    pose proof (proj2 (proj2
                  (ms_append_checks m r c arg y series c He Hs Hres Hn))
                  eq_refl Hdx) as Hkey.
    destruct ys as [|k rest]; [now rewrite Hy in Hkeys|].
    split.
    + intros [->|[s ->]]; apply (Hkey k rest TypeError Hy); reflexivity.
    + intros [a [b [l ->]]]. apply (Hkey k rest ValueError Hy). reflexivity.
Qed.

Lemma X20_multiseries_append_rejects_and_keeps_state_witness :
  let m := MultiSeries.mk false (mk_ndarray [1; 3] [1; 2; 3]%Q)
                          (Some (1 # 2)) (Some [20]%Q) in
  MultiSeries.append
    (MultiSeries.ArgRaw (np_array1 [7; 8]%Q)) (PyInt 5) m
  = (Raise IncompatibleSize, m) /\
  MultiSeries.append
    (MultiSeries.ArgRaw (np_array1 [7; 8; 9]%Q)) (PySeq [5; 6]%Q) m
  = (Raise ValueError, m).
Proof.
  intros m.
  split.
  - apply (proj1 (proj2 (X20_multiseries_append_rejects_and_keeps_state
                           m 3 (MultiSeries.ArgRaw (np_array1 [7; 8]%Q))
                           (PyInt 5) one_row_multiseries_built eq_refl))
             (Series.mk (np_array1 [7; 8]%Q) (Some (1 # 2))
                        Series.default_info) 2);
      [reflexivity | reflexivity | lia].
  - apply (proj2 (proj2 (proj2 (proj2
             (X20_multiseries_append_rejects_and_keeps_state
                m 3 (MultiSeries.ArgRaw (np_array1 [7; 8; 9]%Q))
                (PySeq [5; 6]%Q) one_row_multiseries_built eq_refl)))
             (Series.mk (np_array1 [7; 8; 9]%Q) (Some (1 # 2))
                        Series.default_info) eq_refl eq_refl eq_refl));
      exists 5%Q, 6%Q, []; reflexivity.
Defined.
